(** * Lead generation scripts: a shallow embedding and its properties

    The development embeds the three scripts of the repository

    - [main.py]                  (class [LeadGenerationSystem]),
    - [apollo_people_search.py]  (function [people_search]),
    - [hunter_domain_search.py]  (function [domain_search]),

    and proves properties of the query classifier, the request builders,
    the record normalizers, the enrichment loop and the aggregator.

    Modelling conventions.

    - Python values (request fields, decoded JSON bodies, the fields of a
      [Person]) are the inductive type [pyval]; a [dict] is an association
      list in insertion order, as Python dictionaries are.
    - Strings are [string]s of the Standard Library holding the UTF-8
      encoding of the text.  [strip] removes the white space of Python
      (the ASCII one and the Unicode one); [lower] folds the letters A-Z,
      which is all that the tests made on its result can see.
    - [Person] objects are mutable and shared by reference in Python, so
      they live in a heap indexed by object identity ([ref]); lists of
      persons are lists of references.
    - The network is an oracle [net]: the answer to the [n]-th HTTP call
      may depend on [n] and on the request.  The behaviour of the
      [requests] library ([raise_for_status], [Response.json]) is written
      out where the scripts rely on it.
    - Exceptions are values of [exn]; a computation of the class threads a
      [World] and returns [Ok v] or [Raise e] together with the world at
      that point, so that mutations made before an exception persist.
    - The pacing delay ([time.sleep]) is not modelled, and neither is the
      console output of the class and of the interactive session of
      [main.py]; the standalone clients and the printers return the lines
      they print next to their result. *)

From Stdlib Require Import String Ascii List ZArith Bool Lia PeanoNat.
From Stdlib Require Import DecimalString.
From Stdlib Require Import Floats.PrimFloat.
Import ListNotations.
Local Open Scope string_scope.
Local Open Scope list_scope.

(* ================================================================== *)
(** ** Strings as Python uses them *)

Module PyString.

(** [c.lower()] on one ASCII character.  The bytes of the other
    characters are kept.  The scripts only compare the result with, or
    look in it for, ASCII words ([faang], [engineer], [quit], [y], ...).
    Beyond the ASCII range only U+212A lowers to an ASCII letter (k, which
    none of these words contains) and only U+0130 to a sequence with one
    (i followed by a combining dot, which none of these words can
    continue), so these tests see no difference. *)
Definition lower_char (c : ascii) : ascii :=
  let n := nat_of_ascii c in
  if (65 <=? n)%nat && (n <=? 90)%nat then ascii_of_nat (n + 32) else c.

(** [s.lower()] *)
Fixpoint lower (s : string) : string :=
  match s with
  | EmptyString => EmptyString
  | String c t => String (lower_char c) (lower t)
  end.

(** [needle in hay] for two strings: some suffix of [hay] starts with
    [needle]. *)
Fixpoint contains (needle hay : string) : bool :=
  String.prefix needle hay ||
  match hay with
  | EmptyString => false
  | String _ t => contains needle t
  end.

(** White space removed by [str.strip()]: the characters for which
    [str.isspace()] holds.  In the ASCII range these are the codes 9-13
    and 28-32. *)
Definition is_space (c : ascii) : bool :=
  let n := nat_of_ascii c in
  ((9 <=? n)%nat && (n <=? 13)%nat) || ((28 <=? n)%nat && (n <=? 32)%nat).

(** Beyond the ASCII range Python also strips U+0085, U+00A0, U+1680,
    U+2000 to U+200A, U+2028, U+2029, U+202F, U+205F and U+3000.  A
    [string] holds the UTF-8 encoding of the text, where these are
    sequences of two bytes (C2 85, C2 A0) ... *)
Definition is_space2 (c1 c2 : ascii) : bool :=
  let a := nat_of_ascii c1 in
  let b := nat_of_ascii c2 in
  (a =? 194)%nat && ((b =? 133)%nat || (b =? 160)%nat).

(** ... or of three bytes (E1 9A 80; E2 80 80 to E2 80 8A, E2 80 A8,
    E2 80 A9, E2 80 AF; E2 81 9F; E3 80 80). *)
Definition is_space3 (c1 c2 c3 : ascii) : bool :=
  let a := nat_of_ascii c1 in
  let b := nat_of_ascii c2 in
  let c := nat_of_ascii c3 in
  ((a =? 225)%nat && (b =? 154)%nat && (c =? 128)%nat)
  || ((a =? 226)%nat && (b =? 128)%nat &&
      (((128 <=? c)%nat && (c <=? 138)%nat)
       || (c =? 168)%nat || (c =? 169)%nat || (c =? 175)%nat))
  || ((a =? 226)%nat && (b =? 129)%nat && (c =? 159)%nat)
  || ((a =? 227)%nat && (b =? 128)%nat && (c =? 128)%nat).

(** Drops leading white space, one character (of one, two or three
    bytes) at a time. *)
Fixpoint lstrip (s : string) : string :=
  match s with
  | EmptyString => EmptyString
  | String c1 t1 =>
      if is_space c1 then lstrip t1
      else
        match t1 with
        | EmptyString => s
        | String c2 t2 =>
            if is_space2 c1 c2 then lstrip t2
            else
              match t2 with
              | EmptyString => s
              | String c3 t3 => if is_space3 c1 c2 c3 then lstrip t3 else s
              end
        end
  end.

(** Drops trailing white space: the text ends where only white space
    remains. *)
Fixpoint rstrip (s : string) : string :=
  match s with
  | EmptyString => EmptyString
  | String c t =>
      if String.eqb (lstrip s) EmptyString
      then EmptyString
      else String c (rstrip t)
  end.

(** [s.strip()] *)
Definition strip (s : string) : string := rstrip (lstrip s).

(** [sep.join(parts)] for a list of strings. *)
Fixpoint join (sep : string) (parts : list string) : string :=
  match parts with
  | [] => EmptyString
  | [p] => p
  | p :: rest => p ++ sep ++ join sep rest
  end.

(** The characters of a string, each as a one-character string: what
    iterating over a [str] yields. *)
Fixpoint chars (s : string) : list string :=
  match s with
  | EmptyString => []
  | String c t => String c EmptyString :: chars t
  end.

(** [str(n)] for an integer: decimal digits, with a minus sign. *)
Definition of_Z (z : Z) : string := NilEmpty.string_of_int (Z.to_int z).

End PyString.

(* ================================================================== *)
(** ** Python values *)

Set Warnings "-register-all".

(** The values the scripts handle: [None], booleans, integers, floats,
    strings, lists and dictionaries.  A decoded JSON body is one of
    these. *)
Inductive pyval : Type :=
| PyNone
| PyBool (b : bool)
| PyInt (n : Z)
| PyFloat (f : float)
| PyStr (s : string)
| PyList (items : list pyval)
| PyDict (entries : list (string * pyval)).

(** A dictionary with string keys, in insertion order. *)
Definition dict := list (string * pyval).

(** Truth value of an object, as [if x:] and [not x] compute it. *)
Definition truthy (v : pyval) : bool :=
  match v with
  | PyNone => false
  | PyBool b => b
  | PyInt n => negb (n =? 0)%Z
  | PyFloat f => negb (PrimFloat.eqb f 0%float)
  | PyStr s => negb (String.eqb s EmptyString)
  | PyList items => match items with [] => false | _ => true end
  | PyDict entries => match entries with [] => false | _ => true end
  end.

(** [v == s] for a string literal [s]: only a string can be equal to it. *)
Definition eq_str (v : pyval) (s : string) : bool :=
  match v with
  | PyStr t => String.eqb t s
  | _ => false
  end.

Module Dict.

(** [d.get(key)], [None] of the option type standing for a missing key. *)
Fixpoint lookup (key : string) (d : dict) : option pyval :=
  match d with
  | [] => None
  | (k, v) :: rest => if String.eqb k key then Some v else lookup key rest
  end.

(** [key in d] *)
Definition mem (key : string) (d : dict) : bool :=
  match lookup key d with Some _ => true | None => false end.

(** [d.get(key, default)]: the default is used only when the key is
    missing; a key bound to [None] yields [None]. *)
Definition get (key : string) (default : pyval) (d : dict) : pyval :=
  match lookup key d with Some v => v | None => default end.

(** [d[key] = v]: replaces the value of an existing key in place, appends
    a new key at the end. *)
Fixpoint set (key : string) (v : pyval) (d : dict) : dict :=
  match d with
  | [] => [(key, v)]
  | (k, w) :: rest =>
      if String.eqb k key then (k, v) :: rest else (k, w) :: set key v rest
  end.

Definition keys (d : dict) : list string := map fst d.

End Dict.

(* ================================================================== *)
(** ** Exceptions and results *)

(** The exceptions that reach the scripts.  [RequestException] stands for
    the class [requests.exceptions.RequestException] and its subclasses
    (connection errors, [HTTPError], the decoding error of
    [Response.json]); [PyException] is a plain [Exception(msg)]. *)
Inductive exn : Type :=
| ValueError (msg : string)
| PyException (msg : string)
| RequestException (msg : string)
| KeyError (key : string)
| TypeError
| AttributeError
| IndexError.

(** [isinstance(e, requests.exceptions.RequestException)] *)
Definition is_RequestException (e : exn) : bool :=
  match e with RequestException _ => true | _ => false end.

Inductive result (A : Type) : Type :=
| Ok (v : A)
| Raise (e : exn).
Arguments Ok {A} v.
Arguments Raise {A} e.

(** What a caller that swallows the failure keeps of a list result. *)
Definition records_of {A : Type} (r : result (list A)) : list A :=
  match r with Ok l => l | Raise _ => [] end.

(* ================================================================== *)
(** ** Operations on Python values that can raise *)

Module Py.

(** [v.get(key, default)]: only dictionaries have the method. *)
Definition get (v : pyval) (key : string) (default : pyval) : result pyval :=
  match v with
  | PyDict d => Ok (Dict.get key default d)
  | _ => Raise AttributeError
  end.

(** [v[key]] with a string key. *)
Definition item (v : pyval) (key : string) : result pyval :=
  match v with
  | PyDict d =>
      match Dict.lookup key d with
      | Some x => Ok x
      | None => Raise (KeyError key)
      end
  | _ => Raise TypeError
  end.

(** [v[0]].  The dictionaries at hand have string keys only, so the
    integer key is missing; [repr(0)] is the key the error reports. *)
Definition first (v : pyval) : result pyval :=
  match v with
  | PyList (x :: _) => Ok x
  | PyList [] => Raise IndexError
  | PyStr (String c _) => Ok (PyStr (String c EmptyString))
  | PyStr EmptyString => Raise IndexError
  | PyDict _ => Raise (KeyError "0")
  | _ => Raise TypeError
  end.

(** The items a [for] loop over [v] visits. *)
Definition iter (v : pyval) : result (list pyval) :=
  match v with
  | PyList items => Ok items
  | PyStr s => Ok (map PyStr (PyString.chars s))
  | PyDict d => Ok (map PyStr (Dict.keys d))
  | _ => Raise TypeError
  end.

(** The strings of a list of values, when all of them are strings. *)
Fixpoint all_str (items : list pyval) : option (list string) :=
  match items with
  | [] => Some []
  | PyStr s :: rest =>
      match all_str rest with
      | Some l => Some (s :: l)
      | None => None
      end
  | _ :: _ => None
  end.

(** [sep.join(v)]: [v] must be iterable and yield strings only. *)
Definition join (sep : string) (v : pyval) : result string :=
  match iter v with
  | Raise e => Raise e
  | Ok items =>
      match all_str items with
      | Some parts => Ok (PyString.join sep parts)
      | None => Raise TypeError
      end
  end.

End Py.

(* ================================================================== *)
(** ** The HTTP layer, as the [requests] library presents it *)

Inductive Method : Type := GET | POST.

(** One call [requests.get(url, headers=, params=)] or
    [requests.post(url, headers=, json=)]. *)
Record Request : Type := mkRequest {
  req_method : Method;
  req_url : string;
  req_headers : dict;
  req_params : dict;
  req_json : option dict
}.

(** A [requests.Response]: the status line, the final URL, the body as
    text, and what [Response.json()] makes of the body: the decoded value,
    or the message of the decoding error. *)
Record Response : Type := mkResponse {
  status_code : Z;
  reason : string;
  url : string;
  text : string;
  decoded : string + pyval
}.

(** What a call comes back with: an exception of the transport (no
    response at all), or a response. *)
Inductive Outcome : Type :=
| ConnectionFailure (msg : string)
| Responded (r : Response).

(** The network: the answer to the [n]-th call of a run. *)
Definition Oracle := nat -> Request -> Outcome.

(** The text of the [HTTPError] that [raise_for_status] builds. *)
Definition http_error_msg (r : Response) : string :=
  PyString.of_Z (status_code r)
    ++ (if (status_code r <? 500)%Z then " Client Error: " else " Server Error: ")
    ++ reason r ++ " for url: " ++ url r.

(** [response.raise_for_status()]: an [HTTPError] for the statuses
    400..599, nothing otherwise. *)
Definition raise_for_status (r : Response) : result unit :=
  if (400 <=? status_code r)%Z && (status_code r <? 600)%Z
  then Raise (RequestException (http_error_msg r))
  else Ok tt.

(** [response.json()]: a body that does not decode raises
    [requests.exceptions.JSONDecodeError], a [RequestException]. *)
Definition json (r : Response) : result pyval :=
  match decoded r with
  | inr v => Ok v
  | inl msg => Raise (RequestException msg)
  end.

(** The world outside the program: the network, and the interpreter's
    [repr] for the values whose text the scripts do not depend on (floats,
    lists, dictionaries). *)
Record Environment : Type := mkEnvironment {
  net : Oracle;
  repr : pyval -> string
}.

(** [f"{v}"]: the text of a value inside an f-string. *)
Definition format_value (env : Environment) (v : pyval) : string :=
  match v with
  | PyStr s => s
  | PyNone => "None"
  | PyBool true => "True"
  | PyBool false => "False"
  | PyInt n => PyString.of_Z n
  | other => repr env other
  end.

(* ================================================================== *)
(** ** [main.py]: the data class, the heap and the monad *)

(** [@dataclass class Person].  The annotations say [str]; the fields
    hold whatever the normalizers store. *)
Record Person : Type := mkPerson {
  name : pyval;
  email : pyval;
  phone : pyval;
  linkedin_url : pyval;
  job_title : pyval;
  company : pyval;
  location : pyval
}.

(** The identity of a [Person] object. *)
Definition ref := nat.

(** The objects created so far ([heap] below [next]) and the HTTP calls
    made so far, oldest first. *)
Record World : Type := mkWorld {
  heap : ref -> Person;
  next : ref;
  calls : list Request
}.

Definition upd (h : ref -> Person) (r : ref) (p : Person) : ref -> Person :=
  fun r' => if Nat.eqb r' r then p else h r'.

(** A computation that reads and writes the world and may raise. *)
Definition M (A : Type) : Type := World -> result A * World.

Definition ret {A : Type} (v : A) : M A := fun w => (Ok v, w).

Definition raise {A : Type} (e : exn) : M A := fun w => (Raise e, w).

Definition bind {A B : Type} (c : M A) (k : A -> M B) : M B :=
  fun w =>
    match c w with
    | (Ok v, w') => k v w'
    | (Raise e, w') => (Raise e, w')
    end.

(** A pure step that may raise. *)
Definition lift {A : Type} (r : result A) : M A := fun w => (r, w).

(** [try: c  except Exception as e: handler e].  The handler runs in the
    world the exception left. *)
Definition try_except {A : Type} (c : M A) (handler : exn -> M A) : M A :=
  fun w =>
    match c w with
    | (Ok v, w') => (Ok v, w')
    | (Raise e, w') => handler e w'
    end.

Declare Scope py_scope.
Delimit Scope py_scope with py.
Notation "x <- c ;; k" := (bind c (fun x => k))
  (at level 61, c at next level, right associativity) : py_scope.
Notation "c ;;; k" := (bind c (fun _ => k))
  (at level 61, right associativity) : py_scope.

(** Sequencing of pure steps that may raise. *)
Definition rbind {A B : Type} (r : result A) (k : A -> result B) : result B :=
  match r with
  | Ok v => k v
  | Raise e => Raise e
  end.
Notation "'let?' x ':=' r 'in' k" := (rbind r (fun x => k))
  (at level 61, x name, r at next level, right associativity) : py_scope.

Local Open Scope py_scope.

(** [for x in items: s = body s x], the loop state being the local
    variables the body assigns. *)
Fixpoint for_each {A S : Type} (items : list A) (body : S -> A -> M S) (s : S)
  : M S :=
  match items with
  | [] => ret s
  | x :: rest => s' <- body s x ;; for_each rest body s'
  end.

(** [Person(...)]: a new object. *)
Definition new_person (p : Person) : M ref :=
  fun w => (Ok (next w), mkWorld (upd (heap w) (next w) p) (S (next w)) (calls w)).

(** Reading the fields of an object. *)
Definition deref (r : ref) : M Person := fun w => (Ok (heap w r), w).

Definition with_email (p : Person) (v : pyval) : Person :=
  mkPerson (name p) v (phone p) (linkedin_url p) (job_title p) (company p)
    (location p).

Definition with_phone (p : Person) (v : pyval) : Person :=
  mkPerson (name p) (email p) v (linkedin_url p) (job_title p) (company p)
    (location p).

(** [person.email = v] *)
Definition set_email (r : ref) (v : pyval) : M unit :=
  fun w => (Ok tt, mkWorld (upd (heap w) r (with_email (heap w r) v)) (next w) (calls w)).

(** [person.phone = v] *)
Definition set_phone (r : ref) (v : pyval) : M unit :=
  fun w => (Ok tt, mkWorld (upd (heap w) r (with_phone (heap w r) v)) (next w) (calls w)).

(** One HTTP call: the oracle answers the call numbered by the calls made
    before it; a failure of the transport is a [RequestException]. *)
Definition send (env : Environment) (rq : Request) : M Response :=
  fun w =>
    let w' := mkWorld (heap w) (next w) (calls w ++ [rq]) in
    match net env (length (calls w)) rq with
    | ConnectionFailure msg => (Raise (RequestException msg), w')
    | Responded r => (Ok r, w')
    end.

(** [requests.post(url, headers=headers, json=payload)] *)
Definition requests_post (env : Environment) (u : string) (headers payload : dict)
  : M Response :=
  send env (mkRequest POST u headers [] (Some payload)).

(** [requests.get(url, headers=headers, params=params)] *)
Definition requests_get (env : Environment) (u : string) (headers params : dict)
  : M Response :=
  send env (mkRequest GET u headers params None).

(** [LeadGenerationSystem.__init__]: the keys read from the process
    environment, [None] when a variable is not set. *)
Record LeadGenerationSystem : Type := mkSystem {
  apollo_api_key : option string;
  hunter_api_key : option string;
  clado_api_key : option string;
  proxycurl_api_key : option string
}.

(** The value [os.getenv] returned. *)
Definition getenv_value (k : option string) : pyval :=
  match k with Some s => PyStr s | None => PyNone end.

(** [if self.some_key:] *)
Definition configured (k : option string) : bool := truthy (getenv_value k).

(* ================================================================== *)
(** ** [main.py]: the provider clients and their normalizers *)

(** [search_people_apollo], lines 57-70: the request body.  A criteria
    field is forwarded when its key is in the dictionary. *)
Definition apollo_payload (criteria : dict) : result dict :=
  let payload :=
    [("page", PyInt 1); ("per_page", Dict.get "limit" (PyInt 25) criteria)] in
  let? payload :=
    (if Dict.mem "job_titles" criteria
     then let? v := Py.item (PyDict criteria) "job_titles" in
          Ok (Dict.set "person_titles" v payload)
     else Ok payload) in
  let? payload :=
    (if Dict.mem "company_names" criteria
     then let? v := Py.item (PyDict criteria) "company_names" in
          Ok (Dict.set "organization_names" v payload)
     else Ok payload) in
  let? payload :=
    (if Dict.mem "locations" criteria
     then let? v := Py.item (PyDict criteria) "locations" in
          Ok (Dict.set "person_locations" v payload)
     else Ok payload) in
  if Dict.mem "keywords" criteria
  then let? v := Py.item (PyDict criteria) "keywords" in
       let? joined := Py.join " " v in
       Ok (Dict.set "q_keywords" (PyStr joined) payload)
  else Ok payload.

(** Lines 80-88: the fields of one item of [people]. *)
Definition apollo_record (person_data : pyval) : result Person :=
  let? name_ := Py.get person_data "name" (PyStr EmptyString) in
  let? email_ := Py.get person_data "email" (PyStr EmptyString) in
  let? phone_ := Py.get person_data "phone" (PyStr EmptyString) in
  let? linkedin_ := Py.get person_data "linkedin_url" (PyStr EmptyString) in
  let? title_ := Py.get person_data "title" (PyStr EmptyString) in
  let? organization := Py.get person_data "organization" (PyDict []) in
  let? company_ := Py.get organization "name" (PyStr EmptyString) in
  let? city_ := Py.get person_data "city" (PyStr EmptyString) in
  Ok (mkPerson name_ email_ phone_ linkedin_ title_ company_ city_).

(** Lines 76-91: decoding and the loop over [data.get('people', [])]. *)
Definition apollo_normalize (data : pyval) : M (list ref) :=
  people_field <- lift (Py.get data "people" (PyList [])) ;;
  items <- lift (Py.iter people_field) ;;
  for_each items
    (fun people person_data =>
       fields <- lift (apollo_record person_data) ;;
       person <- new_person fields ;;
       ret (people ++ [person]))
    [].

(** The two [except requests.exceptions.RequestException as e:
    raise Exception(f"<label> API error: {str(e)}")] clauses; any other
    exception passes through. *)
Definition wrap_request_exception {A : Type} (label : string) (e : exn) : M A :=
  match e with
  | RequestException msg => raise (PyException (label ++ " API error: " ++ msg))
  | other => raise other
  end.

Definition search_people_apollo (self : LeadGenerationSystem) (env : Environment)
    (criteria : dict) : M (list ref) :=
  if negb (configured (apollo_api_key self))
  then raise (ValueError
         "Apollo API key not found. Set APOLLO_API_KEY environment variable.")
  else
    let u := "https://api.apollo.io/v1/mixed_people/search" in
    let headers :=
      [("Cache-Control", PyStr "no-cache");
       ("Content-Type", PyStr "application/json");
       ("X-Api-Key", getenv_value (apollo_api_key self))] in
    payload <- lift (apollo_payload criteria) ;;
    try_except
      (response <- requests_post env u headers payload ;;
       lift (raise_for_status response) ;;;
       data <- lift (json response) ;;
       apollo_normalize data)
      (wrap_request_exception "Apollo").

(** [search_people_hunter], lines 112-120: the query parameters. *)
Definition hunter_params (self : LeadGenerationSystem) (domain : string)
    (job_title_ : pyval) : dict :=
  let params :=
    [("domain", PyStr domain);
     ("api_key", getenv_value (hunter_api_key self));
     ("limit", PyInt 25)] in
  if truthy job_title_
  then Dict.set "seniority" job_title_ (Dict.set "type" (PyStr "personal") params)
  else params.

(** Lines 130-136: the fields of one item of [emails]; [phone] and
    [location] keep the defaults of the data class. *)
Definition hunter_record (env : Environment) (data email_data : pyval)
  : result Person :=
  let? first_name := Py.get email_data "first_name" (PyStr EmptyString) in
  let? last_name := Py.get email_data "last_name" (PyStr EmptyString) in
  let name_ :=
    PyString.strip
      (format_value env first_name ++ " " ++ format_value env last_name) in
  let? email_ := Py.get email_data "value" (PyStr EmptyString) in
  let? title_ := Py.get email_data "position" (PyStr EmptyString) in
  let? data_field := Py.get data "data" (PyDict []) in
  let? company_ := Py.get data_field "organization" (PyStr EmptyString) in
  let? linkedin_ := Py.get email_data "linkedin" (PyStr EmptyString) in
  Ok (mkPerson (PyStr name_) email_ (PyStr EmptyString) linkedin_ title_
        company_ (PyStr EmptyString)).

(** Lines 126-139: the loop over [data.get('data', {}).get('emails', [])]. *)
Definition hunter_normalize (env : Environment) (data : pyval) : M (list ref) :=
  data_field <- lift (Py.get data "data" (PyDict [])) ;;
  emails <- lift (Py.get data_field "emails" (PyList [])) ;;
  items <- lift (Py.iter emails) ;;
  for_each items
    (fun people email_data =>
       fields <- lift (hunter_record env data email_data) ;;
       person <- new_person fields ;;
       ret (people ++ [person]))
    [].

Definition search_people_hunter (self : LeadGenerationSystem) (env : Environment)
    (domain : string) (job_title_ : pyval) : M (list ref) :=
  if negb (configured (hunter_api_key self))
  then raise (ValueError
         "Hunter API key not found. Set HUNTER_API_KEY environment variable.")
  else
    let u := "https://api.hunter.io/v2/domain-search" in
    let params := hunter_params self domain job_title_ in
    try_except
      (response <- requests_get env u [] params ;;
       lift (raise_for_status response) ;;;
       data <- lift (json response) ;;
       hunter_normalize env data)
      (wrap_request_exception "Hunter").

(* ================================================================== *)
(** ** [main.py]: enrichment *)

(** Lines 168-174: the lookup key, [linkedin_url] before [email]; [None]
    when the record has neither. *)
Definition clado_params (p : Person) : option dict :=
  if truthy (linkedin_url p) then Some [("linkedin_url", linkedin_url p)]
  else if truthy (email p) then Some [("email", email p)]
  else None.

Definition clado_url : string := "https://search.clado.ai/api/enrich/contacts".

Definition clado_headers (self : LeadGenerationSystem) : dict :=
  [("Authorization",
    PyStr ("Bearer " ++ match clado_api_key self with
                        | Some k => k
                        | None => "None"
                        end));
   ("Content-Type", PyStr "application/json")].

(** Lines 188-191: one entry of [contacts] applied to the object. *)
Definition apply_contact (person : ref) (contact : pyval) : M unit :=
  type_ <- lift (Py.item contact "type") ;;
  p <- deref person ;;
  if eq_str type_ "email" && negb (truthy (email p))
  then value <- lift (Py.item contact "value") ;;
       set_email person value
  else
    type_ <- lift (Py.item contact "type") ;;
    p <- deref person ;;
    if eq_str type_ "phone" && negb (truthy (phone p))
    then value <- lift (Py.item contact "value") ;;
         set_phone person value
    else ret tt.

(** Lines 183-184 and the head of the loop at line 187: the entries of
    [data.get('data', [{}])[0].get('contacts', [])]. *)
Definition response_contacts (response : Response) : result (list pyval) :=
  let? data := json response in
  let? data_field := Py.get data "data" (PyList [PyDict []]) in
  let? first_entry := Py.first data_field in
  let? contacts := Py.get first_entry "contacts" (PyList []) in
  Py.iter contacts.

(** Lines 182-191: what is done with the response. *)
Definition apply_response (person : ref) (response : Response) : M unit :=
  if (status_code response =? 200)%Z
  then
    contacts <- lift (response_contacts response) ;;
    for_each contacts (fun _ contact => apply_contact person contact) tt
  else ret tt.

(** Lines 167-194: the body of the [try].  [enriched_people] is appended
    to as the last step of either path, so the handler below sees the
    list as it was when the iteration began. *)
Definition enrich_try (self : LeadGenerationSystem) (env : Environment)
    (enriched_people : list ref) (person : ref) : M (list ref) :=
  p <- deref person ;;
  match clado_params p with
  | None => ret (enriched_people ++ [person])
  | Some params =>
      response <- requests_get env clado_url (clado_headers self) params ;;
      apply_response person response ;;;
      ret (enriched_people ++ [person])
  end.

(** Lines 165-198: one iteration, with its [except Exception]. *)
Definition enrich_iteration (self : LeadGenerationSystem) (env : Environment)
    (enriched_people : list ref) (person : ref) : M (list ref) :=
  try_except (enrich_try self env enriched_people person)
    (fun _ => ret (enriched_people ++ [person])).

Definition enrich_with_clado (self : LeadGenerationSystem) (env : Environment)
    (people : list ref) : M (list ref) :=
  if negb (configured (clado_api_key self))
  then ret people
  else for_each people (enrich_iteration self env) [].

(* ================================================================== *)
(** ** [main.py]: the query classifier and the aggregator *)

(** What lines 212-256 of [search_by_natural_language] decide from the
    query before any call is made: the branch taken and the criteria (and
    domains) it builds. *)
Inductive Branch : Type :=
| FaangBranch (criteria : dict) (faang_domains : list string)
| JobTitleBranch (criteria : dict)
| NoBranch.

Definition str_list (l : list string) : pyval := PyList (map PyStr l).

Definition classify (query : string) : Branch :=
  let query_lower := PyString.lower query in
  if PyString.contains "faang" query_lower then
    let faang_companies := ["Meta"; "Apple"; "Amazon"; "Netflix"; "Google"] in
    let criteria :=
      [("company_names", str_list faang_companies); ("limit", PyInt 50)] in
    let faang_domains :=
      ["meta.com"; "apple.com"; "amazon.com"; "netflix.com"; "google.com"] in
    FaangBranch criteria faang_domains
  else if existsb (fun title => PyString.contains title query_lower)
            ["engineer"; "developer"; "manager"; "director"; "ceo"; "cto"] then
    let job_titles :=
      if PyString.contains "engineer" query_lower
         || PyString.contains "developer" query_lower
      then ["Software Engineer"; "Senior Software Engineer"; "Developer"]
      else if PyString.contains "manager" query_lower
      then ["Engineering Manager"; "Product Manager"; "Manager"]
      else if PyString.contains "director" query_lower
      then ["Director"; "Engineering Director"]
      else if PyString.contains "ceo" query_lower
      then ["CEO"; "Chief Executive Officer"]
      else if PyString.contains "cto" query_lower
      then ["CTO"; "Chief Technology Officer"]
      else [] in
    JobTitleBranch [("job_titles", str_list job_titles); ("limit", PyInt 25)]
  else NoBranch.

(** [if people:] for a list. *)
Definition nonempty {A : Type} (l : list A) : bool :=
  match l with [] => false | _ :: _ => true end.

(** Lines 223-227 and 258-262: the guarded Apollo call; a failure leaves
    [people] as it was initialised, the empty list. *)
Definition apollo_attempt (self : LeadGenerationSystem) (env : Environment)
    (criteria : dict) : M (list ref) :=
  if configured (apollo_api_key self)
  then try_except (search_people_apollo self env criteria) (fun _ => ret [])
  else ret [].

(** Lines 232-237: one iteration of the loop over the domains. *)
Definition hunter_attempt (self : LeadGenerationSystem) (env : Environment)
    (people : list ref) (domain : string) : M (list ref) :=
  try_except
    (if configured (hunter_api_key self)
     then domain_people <- search_people_hunter self env domain PyNone ;;
          ret (people ++ domain_people)
     else ret people)
    (fun _ => ret people).

Definition search_by_natural_language (self : LeadGenerationSystem)
    (env : Environment) (query : string) : M (list ref) :=
  people <-
    match classify query with
    | FaangBranch criteria faang_domains =>
        people <- apollo_attempt self env criteria ;;
        for_each faang_domains (hunter_attempt self env) people
    | JobTitleBranch criteria => apollo_attempt self env criteria
    | NoBranch => ret []
    end ;;
  if nonempty people && configured (clado_api_key self)
  then enrich_with_clado self env people
  else ret people.

(* ================================================================== *)
(** ** [apollo_people_search.py] *)

Module ApolloPeopleSearch.

Definition API_URL : string := "https://api.apollo.io/api/v1/mixed_people/search".

(** The keyword arguments of [people_search]. *)
Record Args : Type := mkArgs {
  person_titles : pyval;
  include_similar_titles : pyval;
  person_locations : pyval;
  person_seniorities : pyval;
  organization_locations : pyval;
  q_organization_domains_list : pyval;
  contact_email_status : pyval;
  organization_ids : pyval;
  organization_num_employees_ranges : pyval;
  q_keywords : pyval;
  page : pyval;
  per_page : pyval
}.


(** [if v: payload[key] = v] *)
Definition add_if (key : string) (v : pyval) (payload : dict) : dict :=
  if truthy v then Dict.set key v payload else payload.

(** The filters of the request body with the argument each comes from, in
    the order lines 38-55 test them. *)
Definition filters (a : Args) : list (string * pyval) :=
  [("person_titles", person_titles a);
   ("person_locations", person_locations a);
   ("person_seniorities", person_seniorities a);
   ("organization_locations", organization_locations a);
   ("q_organization_domains_list", q_organization_domains_list a);
   ("contact_email_status", contact_email_status a);
   ("organization_ids", organization_ids a);
   ("organization_num_employees_ranges", organization_num_employees_ranges a);
   ("q_keywords", q_keywords a)].

(** Lines 33-55: the request body. *)
Definition payload (a : Args) : dict :=
  fold_left (fun acc kv => add_if (fst kv) (snd kv) acc) (filters a)
    [("page", page a);
     ("per_page", per_page a);
     ("include_similar_titles", include_similar_titles a)].

Definition headers (APOLLO_API_KEY : option string) : dict :=
  [("Cache-Control", PyStr "no-cache");
   ("Content-Type", PyStr "application/json");
   ("accept", PyStr "application/json");
   ("X-Api-Key", getenv_value APOLLO_API_KEY)].

(** [people_search]: the lines printed and the result.  [answer] is what
    the network does with the one request. *)
Definition people_search (APOLLO_API_KEY : option string)
    (answer : Request -> Outcome) (a : Args) : list string * result pyval :=
  if negb (configured APOLLO_API_KEY)
  then ([], Raise (ValueError "APOLLO_API_KEY environment variable not set."))
  else
    match answer (mkRequest POST API_URL (headers APOLLO_API_KEY) []
                    (Some (payload a))) with
    | ConnectionFailure msg => ([], Raise (RequestException msg))
    | Responded response =>
        if negb (status_code response =? 200)%Z
        then ([("Error: " ++ PyString.of_Z (status_code response) ++ " "
                  ++ text response)%string],
              Ok PyNone)
        else ([], json response)
    end.

End ApolloPeopleSearch.

(* ================================================================== *)
(** ** [hunter_domain_search.py] *)

Module HunterDomainSearch.

Definition API_URL : string := "https://api.hunter.io/v2/domain-search".

(** Lines 34-40: the query parameters. *)
Definition params (HUNTER_API_KEY : option string) (domain job_title_ limit : pyval)
  : dict :=
  let params :=
    [("domain", domain);
     ("api_key", getenv_value HUNTER_API_KEY);
     ("limit", limit)] in
  if truthy job_title_ then Dict.set "position" job_title_ params else params.

(** [domain_search]: the lines printed and the result. *)
Definition domain_search (HUNTER_API_KEY : option string)
    (answer : Request -> Outcome) (domain job_title_ limit : pyval)
  : list string * result pyval :=
  match answer (mkRequest GET API_URL []
                  (params HUNTER_API_KEY domain job_title_ limit) None) with
  | ConnectionFailure msg => ([], Raise (RequestException msg))
  | Responded response =>
      if negb (status_code response =? 200)%Z
      then ([("Error: " ++ PyString.of_Z (status_code response) ++ " "
                ++ text response)%string],
            Ok PyNone)
      else ([], json response)
  end.

End HunterDomainSearch.

(* ================================================================== *)
(** ** Definitions used to state the properties *)

(** The two criteria dictionaries and the domain list the classifier can
    produce. *)
Definition faang_criteria : dict :=
  [("company_names", str_list ["Meta"; "Apple"; "Amazon"; "Netflix"; "Google"]);
   ("limit", PyInt 50)].

Definition faang_domains : list string :=
  ["meta.com"; "apple.com"; "amazon.com"; "netflix.com"; "google.com"].

Definition title_criteria (job_titles : list string) : dict :=
  [("job_titles", str_list job_titles); ("limit", PyInt 25)].

(** The keys of the Apollo request body that come from a criteria field. *)
Definition criteria_keys : list string :=
  ["person_titles"; "organization_names"; "person_locations"; "q_keywords"].

(** The reading of the request-body property under which a key that comes
    from a criteria field is sent only with a non-empty value. *)
Definition body_omits_empty_fields (criteria : dict) : Prop :=
  forall payload key v,
    apollo_payload criteria = Ok payload ->
    In key criteria_keys ->
    Dict.lookup key payload = Some v ->
    truthy v = true.

(** What enrichment may do to one record: the fields other than [email]
    and [phone] stay, and so does an [email] or a [phone] that is not
    empty. *)
Definition fills_only (p p' : Person) : Prop :=
  name p' = name p /\
  linkedin_url p' = linkedin_url p /\
  job_title p' = job_title p /\
  company p' = company p /\
  location p' = location p /\
  (truthy (email p) = true -> email p' = email p) /\
  (truthy (phone p) = true -> phone p' = phone p).

(** [fills_only], and a record without a lookup key is not touched. *)
Definition enriched (p p' : Person) : Prop :=
  fills_only p p' /\ (clado_params p = None -> p' = p).

(** A step that makes no call, creates no object and touches at most
    the object [person]. *)
Definition touches (person : ref) (w w' : World) : Prop :=
  calls w' = calls w /\
  next w' = next w /\
  (forall r, r <> person -> heap w' r = heap w r) /\
  fills_only (heap w person) (heap w' person).

(** The lookup request of a record, when it has a lookup key. *)
Definition clado_request (self : LeadGenerationSystem) (p : Person)
  : list Request :=
  match clado_params p with
  | Some params => [mkRequest GET clado_url (clado_headers self) params None]
  | None => []
  end.

(** A lookup that comes back without a list of contacts: no response at
    all, a status other than 200, or a body from which the entries
    cannot be read. *)
Definition lookup_fails (o : Outcome) : bool :=
  match o with
  | ConnectionFailure _ => true
  | Responded response =>
      negb (status_code response =? 200)%Z ||
      match response_contacts response with
      | Raise _ => true
      | Ok _ => false
      end
  end.

(** What enrichment of a batch may do to the world: no object is created
    and every record is [enriched]. *)
Definition enrichment (w w' : World) : Prop :=
  next w' = next w /\ forall r, enriched (heap w r) (heap w' r).


(** Sample data for the concrete runs. *)
Definition blank : Person :=
  mkPerson (PyStr EmptyString) (PyStr EmptyString) (PyStr EmptyString)
    (PyStr EmptyString) (PyStr EmptyString) (PyStr EmptyString)
    (PyStr EmptyString).

Definition empty_world : World := mkWorld (fun _ => blank) 0 [].

(** A world with the given records as objects 0, 1, ... *)
Definition world_of (records : list Person) : World :=
  mkWorld (fun r => nth r records blank) (length records) [].

(** A network that gives every call the same outcome. *)
Definition answering (o : Outcome) : Environment :=
  mkEnvironment (fun _ _ => o) (fun _ => "?").

Definition response_with (status : Z) (reason_ body : string)
    (data : string + pyval) : Response :=
  mkResponse status reason_ "https://example.test/" body data.

Definition all_keys : LeadGenerationSystem :=
  mkSystem (Some "apollo-key") (Some "hunter-key") (Some "clado-key") None.

Definition ann : Person :=
  mkPerson (PyStr "Ann") (PyStr EmptyString) (PyStr EmptyString)
    (PyStr "https://linkedin.example/in/ann") (PyStr "CEO") (PyStr "Acme")
    (PyStr "Paris").

(** A body whose first contact is well formed and whose second contact
    has no [type]. *)
Definition half_good_contacts : pyval :=
  PyDict [("data", PyList [PyDict [("contacts", PyList
    [PyDict [("type", PyStr "email"); ("value", PyStr "ann@example.test")];
     PyDict [("value", PyStr "+33 1 00 00 00 00")]])]])].

(** The records of a list of items, or the first failure. *)
Fixpoint traverse {A B : Type} (f : A -> result B) (items : list A)
  : result (list B) :=
  match items with
  | [] => Ok []
  | x :: rest =>
      let? y := f x in
      let? ys := traverse f rest in
      Ok (y :: ys)
  end.

(** The world after the given records have been created one by one. *)
Fixpoint alloc_all (records : list Person) (w : World) : World :=
  match records with
  | [] => w
  | p :: rest => alloc_all rest (snd (new_person p w))
  end.

(** The loop shared by the two normalizers: a record per item, appended
    in order. *)
Definition normalize_loop (f : pyval -> result Person) (items : list pyval)
    (people : list ref) : M (list ref) :=
  for_each items
    (fun people x =>
       fields <- lift (f x) ;;
       person <- new_person fields ;;
       ret (people ++ [person]))
    people.

(** The world once one more call has been made. *)
Definition after_call (w : World) (rq : Request) : World :=
  mkWorld (heap w) (next w) (calls w ++ [rq]).

(** The request [search_people_apollo] sends for a request body. *)
Definition apollo_request (self : LeadGenerationSystem) (payload : dict)
  : Request :=
  mkRequest POST "https://api.apollo.io/v1/mixed_people/search"
    [("Cache-Control", PyStr "no-cache");
     ("Content-Type", PyStr "application/json");
     ("X-Api-Key", getenv_value (apollo_api_key self))]
    [] (Some payload).

(** The request [search_people_hunter] sends. *)
Definition hunter_request (self : LeadGenerationSystem) (domain : string)
    (job_title_ : pyval) : Request :=
  mkRequest GET "https://api.hunter.io/v2/domain-search" []
    (hunter_params self domain job_title_) None.

(** The statuses [raise_for_status] rejects. *)
Definition is_http_error (status : Z) : bool :=
  (400 <=? status)%Z && (status <? 600)%Z.

(** The items of the list a normalizer walks through. *)
Definition apollo_items (data : pyval) : result (list pyval) :=
  let? people_field := Py.get data "people" (PyList []) in
  Py.iter people_field.

Definition hunter_items (data : pyval) : result (list pyval) :=
  let? data_field := Py.get data "data" (PyDict []) in
  let? emails := Py.get data_field "emails" (PyList []) in
  Py.iter emails.

(** An item of [people] that the Apollo normalizer can read: an object
    whose [organization] is missing or is an object. *)
Definition well_shaped (x : pyval) : bool :=
  match x with
  | PyDict d =>
      match Dict.lookup "organization" d with
      | None => true
      | Some (PyDict _) => true
      | Some _ => false
      end
  | _ => false
  end.


(** Sample bodies for the concrete runs. *)
Definition body_null_organization : pyval :=
  PyDict [("people", PyList
    [PyDict [("name", PyStr "Ann"); ("organization", PyDict [("name", PyStr "Acme")])];
     PyDict [("name", PyStr "Bob"); ("organization", PyNone)]])].

Definition body_null_email : pyval :=
  PyDict [("people", PyList
    [PyDict [("name", PyStr "Ann"); ("email", PyNone)]])].

Definition body_hunter : pyval :=
  PyDict [("data", PyDict
    [("organization", PyStr "Acme");
     ("emails", PyList
        [PyDict [("first_name", PyStr "Cy"); ("last_name", PyStr "Lee");
                 ("value", PyStr "cy@acme.test");
                 ("phone_number", PyStr "+1 555 0100")]])])].

Definition ok_with (data : pyval) : Environment :=
  answering (Responded (response_with 200 "OK" EmptyString (inr data))).


(** The line the standalone clients print for a rejected response. *)
Definition error_line (response : Response) : string :=
  "Error: " ++ PyString.of_Z (status_code response) ++ " " ++ text response.

(** The Hunter calls of the aggregator read as a sweep over the domains,
    in order: each call yields its records, a call that raises yields
    none. *)
Fixpoint hunter_sweep (self : LeadGenerationSystem) (env : Environment)
    (domains : list string) (w : World) : list (list ref) * World :=
  match domains with
  | [] => ([], w)
  | domain :: rest =>
      let run := search_people_hunter self env domain PyNone w in
      let sweep := hunter_sweep self env rest (snd run) in
      (records_of (fst run) :: fst sweep, snd sweep)
  end.

(** The records the aggregator gathers before enrichment, and the world
    at that point: Apollo's records, then Hunter's by domain. *)
Definition gather (self : LeadGenerationSystem) (env : Environment)
    (query : string) (w : World) : list ref * World :=
  match classify query with
  | FaangBranch criteria domains =>
      let run := search_people_apollo self env criteria w in
      let sweep := hunter_sweep self env domains (snd run) in
      (records_of (fst run) ++ concat (fst sweep), snd sweep)
  | JobTitleBranch criteria =>
      let run := search_people_apollo self env criteria w in
      (records_of (fst run), snd run)
  | NoBranch => ([], w)
  end.

(** The request body of the FAANG search. *)
Definition faang_payload : dict :=
  [("page", PyInt 1); ("per_page", PyInt 50);
   ("organization_names",
    str_list ["Meta"; "Apple"; "Amazon"; "Netflix"; "Google"])].

Definition body_two_people : pyval :=
  PyDict [("people", PyList
    [PyDict [("name", PyStr "Ann"); ("organization", PyDict [("name", PyStr "Acme")])];
     PyDict [("name", PyStr "Bob"); ("email", PyStr "bob@acme.test")]])].

(** A network where Apollo (the only POST) returns two people, Hunter
    returns one address per domain and the enrichment provider cannot be
    reached. *)
Definition sample_env : Environment :=
  mkEnvironment
    (fun _ rq =>
       match req_method rq with
       | POST => Responded (response_with 200 "OK" EmptyString
                              (inr body_two_people))
       | GET =>
           if String.eqb (req_url rq) clado_url
           then ConnectionFailure "timed out"
           else Responded (response_with 200 "OK" EmptyString (inr body_hunter))
       end)
    (fun _ => "?").

(** The value [v] is the [value] of a contact of type [field] in the
    contacts of some response of the network. *)
Definition from_contact (env : Environment) (field : string) (v : pyval) : Prop :=
  exists n rq response items contact t,
    net env n rq = Responded response /\
    response_contacts response = Ok items /\
    In contact items /\
    Py.item contact "type" = Ok t /\
    eq_str t field = true /\
    Py.item contact "value" = Ok v.

(** The [email] and the [phone] of [p'] are those of [p] or come from a
    contact of the matching type. *)
Definition sourced (env : Environment) (p p' : Person) : Prop :=
  (email p' = email p \/ from_contact env "email" (email p')) /\
  (phone p' = phone p \/ from_contact env "phone" (phone p')).

(* ================================================================== *)
(** ** Further definitions used to state properties *)

(** The references of [l] are in [lo, hi) and strictly increasing. *)
Fixpoint ascending (lo hi : ref) (l : list ref) : Prop :=
  match l with
  | [] => lo <= hi
  | r :: rest => lo <= r /\ ascending (S r) hi rest
  end.

Definition apollo_url : string := "https://api.apollo.io/v1/mixed_people/search".

Definition hunter_url : string := "https://api.hunter.io/v2/domain-search".

(** The calls [search_people_apollo] makes: one when the key is set and
    the request body can be built. *)
Definition apollo_calls (self : LeadGenerationSystem) (criteria : dict)
  : list Request :=
  if configured (apollo_api_key self)
  then match apollo_payload criteria with
       | Ok payload => [apollo_request self payload]
       | Raise _ => []
       end
  else [].

(** The calls [search_people_hunter] makes: one when the key is set. *)
Definition hunter_calls (self : LeadGenerationSystem) (domain : string)
    (job_title_ : pyval) : list Request :=
  if configured (hunter_api_key self)
  then [hunter_request self domain job_title_]
  else [].

(** The shape of a lookup request for the record [p]: a GET to the
    enrichment endpoint with the bearer header and one parameter, the
    [linkedin_url] of the record when it has one, its [email] otherwise. *)
Definition lookup_request_for (self : LeadGenerationSystem) (p : Person)
    (rq : Request) : Prop :=
  req_method rq = GET /\
  req_url rq = clado_url /\
  req_headers rq = clado_headers self /\
  req_json rq = None /\
  ((truthy (linkedin_url p) = true /\
    req_params rq = [("linkedin_url", linkedin_url p)]) \/
   (truthy (linkedin_url p) = false /\ truthy (email p) = true /\
    req_params rq = [("email", email p)])).

(** A run that only creates objects: what existed stays as it was, and
    the references returned are those of the objects created, in the
    order of creation. *)
Definition creates_only (w : World) (run : result (list ref) * World) : Prop :=
  next w <= next (snd run) /\
  (forall r, r < next w -> heap (snd run) r = heap w r) /\
  (forall refs, fst run = Ok refs ->
     refs = seq (next w) (length refs) /\
     next (snd run) = next w + length refs).

(** The lookups of a batch, as the records stand in [w]. *)
Definition clado_calls (self : LeadGenerationSystem) (w : World)
    (people : list ref) : list Request :=
  if configured (clado_api_key self)
  then flat_map (fun r => clado_request self (heap w r)) people
  else [].

(** The search calls of the aggregator for a query: Apollo's, then
    Hunter's by domain on the FAANG branch. *)
Definition search_calls (self : LeadGenerationSystem) (query : string)
  : list Request :=
  match classify query with
  | FaangBranch criteria domains =>
      apollo_calls self criteria
      ++ flat_map (fun d => hunter_calls self d PyNone) domains
  | JobTitleBranch criteria => apollo_calls self criteria
  | NoBranch => []
  end.

(** [isinstance(v, dict)] *)
Definition is_dict (v : pyval) : bool :=
  match v with PyDict _ => true | _ => false end.

(** The organization of a Hunter response: [data.organization], the
    empty string when it is missing. *)
Definition hunter_organization (data : pyval) : pyval :=
  match Py.get data "data" (PyDict []) with
  | Ok data_field =>
      match Py.get data_field "organization" (PyStr EmptyString) with
      | Ok organization => organization
      | Raise _ => PyStr EmptyString
      end
  | Raise _ => PyStr EmptyString
  end.

(** The keys an Apollo request body of [main.py] can have. *)
Definition apollo_body_keys : list string :=
  ["page"; "per_page"; "person_titles"; "organization_names";
   "person_locations"; "q_keywords"].

(* ================================================================== *)
(** ** Console output *)

(** A function that prints: the lines printed, one per call of [print],
    and the result.  The prompts that [input] writes are not lines. *)
Definition P (A : Type) : Type := list string * result A.

Definition pret {A : Type} (v : A) : P A := ([], Ok v).

Definition pbind {A B : Type} (c : P A) (k : A -> P B) : P B :=
  match c with
  | (out, Ok v) => let (out', r) := k v in (out ++ out', r)
  | (out, Raise e) => (out, Raise e)
  end.

(** [print(line)] *)
Definition print (line : string) : P unit := ([line], Ok tt).

(** A step that prints nothing and may raise. *)
Definition plift {A : Type} (r : result A) : P A := ([], r).

Notation "x <~ c ;; k" := (pbind c (fun x => k))
  (at level 61, c at next level, right associativity) : py_scope.
Notation "c ;;~ k" := (pbind c (fun _ => k))
  (at level 61, right associativity) : py_scope.

(** [for i, x in enumerate(items, i): body i x] *)
Fixpoint print_each (body : Z -> pyval -> P unit) (i : Z) (items : list pyval)
  : P unit :=
  match items with
  | [] => pret tt
  | x :: rest => body i x ;;~ print_each body (i + 1)%Z rest
  end.

(** [len(v)] *)
Definition py_len (v : pyval) : result Z :=
  match v with
  | PyList items => Ok (Z.of_nat (length items))
  | PyStr s => Ok (Z.of_nat (String.length s))
  | PyDict d => Ok (Z.of_nat (length d))
  | _ => Raise TypeError
  end.

(** The line feed. *)
Definition nl : string := String (ascii_of_nat 10) EmptyString.

(** The text with the given bytes. *)
Fixpoint of_bytes (codes : list nat) : string :=
  match codes with
  | [] => EmptyString
  | c :: rest => String (ascii_of_nat c) (of_bytes rest)
  end.

(* ================================================================== *)
(** ** [apollo_people_search.py]: the printer and the entry point *)

Module ApolloCli.

(** Lines 71-76: the six lines of one contact.  Every field is read with
    [c.get(key)], whose default is [None]. *)
Definition print_contact (env : Environment) (i : Z) (c : pyval) : P unit :=
  line <~ plift
    (let? name_ := Py.get c "name" PyNone in
     let? title_ := Py.get c "title" PyNone in
     let? organization := Py.get c "organization_name" PyNone in
     Ok (PyString.of_Z i ++ ". " ++ format_value env name_ ++ " | "
           ++ format_value env title_ ++ " | "
           ++ format_value env organization)%string) ;;
  print line ;;~
  line <~ plift
    (let? email_ := Py.get c "email" PyNone in
     Ok ("   Email: " ++ format_value env email_)%string) ;;
  print line ;;~
  line <~ plift
    (let? linkedin_ := Py.get c "linkedin_url" PyNone in
     Ok ("   LinkedIn: " ++ format_value env linkedin_)%string) ;;
  print line ;;~
  line <~ plift
    (let? city := Py.get c "city" PyNone in
     let? state := Py.get c "state" PyNone in
     let? country := Py.get c "country" PyNone in
     Ok ("   Location: " ++ format_value env city ++ ", "
           ++ format_value env state ++ ", " ++ format_value env country)%string) ;;
  print line ;;~
  line <~ plift
    (let? phone_ := Py.get c "sanitized_phone" PyNone in
     Ok ("   Phone: " ++ format_value env phone_)%string) ;;
  print line ;;~
  print EmptyString.

(** [print_contacts], lines 64-76. *)
Definition print_contacts (env : Environment) (data : pyval) : P unit :=
  contacts <~ plift (Py.get data "contacts" (PyList [])) ;;
  if negb (truthy contacts)
  then print "No contacts found."
  else
    n <~ plift (py_len contacts) ;;
    print ("Found " ++ PyString.of_Z n ++ " contacts:") ;;~
    items <~ plift (Py.iter contacts) ;;
    print_each (print_contact env) 1 items.

(** [s.split(',')] *)
Fixpoint split_comma (s : string) : list string :=
  match s with
  | EmptyString => [EmptyString]
  | String c t =>
      if Ascii.eqb c ","%char
      then EmptyString :: split_comma t
      else match split_comma t with
           | h :: r => String c h :: r
           | [] => [String c EmptyString]
           end
  end.

Definition is_digit (c : ascii) : bool :=
  let n := nat_of_ascii c in (48 <=? n)%nat && (n <=? 57)%nat.

Fixpoint all_digits (s : string) : bool :=
  match s with
  | EmptyString => true
  | String c t => is_digit c && all_digits t
  end.

(** The text has no character beyond the ASCII range. *)
Fixpoint is_ascii (s : string) : bool :=
  match s with
  | EmptyString => true
  | String c t => (nat_of_ascii c <? 128)%nat && is_ascii t
  end.

(** The number parsing of the interpreter that runs the script.  On ASCII
    text [str.isdigit] and [int] are fixed by the language.  Beyond it
    they follow the Unicode tables of the interpreter, and differ:
    [isdigit] accepts characters, such as the superscript two, that [int]
    rejects with [ValueError].  [int] also refuses a numeral of more
    digits than [sys.get_int_max_str_digits()]: 4300 by default, 0 for no
    limit. *)
Record Interpreter : Type := mkInterpreter {
  isdigit_unicode : string -> bool;
  int_unicode : string -> result Z;
  int_max_str_digits : nat
}.

(** [s.isdigit()]: at least one character, all of them digits. *)
Definition isdigit (interp : Interpreter) (s : string) : bool :=
  if is_ascii s
  then negb (String.eqb s EmptyString) && all_digits s
  else isdigit_unicode interp s.

(** The value of a string of ASCII digits, read from the left with the
    value read so far. *)
Fixpoint int_digits (acc : Z) (s : string) : Z :=
  match s with
  | EmptyString => acc
  | String c t => int_digits (10 * acc + Z.of_nat (nat_of_ascii c - 48))%Z t
  end.

(** The numeral is short enough for [int]: numerals of up to 640 digits
    are never refused, and the limit is 0 (none) or at least 640. *)
Definition within_limit (interp : Interpreter) (s : string) : bool :=
  (String.length s <=? 640)%nat
  || (int_max_str_digits interp =? 0)%nat
  || (String.length s <=? int_max_str_digits interp)%nat.

Definition exceeds_limit (interp : Interpreter) (s : string) : string :=
  "Exceeds the limit ("
    ++ PyString.of_Z (Z.of_nat (int_max_str_digits interp))
    ++ " digits) for integer string conversion: value has "
    ++ PyString.of_Z (Z.of_nat (String.length s))
    ++ " digits; use sys.set_int_max_str_digits() to increase the limit".

(** [int(s)] for a text [s] for which [s.isdigit()] holds, the only one
    the script converts. *)
Definition int (interp : Interpreter) (s : string) : result Z :=
  if all_digits s
  then if within_limit interp s
       then Ok (int_digits 0 s)
       else Raise (ValueError (exceeds_limit interp s))
  else int_unicode interp s.

(** [[t.strip() for t in answer.split(',')] if answer else None] *)
Definition csv_filter (answer : string) : pyval :=
  if truthy (PyStr answer)
  then PyList (map (fun t => PyStr (PyString.strip t)) (split_comma answer))
  else PyNone.

(** What the user typed at the six prompts of [main]. *)
Record Answers : Type := mkAnswers {
  titles : string;
  locations : string;
  seniorities : string;
  org_domains : string;
  keywords : string;
  per_page_answer : string
}.

(** Lines 82-96: the keyword arguments [main] passes to [people_search];
    each answer is stripped as it is read.  The arguments are evaluated
    before the call, and [int] may raise there. *)
Definition main_args (interp : Interpreter) (a : Answers)
    : result ApolloPeopleSearch.Args :=
  let titles_ := PyString.strip (titles a) in
  let locations_ := PyString.strip (locations a) in
  let seniorities_ := PyString.strip (seniorities a) in
  let org_domains_ := PyString.strip (org_domains a) in
  let keywords_ := PyString.strip (keywords a) in
  let per_page_ := PyString.strip (per_page_answer a) in
  let? per_page := (if isdigit interp per_page_
                    then int interp per_page_
                    else Ok 10%Z) in
  Ok (ApolloPeopleSearch.mkArgs
        (csv_filter titles_)
        (PyBool true)
        (csv_filter locations_)
        (csv_filter seniorities_)
        PyNone
        (csv_filter org_domains_)
        PyNone
        PyNone
        PyNone
        (if truthy (PyStr keywords_) then PyStr keywords_ else PyNone)
        (PyInt 1)
        (PyInt per_page)).

(** [main], lines 79-98, for a user who answers the six prompts. *)
Definition main (interp : Interpreter) (APOLLO_API_KEY : option string)
    (answer : Request -> Outcome) (env : Environment) (a : Answers)
    : P unit :=
  print "Apollo People Search" ;;~
  print "Enter search filters (leave blank to skip):" ;;~
  args <~ plift (main_args interp a) ;;
  data <~ ApolloPeopleSearch.people_search APOLLO_API_KEY answer args ;;
  if truthy data then print_contacts env data else pret tt.

End ApolloCli.

(* ================================================================== *)
(** ** [hunter_domain_search.py]: the parser, the printer and the entry
    point *)

Module HunterCli.

(** The suffix of [s] that starts at its first opening brace. *)
Fixpoint from_open (s : string) : option string :=
  match s with
  | EmptyString => None
  | String c t => if Ascii.eqb c "{"%char then Some s else from_open t
  end.

(** The longest prefix of [s] that ends with a closing brace. *)
Fixpoint upto_close (s : string) : option string :=
  match s with
  | EmptyString => None
  | String c t =>
      match upto_close t with
      | Some p => Some (String c p)
      | None => if Ascii.eqb c "}"%char then Some (String c EmptyString) else None
      end
  end.

(** [re.search(r'\{.*\}', text, re.DOTALL)]: the match, when there is
    one, runs from the first opening brace to the last closing brace
    after it. *)
Definition brace_span (s : string) : option string :=
  match from_open s with
  | Some u => upto_close u
  | None => None
  end.

(** [{"domain": None, "job_title": None}] *)
Definition nothing_parsed : pyval :=
  PyDict [("domain", PyNone); ("job_title", PyNone)].

(** Lines 23-31 of [parse_input_with_gpt]: what is made of the content of
    the reply, [None] when the reply has no content.  [loads] is
    [json.loads]. *)
Definition parse_reply (loads : string -> result pyval) (text : option string)
  : P pyval :=
  let attempt :=
    match text with
    | None => Raise TypeError
    | Some t =>
        match brace_span t with
        | Some m => loads m
        | None => loads t
        end
    end in
  match attempt with
  | Ok v => pret v
  | Raise _ =>
      print ("Could not parse GPT output: "
               ++ match text with Some t => t | None => "None" end) ;;~
      pret nothing_parsed
  end.

(** [parse_input_with_gpt].  [gpt] is the chat completion for the prompt
    built around the user's input: the content of the first choice, or
    the message of the exception the call raised. *)
Definition parse_input_with_gpt (loads : string -> result pyval)
    (gpt : string -> string + option string) (user_input : string) : P pyval :=
  match gpt user_input with
  | inl msg => plift (Raise (PyException msg))
  | inr text => parse_reply loads text
  end.

(** Lines 55-59: the four lines of one address. *)
Definition print_person (env : Environment) (i : Z) (e : pyval) : P unit :=
  line <~ plift
    (let? first_name := Py.get e "first_name" (PyStr EmptyString) in
     let? last_name := Py.get e "last_name" (PyStr EmptyString) in
     let name_ :=
       PyString.strip
         (format_value env first_name ++ " " ++ format_value env last_name) in
     let? position := Py.get e "position" (PyStr EmptyString) in
     Ok (PyString.of_Z i ++ ". " ++ name_ ++ " | "
           ++ format_value env position)%string) ;;
  print line ;;~
  line <~ plift
    (let? value := Py.get e "value" PyNone in
     Ok ("   Email: " ++ format_value env value)%string) ;;
  print line ;;~
  line <~ plift
    (let? linkedin_ := Py.get e "linkedin" (PyStr EmptyString) in
     Ok ("   LinkedIn: " ++ format_value env linkedin_)%string) ;;
  print line ;;~
  print EmptyString.

(** [print_people], lines 48-59. *)
Definition print_people (env : Environment) (data : pyval) : P unit :=
  data_field <~ plift (Py.get data "data" (PyDict [])) ;;
  emails <~ plift (Py.get data_field "emails" (PyList [])) ;;
  if negb (truthy emails)
  then print "No people found."
  else
    n <~ plift (py_len emails) ;;
    print ("Found " ++ PyString.of_Z n ++ " people:") ;;~
    items <~ plift (Py.iter emails) ;;
    print_each (print_person env) 1 items.

(** [main], lines 61-73, for a user who answers the prompt with
    [user_input]. *)
Definition main (HUNTER_API_KEY : option string)
    (loads : string -> result pyval) (gpt : string -> string + option string)
    (answer : Request -> Outcome) (env : Environment) (user_input : string)
  : P unit :=
  print "Hunter.io Domain Search (with GPT input parsing)" ;;~
  parsed <~ parse_input_with_gpt loads gpt (PyString.strip user_input) ;;
  domain <~ plift (Py.get parsed "domain" PyNone) ;;
  job_title_ <~ plift (Py.get parsed "job_title" PyNone) ;;
  if negb (truthy domain)
  then print "Could not extract a domain from your input."
  else
    print ("Searching for job title: " ++ format_value env job_title_
             ++ " at domain: " ++ format_value env domain) ;;~
    data <~ HunterDomainSearch.domain_search HUNTER_API_KEY answer domain
              job_title_ (PyInt 10) ;;
    if truthy data then print_people env data else pret tt.

End HunterCli.

(* ================================================================== *)
(** ** [main.py]: the printer and the interactive session *)

Module LeadCli.

(** The labels of lines 281-291, with the bytes they have in the
    source. *)
Definition email_label : string :=
  "   " ++ of_bytes [239; 163; 191; 195; 188; 195; 172; 195; 159] ++ " Email: ".
Definition phone_label : string :=
  "   " ++ of_bytes [239; 163; 191; 195; 188; 195; 172; 194; 177] ++ " Phone: ".
Definition title_label : string :=
  "   " ++ of_bytes [239; 163; 191; 195; 188; 195; 173; 194; 186] ++ " Title: ".
Definition company_label : string :=
  "   " ++ of_bytes [239; 163; 191; 195; 188; 195; 168; 194; 162] ++ " Company: ".
Definition location_label : string :=
  "   " ++ of_bytes [239; 163; 191; 195; 188; 195; 172; 195; 167] ++ " Location: ".
Definition linkedin_label : string :=
  "   " ++ of_bytes [239; 163; 191; 195; 188; 195; 174; 195; 179] ++ " LinkedIn: ".

(** [if value: print(f"{label}{value}")] *)
Definition field_line (env : Environment) (label : string) (value : pyval)
  : list string :=
  if truthy value then [(label ++ format_value env value)%string] else [].

(** Lines 279-292: the lines of one person. *)
Definition person_lines (env : Environment) (i : Z) (person : Person)
  : list string :=
  [(PyString.of_Z i ++ ". " ++ format_value env (name person))%string]
  ++ field_line env email_label (email person)
  ++ field_line env phone_label (phone person)
  ++ field_line env title_label (job_title person)
  ++ field_line env company_label (company person)
  ++ field_line env location_label (location person)
  ++ field_line env linkedin_label (linkedin_url person)
  ++ [EmptyString].

Fixpoint people_lines (env : Environment) (i : Z) (people : list Person)
  : list string :=
  match people with
  | [] => []
  | person :: rest =>
      person_lines env i person ++ people_lines env (i + 1)%Z rest
  end.

(** [print_people_results], lines 270-292: the lines printed for a list
    of persons. *)
Definition print_people_results (env : Environment) (people : list Person)
  : list string :=
  if negb (nonempty people)
  then ["No people found."]
  else
    (nl ++ "=== FOUND " ++ PyString.of_Z (Z.of_nat (length people))
        ++ " PEOPLE ===" ++ nl)%string
    :: people_lines env 1 people.

(** Lines 308-315: the providers whose key is set. *)
Definition available_apis (system : LeadGenerationSystem) : list string :=
  (if configured (apollo_api_key system) then ["Apollo"] else [])
  ++ (if configured (hunter_api_key system) then ["Hunter"] else [])
  ++ (if configured (clado_api_key system) then ["Clado"] else []).

(** The columns of the export, line 358. *)
Definition fieldnames : list string :=
  ["name"; "email"; "phone"; "job_title"; "company"; "location"; "linkedin_url"].

(** Lines 363-371: the dictionary handed to [writer.writerow]. *)
Definition export_row (person : Person) : dict :=
  [("name", name person); ("email", email person); ("phone", phone person);
   ("job_title", job_title person); ("company", company person);
   ("location", location person); ("linkedin_url", linkedin_url person)].

(** A file written by the export: its name, the header and the rows
    handed to the CSV writer. *)
Record Export : Type := mkExport {
  filename : string;
  header : list string;
  rows : list dict
}.

(** The machine the session runs on: the clock, read as [int(time.time())]
    when the given number of input lines has been read, and whether a
    file of a given name can be opened for writing. *)
Record Host : Type := mkHost {
  clock : nat -> Z;
  can_open : string -> bool
}.

(** The state of a session: the world of the searches, the files written
    so far (oldest first) and the number of input lines read. *)
Record Session : Type := mkSession {
  world : World;
  exports : list Export;
  turns : nat
}.

(** How [main] ends: at once for want of a key, on a quit command, or
    with the [EOFError] of a prompt that finds the input exhausted. *)
Inductive SessionEnd : Type := NoKeys | Goodbye | EndOfInput.

(** [query.lower() in ['quit', 'exit', 'q']] *)
Definition is_quit (query : string) : bool :=
  existsb (String.eqb (PyString.lower query)) ["quit"; "exit"; "q"].

(** Lines 354-373: the export, skipped when the file cannot be opened
    (the [OSError] is caught like any other); a file that opens is
    written in full. *)
Definition export_results (host : Host) (people : list ref) (s : Session)
  : Session :=
  let file :=
    ("leads_" ++ PyString.of_Z (clock host (turns s)) ++ ".csv")%string in
  if can_open host file
  then mkSession (world s)
         (exports s
          ++ [mkExport file fieldnames
                (map (fun r => export_row (heap (world s) r)) people)])
         (turns s)
  else s.

(** Lines 323-376: the loop, over the lines the user types.  A prompt
    that finds no line left raises [EOFError]: at the query prompt it
    ends [main]; at the export prompt it is caught, and the query prompt
    that follows ends [main]. *)
Fixpoint main_loop (system : LeadGenerationSystem) (env : Environment)
    (host : Host) (stdin : list string) (s : Session) : SessionEnd * Session :=
  match stdin with
  | [] => (EndOfInput, s)
  | line :: rest =>
      let s := mkSession (world s) (exports s) (S (turns s)) in
      let query := PyString.strip line in
      if is_quit query then (Goodbye, s)
      else if negb (truthy (PyStr query)) then main_loop system env host rest s
      else
        let (found, w) :=
          search_by_natural_language system env query (world s) in
        let s := mkSession w (exports s) (turns s) in
        match found with
        | Raise _ => main_loop system env host rest s
        | Ok people =>
            if nonempty people
            then match rest with
                 | [] => (EndOfInput, s)
                 | reply :: rest' =>
                     let s := mkSession (world s) (exports s) (S (turns s)) in
                     let export := PyString.lower (PyString.strip reply) in
                     if String.eqb export "y"
                     then main_loop system env host rest'
                            (export_results host people s)
                     else main_loop system env host rest' s
                 end
            else main_loop system env host rest s
        end
  end.

(** [main], lines 294-376, console output left out. *)
Definition main (system : LeadGenerationSystem) (env : Environment)
    (host : Host) (stdin : list string) (w : World) : SessionEnd * Session :=
  let s := mkSession w [] 0 in
  if negb (nonempty (available_apis system)) then (NoKeys, s)
  else main_loop system env host stdin s.

End LeadCli.

(** The six optional fields of a person in the order they are printed,
    each with its label. *)
Definition labelled_fields (p : Person) : list (string * pyval) :=
  [(LeadCli.email_label, email p);
   (LeadCli.phone_label, phone p);
   (LeadCli.title_label, job_title p);
   (LeadCli.company_label, company p);
   (LeadCli.location_label, location p);
   (LeadCli.linkedin_label, linkedin_url p)].

(** The lines expected for the [i]-th person: the numbered name, the
    fields that are not empty, a blank line. *)
Definition person_block (env : Environment) (i : Z) (p : Person)
  : list string :=
  ((PyString.of_Z i ++ ". " ++ format_value env (name p))%string
   :: map (fun lv => (fst lv ++ format_value env (snd lv))%string)
        (filter (fun lv => truthy (snd lv)) (labelled_fields p)))
  ++ [EmptyString].

(** The persons of a list with their numbers, from [start]. *)
Definition numbered (start : nat) (people : list Person)
  : list (Z * Person) :=
  combine (map Z.of_nat (seq start (length people))) people.

(** The header of the results. *)
Definition found_header (n : nat) : string :=
  nl ++ "=== FOUND " ++ PyString.of_Z (Z.of_nat n) ++ " PEOPLE ===" ++ nl.

(** The number of the six optional fields of a person that are not
    empty. *)
Definition filled (p : Person) : nat :=
  length (filter truthy
            [email p; phone p; job_title p; company p; location p;
             linkedin_url p]).

(** The characters of a string. *)
Fixpoint has_char (c : ascii) (s : string) : bool :=
  match s with
  | EmptyString => false
  | String d t => Ascii.eqb d c || has_char c t
  end.

(** What an answer to a comma-separated prompt of the Apollo script
    contributes to the request body: nothing when blank, the list of its
    stripped parts otherwise. *)
Definition asked (answer : string) : option pyval :=
  if String.eqb (PyString.strip answer) EmptyString
  then None
  else Some (PyList (map (fun t => PyStr (PyString.strip t))
                       (ApolloCli.split_comma (PyString.strip answer)))).

(** The request of the standalone Apollo client for given arguments. *)
Definition people_search_request (key : option string)
    (a : ApolloPeopleSearch.Args) : Request :=
  mkRequest POST ApolloPeopleSearch.API_URL (ApolloPeopleSearch.headers key) []
    (Some (ApolloPeopleSearch.payload a)).

(** The request of the standalone Hunter client as [main] calls it. *)
Definition domain_search_request (key : option string)
    (domain job_title_ : pyval) : Request :=
  mkRequest GET HunterDomainSearch.API_URL []
    ([("domain", domain); ("api_key", getenv_value key); ("limit", PyInt 10)]
     ++ (if truthy job_title_ then [("position", job_title_)] else []))
    None.

(** The text [json.loads] is given for a reply. *)
Definition parsed_text (t : string) : string :=
  match HunterCli.brace_span t with
  | Some m => m
  | None => t
  end.

(** The two lines the Apollo script prints first. *)
Definition apollo_banner : list string :=
  ["Apollo People Search"; "Enter search filters (leave blank to skip):"].

(** An export as the session writes them: the fixed header, at least one
    row, every row with the seven columns in the order of the header,
    and a name made of the clock. *)
Definition well_formed_export (host : LeadCli.Host) (e : LeadCli.Export) : Prop :=
  LeadCli.header e = LeadCli.fieldnames /\
  LeadCli.rows e <> [] /\
  Forall (fun row => Dict.keys row = LeadCli.fieldnames) (LeadCli.rows e) /\
  exists n,
    LeadCli.filename e
    = ("leads_" ++ PyString.of_Z (LeadCli.clock host n) ++ ".csv")%string.

(** A contact entry the enrichment loop can read: an object with a
    [type] and a [value]. *)
Definition is_contact (x : pyval) : bool :=
  match x with
  | PyDict d => Dict.mem "type" d && Dict.mem "value" d
  | _ => false
  end.

(** Whether the entry is of the given type and has a non-empty value. *)
Definition fills (field : string) (x : pyval) : bool :=
  match Py.item x "type", Py.item x "value" with
  | Ok t, Ok v => eq_str t field && truthy v
  | _, _ => false
  end.

(** The value of the first entry of the given type whose value is not
    empty. *)
Fixpoint first_filled (field : string) (items : list pyval) : option pyval :=
  match items with
  | [] => None
  | x :: rest =>
      if fills field x
      then match Py.item x "value" with Ok v => Some v | Raise _ => None end
      else first_filled field rest
  end.

(** The world after a well-formed contact of type [t] and value [v] has
    been applied to [person]. *)
Definition contact_step (person : ref) (t v : pyval) (w : World) : World :=
  if eq_str t "email" && negb (truthy (email (heap w person)))
  then snd (set_email person v w)
  else if eq_str t "phone" && negb (truthy (phone (heap w person)))
  then snd (set_phone person v w)
  else w.

(** A Hunter body whose names carry Unicode white space: a no-break
    space (U+00A0) before the first name, an em space (U+2003) after the
    last name. *)
Definition body_hunter_spaced : pyval :=
  PyDict [("data", PyDict
    [("organization", PyStr "Acme");
     ("emails", PyList
        [PyDict [("first_name", PyStr (of_bytes [194; 160] ++ "Cy"));
                 ("last_name", PyStr ("Lee" ++ of_bytes [226; 128; 131]));
                 ("value", PyStr "cy@acme.test")]])])].

(** The reading of the enrichment property under which only a field that
    was the empty string may be filled. *)
Definition fills_only_empty_strings (self : LeadGenerationSystem)
    (env : Environment) (people : list ref) (w : World) : Prop :=
  forall r,
    let p := heap w r in
    let p' := heap (snd (enrich_with_clado self env people w)) r in
    (email p' <> email p -> email p = PyStr EmptyString) /\
    (phone p' <> phone p -> phone p = PyStr EmptyString).

(** A lookup body with one contact, an email. *)
Definition one_email_contact : pyval :=
  PyDict [("data", PyList [PyDict [("contacts", PyList
    [PyDict [("type", PyStr "email"); ("value", PyStr "ann@example.test")]])]])].








(** A network on which Apollo answers with one person whose email is
    null and the lookup of the enrichment answers [one_email_contact]. *)
Definition null_email_then_contact : Environment :=
  mkEnvironment
    (fun _ rq =>
       match req_method rq with
       | POST => Responded (response_with 200 "OK" EmptyString
                   (inr (PyDict [("people", PyList
                      [PyDict [("name", PyStr "Ann"); ("email", PyNone);
                               ("linkedin_url",
                                PyStr "https://linkedin.example/in/ann")]])])))
       | GET => Responded (response_with 200 "OK" EmptyString
                             (inr one_email_contact))
       end)
    (fun _ => "?").

(* ================================================================== *)
(** ** Facts about strings *)

Section StringFacts.

Lemma prefix_app (n h : string) :
  String.prefix n h = true <-> exists post, h = (n ++ post)%string.
Proof.
  revert h; induction n as [|c n IH]; intros [|d h]; simpl.
  - split; [intros _; exists EmptyString; reflexivity | reflexivity].
  - split; [intros _; exists (String d h); reflexivity | reflexivity].
  - split; [discriminate | intros [post H]; discriminate].
  - destruct (Ascii.ascii_dec c d) as [->|Hne].
    + rewrite IH. split; intros [post H]; exists post.
      * now rewrite H.
      * now inversion H.
    + split; [discriminate | intros [post H]; inversion H; congruence].
Qed.

(** [contains] is the substring test. *)
Lemma contains_substring (n h : string) :
  PyString.contains n h = true <->
  exists pre post, h = (pre ++ n ++ post)%string.
Proof.
  induction h as [|d h IH]; cbn [PyString.contains].
  - rewrite orb_false_r, prefix_app. split.
    + intros [post H]; exists EmptyString, post; exact H.
    + intros [pre [post H]]. destruct pre; [now exists post|discriminate].
  - rewrite orb_true_iff, IH, prefix_app. split.
    + intros [[post H] | [pre [post H]]].
      * exists EmptyString, post; exact H.
      * exists (String d pre), post; simpl; now rewrite H.
    + intros [pre [post H]]. destruct pre as [|c pre]; simpl in H.
      * left; now exists post.
      * right; exists pre, post; now inversion H.
Qed.

End StringFacts.

(* ================================================================== *)
(** ** The query classifier *)

(** The decision of the classifier as one table: the guard on the six
    job-title substrings and the chain below it select the same case. *)
Lemma classify_eq (query : string) :
  let q := PyString.lower query in
  classify query =
    (if PyString.contains "faang" q then FaangBranch faang_criteria faang_domains
     else if PyString.contains "engineer" q || PyString.contains "developer" q
     then JobTitleBranch
            (title_criteria
               ["Software Engineer"; "Senior Software Engineer"; "Developer"])
     else if PyString.contains "manager" q
     then JobTitleBranch
            (title_criteria ["Engineering Manager"; "Product Manager"; "Manager"])
     else if PyString.contains "director" q
     then JobTitleBranch (title_criteria ["Director"; "Engineering Director"])
     else if PyString.contains "ceo" q
     then JobTitleBranch (title_criteria ["CEO"; "Chief Executive Officer"])
     else if PyString.contains "cto" q
     then JobTitleBranch (title_criteria ["CTO"; "Chief Technology Officer"])
     else NoBranch).
Proof.
  intros q. unfold classify. fold q. cbn [existsb].
  destruct (PyString.contains "faang" q); [reflexivity|].
  destruct (PyString.contains "engineer" q); [reflexivity|].
  destruct (PyString.contains "developer" q); [reflexivity|].
  destruct (PyString.contains "manager" q); [reflexivity|].
  destruct (PyString.contains "director" q); [reflexivity|].
  destruct (PyString.contains "ceo" q); [reflexivity|].
  destruct (PyString.contains "cto" q); reflexivity.
Qed.

(** C1.  The classifier lower-cases the query.  A query containing
    "faang" gets the five company names with limit 50 and the five fixed
    domains.  Otherwise the substrings are tested in the order
    engineer/developer, manager, director, ceo, cto and the first match
    fixes the job-title list, with limit 25.  A query matching none of
    them builds no criteria, and the aggregator then returns the empty
    list without making any call. *)
Theorem classify_table (query : string) :
  let q := PyString.lower query in
  classify query =
    (if PyString.contains "faang" q then FaangBranch faang_criteria faang_domains
     else if PyString.contains "engineer" q || PyString.contains "developer" q
     then JobTitleBranch
            (title_criteria
               ["Software Engineer"; "Senior Software Engineer"; "Developer"])
     else if PyString.contains "manager" q
     then JobTitleBranch
            (title_criteria ["Engineering Manager"; "Product Manager"; "Manager"])
     else if PyString.contains "director" q
     then JobTitleBranch (title_criteria ["Director"; "Engineering Director"])
     else if PyString.contains "ceo" q
     then JobTitleBranch (title_criteria ["CEO"; "Chief Executive Officer"])
     else if PyString.contains "cto" q
     then JobTitleBranch (title_criteria ["CTO"; "Chief Technology Officer"])
     else NoBranch)
  /\ (classify query = NoBranch ->
      forall self env w,
        search_by_natural_language self env query w = (Ok [], w)).
Proof.
  intros q. split.
  - apply classify_eq.
  - intros H self env w. unfold search_by_natural_language. rewrite H.
    reflexivity.
Qed.

Lemma classify_table_witness :
  classify "something unrelated" = NoBranch /\
  classify "People working in FAANG" = FaangBranch faang_criteria faang_domains /\
  classify "Software engineers at Google" =
    JobTitleBranch
      (title_criteria
         ["Software Engineer"; "Senior Software Engineer"; "Developer"]) /\
  forall self env w,
    search_by_natural_language self env "something unrelated" w = (Ok [], w).
Proof.
  split; [reflexivity|]. split; [reflexivity|]. split; [reflexivity|].
  apply (proj2 (classify_table "something unrelated")). reflexivity.
Defined.

(* ================================================================== *)
(** ** Dictionaries *)

Section DictFacts.

Lemma lookup_set (k k' : string) (v : pyval) (d : dict) :
  Dict.lookup k (Dict.set k' v d) =
  if String.eqb k' k then Some v else Dict.lookup k d.
Proof.
  induction d as [|[k0 w] rest IH]; simpl.
  - reflexivity.
  - destruct (String.eqb k0 k') eqn:E0; simpl.
    + apply String.eqb_eq in E0; subst k0.
      destruct (String.eqb k' k); reflexivity.
    + rewrite IH. destruct (String.eqb k0 k) eqn:E1; [|reflexivity].
      apply String.eqb_eq in E1; subst k0.
      rewrite String.eqb_sym in E0. now rewrite E0.
Qed.

Lemma lookup_add_if (k k' : string) (v : pyval) (d : dict) :
  Dict.lookup k (ApolloPeopleSearch.add_if k' v d) =
  if truthy v && String.eqb k' k then Some v else Dict.lookup k d.
Proof.
  unfold ApolloPeopleSearch.add_if. destruct (truthy v); simpl.
  - apply lookup_set.
  - reflexivity.
Qed.

End DictFacts.

(* ================================================================== *)
(** ** The Apollo request bodies *)

(** A criteria dictionary whose [job_titles] is the empty list is sent
    with [person_titles] bound to the empty list. *)
Lemma body_omits_empty_fields_fails :
  ~ body_omits_empty_fields [("job_titles", PyList [])].
Proof.
  intros H.
  specialize (H [("page", PyInt 1); ("per_page", PyInt 25);
                 ("person_titles", PyList [])]
                "person_titles" (PyList []) eq_refl).
  assert (F : false = true); [|discriminate F].
  apply H; [simpl; tauto | reflexivity].
Qed.

(** C2, amended.  In [main.py] the request body carries the key of a
    criteria field exactly when that field is present in the criteria,
    with the value it has there (the keywords joined by spaces), empty or
    not; a field that is absent never appears.  In
    [apollo_people_search.py] each filter appears exactly when its
    argument is true in the Python sense, hence never as an empty list,
    an empty string or [None]. *)
Theorem request_body_fields :
  (forall criteria payload,
      apollo_payload criteria = Ok payload ->
      Dict.lookup "person_titles" payload = Dict.lookup "job_titles" criteria /\
      Dict.lookup "organization_names" payload
        = Dict.lookup "company_names" criteria /\
      Dict.lookup "person_locations" payload = Dict.lookup "locations" criteria /\
      Dict.lookup "q_keywords" payload
        = match Dict.lookup "keywords" criteria with
          | Some v => match Py.join " " v with
                      | Ok joined => Some (PyStr joined)
                      | Raise _ => None
                      end
          | None => None
          end) /\
  (forall a key v,
      In (key, v) (ApolloPeopleSearch.filters a) ->
      Dict.lookup key (ApolloPeopleSearch.payload a)
        = if truthy v then Some v else None).
Proof.
  split.
  - intros criteria payload H.
    unfold apollo_payload, Dict.mem, Py.item, rbind in H.
    destruct (Dict.lookup "job_titles" criteria) as [jt|];
      destruct (Dict.lookup "company_names" criteria) as [cn|];
      destruct (Dict.lookup "locations" criteria) as [lo|];
      destruct (Dict.lookup "keywords" criteria) as [kw|];
      try destruct (Py.join " " kw) as [joined|e];
      inversion H; subst payload; repeat split; reflexivity.
  - intros a key v Hin.
    unfold ApolloPeopleSearch.payload, ApolloPeopleSearch.filters in *.
    cbn [fold_left fst snd]. cbn [In] in Hin.
    repeat (destruct Hin as [Hin | Hin];
            [ inversion Hin; subst key v; clear Hin;
              rewrite !lookup_add_if; cbn [String.eqb Ascii.eqb Bool.eqb];
              rewrite ?andb_false_r, ?andb_true_r; cbn [Dict.lookup String.eqb Ascii.eqb Bool.eqb];
              match goal with |- context [truthy ?x] => destruct (truthy x) end;
              reflexivity
            | ]).
    contradiction.
Qed.

Lemma request_body_fields_witness :
  (Dict.lookup "person_titles"
     [("page", PyInt 1); ("per_page", PyInt 25); ("person_titles", PyList [])]
   = Dict.lookup "job_titles" [("job_titles", PyList [])]) /\
  Dict.lookup "q_keywords"
    (ApolloPeopleSearch.payload
       (ApolloPeopleSearch.mkArgs (str_list ["CEO"]) (PyBool true) PyNone PyNone
          PyNone PyNone PyNone PyNone PyNone (PyStr EmptyString) (PyInt 1)
          (PyInt 10)))
  = None.
Proof.
  split.
  - apply (proj1 request_body_fields [("job_titles", PyList [])]). reflexivity.
  - apply (proj2 request_body_fields
             (ApolloPeopleSearch.mkArgs (str_list ["CEO"]) (PyBool true) PyNone
                PyNone PyNone PyNone PyNone PyNone PyNone (PyStr EmptyString)
                (PyInt 1) (PyInt 10))
             "q_keywords" (PyStr EmptyString)).
    simpl. tauto.
Defined.

(* ================================================================== *)
(** ** Loops and the monad *)

Section MonadFacts.

Context {A S : Type}.

(** A relation between the world before and after that every iteration
    of a loop establishes holds of the whole loop. *)
Lemma for_each_invariant (P : World -> World -> Prop)
    (body : S -> A -> M S) (items : list A) :
  (forall w, P w w) ->
  (forall w1 w2 w3, P w1 w2 -> P w2 w3 -> P w1 w3) ->
  (forall s x w, In x items -> P w (snd (body s x w))) ->
  forall s w, P w (snd (for_each items body s w)).
Proof.
  intros Hrefl Htrans.
  induction items as [|x rest IH]; intros Hbody s w; simpl.
  - apply Hrefl.
  - unfold bind. pose proof (Hbody s x w (or_introl eq_refl)) as Hx.
    destruct (body s x w) as [[s'|e] w1]; simpl in *.
    + eapply Htrans; [exact Hx | apply IH].
      intros s0 x0 w0 Hin. apply Hbody. now right.
    + exact Hx.
Qed.

End MonadFacts.

(* ================================================================== *)
(** ** Enrichment *)

Section Enrichment.

Variable self : LeadGenerationSystem.
Variable env : Environment.

Lemma fills_only_refl (p : Person) : fills_only p p.
Proof. unfold fills_only; tauto. Qed.

Lemma fills_only_trans (p1 p2 p3 : Person) :
  fills_only p1 p2 -> fills_only p2 p3 -> fills_only p1 p3.
Proof.
  unfold fills_only.
  intros (N1 & L1 & J1 & C1 & O1 & E1 & P1) (N2 & L2 & J2 & C2 & O2 & E2 & P2).
  repeat split; try congruence.
  - intros H. rewrite E2; [auto | rewrite E1; auto].
  - intros H. rewrite P2; [auto | rewrite P1; auto].
Qed.

(** The lookup key of a record survives enrichment. *)
Lemma enriched_params (p p' : Person) :
  enriched p p' -> clado_params p' = clado_params p.
Proof.
  intros [(N & L & J & C & O & E & P) Hnone].
  unfold clado_params in *. rewrite L.
  destruct (truthy (linkedin_url p)); [reflexivity|].
  destruct (truthy (email p)) eqn:He.
  - rewrite (E eq_refl), He. reflexivity.
  - now rewrite (Hnone eq_refl), He.
Qed.

Lemma enriched_refl (p : Person) : enriched p p.
Proof. split; [apply fills_only_refl | reflexivity]. Qed.

Lemma enriched_trans (p1 p2 p3 : Person) :
  enriched p1 p2 -> enriched p2 p3 -> enriched p1 p3.
Proof.
  intros H12 H23. split.
  - eapply fills_only_trans; [apply H12 | apply H23].
  - intros Hnone. destruct H12 as [_ K12]. rewrite (K12 Hnone) in H23.
    destruct H23 as [_ K23]. exact (K23 Hnone).
Qed.

Lemma touches_refl (person : ref) (w : World) : touches person w w.
Proof. unfold touches; auto using fills_only_refl. Qed.

Lemma touches_trans (person : ref) (w1 w2 w3 : World) :
  touches person w1 w2 -> touches person w2 w3 -> touches person w1 w3.
Proof.
  intros (C1 & N1 & F1 & P1) (C2 & N2 & F2 & P2).
  split; [congruence|]. split; [congruence|]. split.
  - intros r Hr. rewrite F2, F1; auto.
  - apply (fills_only_trans _ _ _ P1 P2).
Qed.

Lemma upd_same (h : ref -> Person) (r : ref) (p : Person) : upd h r p r = p.
Proof. unfold upd. now rewrite Nat.eqb_refl. Qed.

Lemma upd_other (h : ref -> Person) (r r' : ref) (p : Person) :
  r' <> r -> upd h r p r' = h r'.
Proof. intros H. unfold upd. apply Nat.eqb_neq in H. now rewrite H. Qed.

(** One entry of the contacts touches the record at hand only, and only
    an empty [email] or [phone]. *)
Lemma apply_contact_touches (person : ref) (contact : pyval) (w : World) :
  touches person w (snd (apply_contact person contact w)).
Proof.
  unfold apply_contact, bind, lift, deref, ret.
  destruct (Py.item contact "type") as [t|e]; [|apply touches_refl].
  destruct (eq_str t "email" && negb (truthy (email (heap w person)))) eqn:He.
  - destruct (Py.item contact "value") as [v|e]; [|apply touches_refl].
    apply andb_prop in He. destruct He as [_ He].
    apply negb_true_iff in He.
    unfold set_email, touches, fills_only; simpl. rewrite upd_same.
    repeat split; auto using upd_other. congruence.
  - destruct (eq_str t "phone" && negb (truthy (phone (heap w person)))) eqn:Hp;
      [|apply touches_refl].
    destruct (Py.item contact "value") as [v|e]; [|apply touches_refl].
    apply andb_prop in Hp. destruct Hp as [_ Hp].
    apply negb_true_iff in Hp.
    unfold set_phone, touches, fills_only; simpl. rewrite upd_same.
    repeat split; auto using upd_other. congruence.
Qed.

(** A value that one entry of the contacts puts into [email] or [phone]
    is the [value] of that entry, and its [type] names the field. *)
Lemma apply_contact_source (person : ref) (contact : pyval) (w : World) :
  let p := heap w person in
  let p' := heap (snd (apply_contact person contact w)) person in
  (email p' = email p \/
   exists t, Py.item contact "type" = Ok t /\ eq_str t "email" = true /\
             Py.item contact "value" = Ok (email p')) /\
  (phone p' = phone p \/
   exists t, Py.item contact "type" = Ok t /\ eq_str t "phone" = true /\
             Py.item contact "value" = Ok (phone p')).
Proof.
  unfold apply_contact, bind, lift, deref, ret.
  destruct (Py.item contact "type") as [t|e]; [|simpl; auto].
  destruct (eq_str t "email" && negb (truthy (email (heap w person)))) eqn:He.
  - destruct (Py.item contact "value") as [v|e]; [|simpl; auto].
    apply andb_prop in He. destruct He as [He _].
    unfold set_email; simpl. rewrite upd_same. simpl.
    split; [right; eauto | auto].
  - destruct (eq_str t "phone" && negb (truthy (phone (heap w person)))) eqn:Hp;
      [|simpl; auto].
    destruct (Py.item contact "value") as [v|e]; [|simpl; auto].
    apply andb_prop in Hp. destruct Hp as [Hp _].
    unfold set_phone; simpl. rewrite upd_same. simpl.
    split; [auto | right; eauto].
Qed.

Lemma sourced_refl (p : Person) : sourced env p p.
Proof. split; now left. Qed.

Lemma sourced_trans (p1 p2 p3 : Person) :
  sourced env p1 p2 -> sourced env p2 p3 -> sourced env p1 p3.
Proof.
  intros [E1 P1] [E2 P2]. split.
  - destruct E2 as [E2|E2]; [rewrite E2; exact E1 | now right].
  - destruct P2 as [P2|P2]; [rewrite P2; exact P1 | now right].
Qed.

(** What the contacts of a response of the network put into a record
    comes from a contact of the matching type. *)
Lemma apply_response_sourced (person : ref) (n : nat) (rq : Request)
    (response : Response) (w : World) :
  net env n rq = Responded response ->
  forall r, sourced env (heap w r) (heap (snd (apply_response person response w)) r).
Proof.
  intros Hnet. unfold apply_response.
  destruct (status_code response =? 200)%Z; [|intros r; apply sourced_refl].
  unfold bind, lift.
  destruct (response_contacts response) as [items|e] eqn:Hitems;
    [|intros r; apply sourced_refl].
  apply (for_each_invariant
           (fun w1 w2 => forall r, sourced env (heap w1 r) (heap w2 r))).
  - intros w1 r. apply sourced_refl.
  - intros w1 w2 w3 H12 H23 r. exact (sourced_trans _ _ _ (H12 r) (H23 r)).
  - intros _ contact w1 Hin r.
    destruct (Nat.eq_dec r person) as [->|Hne].
    + destruct (apply_contact_source person contact w1) as [E P].
      split.
      * destruct E as [E|(t & Ht & Hty & Hv)]; [now left|].
        right. exists n, rq, response, items, contact, t.
        repeat split; assumption.
      * destruct P as [P|(t & Ht & Hty & Hv)]; [now left|].
        right. exists n, rq, response, items, contact, t.
        repeat split; assumption.
    + destruct (apply_contact_touches person contact w1) as (_ & _ & F & _).
      rewrite (F r Hne). apply sourced_refl.
Qed.

Lemma apply_response_touches (person : ref) (response : Response) (w : World) :
  touches person w (snd (apply_response person response w)).
Proof.
  unfold apply_response.
  destruct (status_code response =? 200)%Z; [|apply touches_refl].
  unfold bind, lift.
  destruct (response_contacts response) as [items|e]; [|apply touches_refl].
  apply for_each_invariant.
  - apply touches_refl.
  - apply touches_trans.
  - intros _ contact w' _. apply apply_contact_touches.
Qed.

(** One iteration of the enrichment loop: the record is appended
    whatever happens, one call is made when the record has a lookup key,
    only this record is touched, and a lookup that comes back without
    contacts leaves every record as it was. *)
Lemma enrich_iteration_spec (acc : list ref) (person : ref) (w : World) :
  let res := enrich_iteration self env acc person w in
  fst res = Ok (acc ++ [person]) /\
  calls (snd res) = calls w ++ clado_request self (heap w person) /\
  next (snd res) = next w /\
  (forall r, r <> person -> heap (snd res) r = heap w r) /\
  enriched (heap w person) (heap (snd res) person) /\
  ((forall rq, In rq (clado_request self (heap w person)) ->
               lookup_fails (net env (length (calls w)) rq) = true) ->
   forall r, heap (snd res) r = heap w r).
Proof.
  unfold enrich_iteration, try_except, enrich_try, bind, deref, clado_request.
  destruct (clado_params (heap w person)) as [params|] eqn:Hparams.
  2:{ simpl. rewrite app_nil_r.
      repeat split; auto using fills_only_refl. }
  unfold requests_get, send.
  set (rq := mkRequest GET clado_url (clado_headers self) params None).
  set (w1 := mkWorld (heap w) (next w) (calls w ++ [rq])).
  destruct (net env (length (calls w)) rq) as [msg|response] eqn:Hnet.
  { simpl. repeat split; auto using fills_only_refl. }
  pose proof (apply_response_touches person response w1) as (C & N & F & P).
  assert (Hfail : lookup_fails (Responded response) = true ->
                  snd (apply_response person response w1) = w1).
  { unfold lookup_fails, apply_response, bind, lift.
    destruct (status_code response =? 200)%Z; [|reflexivity].
    destruct (response_contacts response); [discriminate|reflexivity]. }
  assert (Hparams' : clado_params (heap w person) <> None) by congruence.
  destruct (apply_response person response w1) as [[[]|e] w2]; cbn [fst snd] in *;
    (split; [reflexivity|]; split; [exact C|]; split; [exact N|];
     split; [exact F|]; split; [split; [exact P | intros K; contradiction]|];
     intros Hall r; rewrite Hfail; [reflexivity|];
     rewrite <- Hnet; apply Hall; now left).
Qed.

Lemma enrich_iteration_sourced (acc : list ref) (person : ref) (w : World) :
  forall r,
    sourced env (heap w r)
      (heap (snd (enrich_iteration self env acc person w)) r).
Proof.
  unfold enrich_iteration, try_except, enrich_try, bind, deref.
  destruct (clado_params (heap w person)) as [params|];
    [|intros r; apply sourced_refl].
  unfold requests_get, send.
  set (rq := mkRequest GET clado_url (clado_headers self) params None).
  destruct (net env (length (calls w)) rq) as [msg|response] eqn:Hnet;
    [intros r; apply sourced_refl|].
  pose proof (apply_response_sourced person _ _ response
                (mkWorld (heap w) (next w) (calls w ++ [rq])) Hnet) as H.
  destruct (apply_response person response
              (mkWorld (heap w) (next w) (calls w ++ [rq]))) as [[[]|e] w2];
    exact H.
Qed.

Lemma enrich_with_clado_sourced (people : list ref) (w : World) :
  forall r,
    sourced env (heap w r) (heap (snd (enrich_with_clado self env people w)) r).
Proof.
  unfold enrich_with_clado.
  destruct (negb (configured (clado_api_key self)));
    [intros r; apply sourced_refl|].
  apply (for_each_invariant
           (fun w1 w2 => forall r, sourced env (heap w1 r) (heap w2 r))).
  - intros w1 r. apply sourced_refl.
  - intros w1 w2 w3 H12 H23 r. exact (sourced_trans _ _ _ (H12 r) (H23 r)).
  - intros acc person w1 _. apply enrich_iteration_sourced.
Qed.


Lemma enrichment_trans (w1 w2 w3 : World) :
  enrichment w1 w2 -> enrichment w2 w3 -> enrichment w1 w3.
Proof.
  intros [N1 H1] [N2 H2]. split; [congruence|].
  intros r. apply (enriched_trans _ _ _ (H1 r) (H2 r)).
Qed.

Lemma enrichment_request (w w' : World) (r : ref) :
  enrichment w w' -> clado_request self (heap w' r) = clado_request self (heap w r).
Proof.
  intros [_ H]. unfold clado_request. now rewrite (enriched_params _ _ (H r)).
Qed.

(** The enrichment loop: the records come back in the order they went
    in, each record with a lookup key has had its call, whatever became
    of the calls before it, and a record all of whose lookups come back
    without contacts is as it was. *)
Lemma enrich_loop_spec (people : list ref) :
  forall (acc : list ref) (w : World),
    let res := for_each people (enrich_iteration self env) acc w in
    fst res = Ok (acc ++ people) /\
    calls (snd res)
      = calls w ++ flat_map (fun r => clado_request self (heap w r)) people /\
    enrichment w (snd res) /\
    (forall r,
        (forall n rq, In rq (clado_request self (heap w r)) ->
                      lookup_fails (net env n rq) = true) ->
        heap (snd res) r = heap w r).
Proof.
  induction people as [|person rest IH]; intros acc w; simpl.
  - rewrite !app_nil_r.
    repeat split; auto.
  - unfold bind.
    pose proof (enrich_iteration_spec acc person w) as (R1 & C1 & N1 & F1 & E1 & K1).
    destruct (enrich_iteration self env acc person w) as [r1 w1].
    cbn [fst snd] in *. subst r1.
    assert (S1 : enrichment w w1).
    { split; [exact N1|]. intros r.
      destruct (Nat.eq_dec r person) as [->|Hne]; [exact E1|].
      rewrite (F1 r Hne). apply enriched_refl. }
    specialize (IH (acc ++ [person]) w1) as (R2 & C2 & S2 & K2).
    split; [now rewrite R2, <- app_assoc|].
    split.
    { rewrite C2, C1, <- app_assoc. f_equal. f_equal.
      apply flat_map_ext. intros r. now apply enrichment_request. }
    split; [exact (enrichment_trans _ _ _ S1 S2)|].
    intros r Hall. rewrite K2.
    + destruct (Nat.eq_dec r person) as [->|Hne]; [|exact (F1 r Hne)].
      apply K1. intros rq Hin. now apply Hall.
    + intros n rq Hin. apply Hall.
      now rewrite <- (enrichment_request w w1 r S1).
Qed.


End Enrichment.

(** A record whose [email] is [None], as the Apollo client leaves it for
    a null in the response, is given the email of the contact: a field
    that was not the empty string is filled. *)
Lemma fills_only_empty_strings_fails :
  ~ fills_only_empty_strings all_keys (ok_with one_email_contact) [0]
      (world_of [with_email ann PyNone]).
Proof.
  intros H. destruct (H 0) as [He _].
  assert (Hne : email (heap (snd (enrich_with_clado all_keys
                                    (ok_with one_email_contact) [0]
                                    (world_of [with_email ann PyNone]))) 0)
                <> email (heap (world_of [with_email ann PyNone]) 0)).
  { vm_compute. discriminate. }
  specialize (He Hne). vm_compute in He. discriminate He.
Qed.

(** C3, amended.  Enrichment never overwrites an [email] or a [phone]
    that is true in the Python sense, which for a string means not
    empty: after [enrich_with_clado] returns, every record whose [email]
    (or [phone]) was such before has the value it had.  A field that
    changed was empty in the Python sense before (the empty string, but
    also [None], 0, an empty list, ...); no field other than [email] and
    [phone] changes; and a new [email] (or [phone]) is the value of a
    contact of type "email" (or "phone") in a response of the
    provider. *)
Theorem enrich_never_overwrites (self : LeadGenerationSystem)
    (env : Environment) (people : list ref) (w : World) (r : ref) :
  let p := heap w r in
  let p' := heap (snd (enrich_with_clado self env people w)) r in
  (truthy (email p) = true -> email p' = email p) /\
  (truthy (phone p) = true -> phone p' = phone p) /\
  (forall s, email p = PyStr s -> s <> EmptyString -> email p' = PyStr s) /\
  (forall s, phone p = PyStr s -> s <> EmptyString -> phone p' = PyStr s) /\
  (email p' <> email p -> truthy (email p) = false) /\
  (phone p' <> phone p -> truthy (phone p) = false) /\
  name p' = name p /\ linkedin_url p' = linkedin_url p /\
  job_title p' = job_title p /\ company p' = company p /\
  location p' = location p /\
  (email p' = email p \/ from_contact env "email" (email p')) /\
  (phone p' = phone p \/ from_contact env "phone" (phone p')).
Proof.
  intros p p'.
  pose proof (enrich_with_clado_sourced self env people w r) as [SE SP].
  assert (H : fills_only p p').
  { subst p p'. unfold enrich_with_clado.
    destruct (negb (configured (clado_api_key self))).
    - apply fills_only_refl.
    - pose proof (enrich_loop_spec self env people [] w) as (_ & _ & [_ E] & _).
      apply E. }
  destruct H as (N & L & J & C & O & E & P).
  assert (Hstr : forall s, s <> EmptyString -> truthy (PyStr s) = true).
  { intros s Hs. simpl. apply negb_true_iff. now apply String.eqb_neq. }
  repeat split; auto.
  - intros s Hs Hne. rewrite <- Hs. apply E. rewrite Hs. auto.
  - intros s Hs Hne. rewrite <- Hs. apply P. rewrite Hs. auto.
  - intros Hne. destruct (truthy (email p)); [|reflexivity].
    exfalso; auto.
  - intros Hne. destruct (truthy (phone p)); [|reflexivity].
    exfalso; auto.
Qed.

Lemma enrich_never_overwrites_witness :
  let w := world_of [with_email ann (PyStr "ann@old.test")] in
  let env := answering (Responded
               (response_with 200 "OK" EmptyString (inr half_good_contacts))) in
  email (heap (snd (enrich_with_clado all_keys env [0] w)) 0)
    = PyStr "ann@old.test".
Proof.
  intros w env.
  apply (proj1 (enrich_never_overwrites all_keys env [0] w 0)).
  reflexivity.
Defined.




(* ================================================================== *)
(** ** The normalizers *)

Section Normalizers.

Lemma alloc_all_next (records : list Person) (w : World) :
  next (alloc_all records w) = next w + length records.
Proof.
  revert w; induction records as [|p rest IH]; intros w; simpl.
  - lia.
  - rewrite IH. simpl. lia.
Qed.

Lemma alloc_all_calls (records : list Person) (w : World) :
  calls (alloc_all records w) = calls w.
Proof.
  revert w; induction records as [|p rest IH]; intros w; simpl.
  - reflexivity.
  - now rewrite IH.
Qed.

(** Objects that exist already are not touched. *)
Lemma alloc_all_old (records : list Person) (w : World) (r : ref) :
  r < next w -> heap (alloc_all records w) r = heap w r.
Proof.
  revert w; induction records as [|p rest IH]; intros w Hr; simpl.
  - reflexivity.
  - rewrite IH by (simpl; lia). simpl.
    unfold upd. destruct (Nat.eqb_spec r (next w)); [lia | reflexivity].
Qed.

(** The [i]-th record created is the object number [next w + i]. *)
Lemma alloc_all_new (records : list Person) (w : World) (i : nat) (p : Person) :
  nth_error records i = Some p ->
  heap (alloc_all records w) (next w + i) = p.
Proof.
  revert w i; induction records as [|q rest IH]; intros w i Hi.
  - destruct i; discriminate.
  - destruct i as [|i]; simpl in *.
    + inversion Hi; subst q. rewrite alloc_all_old by (simpl; lia).
      simpl. rewrite Nat.add_0_r. unfold upd. now rewrite Nat.eqb_refl.
    + specialize (IH (snd (new_person q w)) i Hi). simpl in IH.
      now rewrite <- Nat.add_succ_comm.
Qed.

Lemma traverse_length {A B : Type} (f : A -> result B) (items : list A)
    (records : list B) :
  traverse f items = Ok records -> length records = length items.
Proof.
  revert records; induction items as [|x rest IH]; intros records H; simpl in H.
  - now inversion H.
  - unfold rbind in H. destruct (f x); [|discriminate].
    destruct (traverse f rest) as [ys|]; [|discriminate].
    inversion H. simpl. now rewrite (IH ys).
Qed.

Lemma traverse_nth {A B : Type} (f : A -> result B) (items : list A)
    (records : list B) (i : nat) (y : B) :
  traverse f items = Ok records ->
  nth_error records i = Some y ->
  exists x, nth_error items i = Some x /\ f x = Ok y.
Proof.
  revert records i; induction items as [|x rest IH]; intros records i H Hi;
    simpl in H.
  - inversion H; subst. destruct i; discriminate.
  - unfold rbind in H. destruct (f x) as [y0|] eqn:Hx; [|discriminate].
    destruct (traverse f rest) as [ys|]; [|discriminate].
    inversion H; subst records. destruct i as [|i]; simpl in *.
    + inversion Hi; subst. now exists x.
    + now apply (IH ys).
Qed.

Lemma traverse_raise {A B : Type} (f : A -> result B) (items : list A) (e : exn) :
  traverse f items = Raise e -> exists x, In x items /\ f x = Raise e.
Proof.
  induction items as [|x rest IH]; simpl; [discriminate|].
  unfold rbind. destruct (f x) as [y|e0] eqn:Hx.
  - destruct (traverse f rest) as [ys|e1]; [discriminate|].
    intros H; inversion H; subst e1.
    destruct (IH eq_refl) as (x' & Hin & Hx'). exists x'; auto.
  - intros H; inversion H; subst e0. exists x; auto.
Qed.

Lemma normalize_loop_cons (f : pyval -> result Person) (x : pyval)
    (rest : list pyval) (people : list ref) (w : World) :
  normalize_loop f (x :: rest) people w
  = match f x with
    | Ok p => normalize_loop f rest (people ++ [next w]) (snd (new_person p w))
    | Raise e => (Raise e, w)
    end.
Proof.
  unfold normalize_loop; simpl. unfold bind at 1, lift.
  destruct (f x); reflexivity.
Qed.

(** The loop creates one object per item, in order, until an item
    fails; it makes no call. *)
Lemma normalize_loop_spec (f : pyval -> result Person) (items : list pyval) :
  forall (people : list ref) (w : World),
    match traverse f items with
    | Ok records =>
        normalize_loop f items people w
        = (Ok (people ++ seq (next w) (length items)), alloc_all records w)
    | Raise e =>
        fst (normalize_loop f items people w) = Raise e /\
        calls (snd (normalize_loop f items people w)) = calls w
    end.
Proof.
  induction items as [|x rest IH]; intros people w.
  - simpl. now rewrite app_nil_r.
  - rewrite normalize_loop_cons. cbn [traverse]. unfold rbind.
    destruct (f x) as [p|e]; [|auto].
    specialize (IH (people ++ [next w]) (snd (new_person p w))).
    destruct (traverse f rest) as [records|e].
    + rewrite IH. simpl. now rewrite <- app_assoc.
    + exact IH.
Qed.

End Normalizers.

(* ================================================================== *)
(** ** The provider clients of [main.py] *)

Section Clients.

Variable self : LeadGenerationSystem.
Variable env : Environment.

Lemma py_get_raise (v : pyval) (key : string) (default : pyval) (e : exn) :
  Py.get v key default = Raise e -> e = AttributeError.
Proof. destruct v; simpl; intros H; now inversion H. Qed.

Lemma py_iter_raise (v : pyval) (e : exn) :
  Py.iter v = Raise e -> e = TypeError.
Proof. destruct v; simpl; intros H; now inversion H. Qed.

(** On a dictionary [get] does not raise. *)
Lemma py_get_dict (d : dict) (key : string) (default : pyval) :
  Py.get (PyDict d) key default = Ok (Dict.get key default d).
Proof. reflexivity. Qed.

Lemma apollo_record_raise (x : pyval) (e : exn) :
  apollo_record x = Raise e -> e = AttributeError.
Proof.
  unfold apollo_record, rbind.
  destruct x; simpl; try (intros H; now inversion H).
  destruct (Py.get (Dict.get "organization" (PyDict []) entries) "name"
              (PyStr EmptyString)) eqn:Hg.
  - discriminate.
  - intros H; inversion H; subst. now apply py_get_raise in Hg.
Qed.

Lemma hunter_record_raise (data x : pyval) (e : exn) :
  hunter_record env data x = Raise e -> e = AttributeError.
Proof.
  unfold hunter_record, rbind.
  destruct x; simpl; try (intros H; now inversion H).
  destruct (Py.get data "data" (PyDict [])) as [df|e0] eqn:Hd.
  - destruct (Py.get df "organization" (PyStr EmptyString)) eqn:Hg.
    + discriminate.
    + intros H; inversion H; subst. now apply py_get_raise in Hg.
  - intros H; inversion H; subst. now apply py_get_raise in Hd.
Qed.

(** The records a Hunter response yields keep the default [phone] and
    [location]. *)
Lemma hunter_record_defaults (data x : pyval) (p : Person) :
  hunter_record env data x = Ok p ->
  phone p = PyStr EmptyString /\ location p = PyStr EmptyString.
Proof.
  unfold hunter_record, rbind.
  repeat match goal with
         | |- context [match ?r with Ok _ => _ | Raise _ => _ end] =>
             destruct r; [|discriminate]
         end.
  intros H; inversion H; subst p. split; reflexivity.
Qed.

Lemma apollo_normalize_unfold (data : pyval) (w : World) :
  apollo_normalize data w
  = match apollo_items data with
    | Ok items => normalize_loop apollo_record items [] w
    | Raise e => (Raise e, w)
    end.
Proof.
  unfold apollo_normalize, apollo_items, normalize_loop, bind, lift, rbind.
  destruct (Py.get data "people" (PyList [])) as [pf|e]; [|reflexivity].
  destruct (Py.iter pf); reflexivity.
Qed.

Lemma hunter_normalize_unfold (data : pyval) (w : World) :
  hunter_normalize env data w
  = match hunter_items data with
    | Ok items => normalize_loop (hunter_record env data) items [] w
    | Raise e => (Raise e, w)
    end.
Proof.
  unfold hunter_normalize, hunter_items, normalize_loop, bind, lift, rbind.
  destruct (Py.get data "data" (PyDict [])) as [df|e]; [|reflexivity].
  destruct (Py.get df "emails" (PyList [])) as [em|e]; [|reflexivity].
  destruct (Py.iter em); reflexivity.
Qed.

(** A normalizer makes no call and raises no [RequestException]. *)
Lemma apollo_normalize_raise (data : pyval) (w : World) (e : exn) :
  fst (apollo_normalize data w) = Raise e -> is_RequestException e = false.
Proof.
  rewrite apollo_normalize_unfold. unfold apollo_items, rbind.
  destruct (Py.get data "people" (PyList [])) as [pf|e0] eqn:Hg.
  2:{ simpl. intros H; inversion H; subst.
      now rewrite (py_get_raise _ _ _ _ Hg). }
  destruct (Py.iter pf) as [items|e0] eqn:Hi.
  2:{ simpl. intros H; inversion H; subst.
      now rewrite (py_iter_raise _ _ Hi). }
  pose proof (normalize_loop_spec apollo_record items [] w) as Hs.
  destruct (traverse apollo_record items) as [records|e1] eqn:Ht.
  - rewrite Hs. discriminate.
  - destruct Hs as [Hs _]. rewrite Hs. intros H; inversion H; subst e1.
    destruct (traverse_raise _ _ _ Ht) as (x & _ & Hx).
    now rewrite (apollo_record_raise _ _ Hx).
Qed.

Lemma hunter_normalize_raise (data : pyval) (w : World) (e : exn) :
  fst (hunter_normalize env data w) = Raise e -> is_RequestException e = false.
Proof.
  rewrite hunter_normalize_unfold. unfold hunter_items, rbind.
  destruct (Py.get data "data" (PyDict [])) as [df|e0] eqn:Hg.
  2:{ simpl. intros H; inversion H; subst.
      now rewrite (py_get_raise _ _ _ _ Hg). }
  destruct (Py.get df "emails" (PyList [])) as [em|e0] eqn:Hm.
  2:{ simpl. intros H; inversion H; subst.
      now rewrite (py_get_raise _ _ _ _ Hm). }
  destruct (Py.iter em) as [items|e0] eqn:Hi.
  2:{ simpl. intros H; inversion H; subst.
      now rewrite (py_iter_raise _ _ Hi). }
  pose proof (normalize_loop_spec (hunter_record env data) items [] w) as Hs.
  destruct (traverse (hunter_record env data) items) as [records|e1] eqn:Ht.
  - rewrite Hs. discriminate.
  - destruct Hs as [Hs _]. rewrite Hs. intros H; inversion H; subst e1.
    destruct (traverse_raise _ _ _ Ht) as (x & _ & Hx).
    now rewrite (hunter_record_raise _ _ _ Hx).
Qed.

(** What [search_people_apollo] does with a response. *)
Lemma search_people_apollo_responded (criteria payload : dict) (w : World)
    (response : Response) :
  configured (apollo_api_key self) = true ->
  apollo_payload criteria = Ok payload ->
  net env (length (calls w)) (apollo_request self payload) = Responded response ->
  search_people_apollo self env criteria w
  = let w1 := after_call w (apollo_request self payload) in
    if is_http_error (status_code response)
    then (Raise (PyException ("Apollo API error: " ++ http_error_msg response)), w1)
    else match decoded response with
         | inl msg => (Raise (PyException ("Apollo API error: " ++ msg)), w1)
         | inr data => apollo_normalize data w1
         end.
Proof.
  intros Hkey Hpayload Hnet.
  unfold search_people_apollo. rewrite Hkey, Hpayload. cbn [negb].
  unfold bind at 1, lift at 1.
  fold (apollo_request self payload).
  unfold try_except, requests_post, bind at 1, send.
  fold (apollo_request self payload). rewrite Hnet.
  fold (after_call w (apollo_request self payload)).
  unfold bind at 1, lift at 1, raise_for_status, is_http_error.
  destruct ((400 <=? status_code response)%Z && (status_code response <? 600)%Z);
    [reflexivity|].
  unfold bind at 1, lift at 1, json.
  destruct (decoded response) as [msg|data]; [reflexivity|].
  cbn zeta.
  pose proof (apollo_normalize_raise data
                (after_call w (apollo_request self payload))) as Hr.
  destruct (apollo_normalize data (after_call w (apollo_request self payload)))
    as [[v|e] w2]; [reflexivity|].
  specialize (Hr e eq_refl). destruct e; try discriminate; reflexivity.
Qed.

(** What [search_people_hunter] does with a response. *)
Lemma search_people_hunter_responded (domain : string) (job_title_ : pyval)
    (w : World) (response : Response) :
  configured (hunter_api_key self) = true ->
  net env (length (calls w)) (hunter_request self domain job_title_)
    = Responded response ->
  search_people_hunter self env domain job_title_ w
  = let w1 := after_call w (hunter_request self domain job_title_) in
    if is_http_error (status_code response)
    then (Raise (PyException ("Hunter API error: " ++ http_error_msg response)), w1)
    else match decoded response with
         | inl msg => (Raise (PyException ("Hunter API error: " ++ msg)), w1)
         | inr data => hunter_normalize env data w1
         end.
Proof.
  intros Hkey Hnet.
  unfold search_people_hunter. rewrite Hkey. cbn [negb].
  fold (hunter_request self domain job_title_).
  unfold try_except, requests_get, bind at 1, send.
  fold (hunter_request self domain job_title_). rewrite Hnet.
  fold (after_call w (hunter_request self domain job_title_)).
  unfold bind at 1, lift at 1, raise_for_status, is_http_error.
  destruct ((400 <=? status_code response)%Z && (status_code response <? 600)%Z);
    [reflexivity|].
  unfold bind at 1, lift at 1, json.
  destruct (decoded response) as [msg|data]; [reflexivity|].
  cbn zeta.
  pose proof (hunter_normalize_raise data
                (after_call w (hunter_request self domain job_title_))) as Hr.
  destruct (hunter_normalize env data
              (after_call w (hunter_request self domain job_title_)))
    as [[v|e] w2]; [reflexivity|].
  specialize (Hr e eq_refl). destruct e; try discriminate; reflexivity.
Qed.

(** What the clients do when no response comes back. *)
Lemma search_people_apollo_no_response (criteria payload : dict) (w : World)
    (msg : string) :
  configured (apollo_api_key self) = true ->
  apollo_payload criteria = Ok payload ->
  net env (length (calls w)) (apollo_request self payload)
    = ConnectionFailure msg ->
  search_people_apollo self env criteria w
  = (Raise (PyException ("Apollo API error: " ++ msg)),
     after_call w (apollo_request self payload)).
Proof.
  intros Hkey Hpayload Hnet.
  unfold search_people_apollo. rewrite Hkey, Hpayload. cbn [negb].
  unfold bind at 1, lift at 1.
  unfold try_except, requests_post, bind at 1, send.
  fold (apollo_request self payload). now rewrite Hnet.
Qed.

Lemma search_people_hunter_no_response (domain : string) (job_title_ : pyval)
    (w : World) (msg : string) :
  configured (hunter_api_key self) = true ->
  net env (length (calls w)) (hunter_request self domain job_title_)
    = ConnectionFailure msg ->
  search_people_hunter self env domain job_title_ w
  = (Raise (PyException ("Hunter API error: " ++ msg)),
     after_call w (hunter_request self domain job_title_)).
Proof.
  intros Hkey Hnet.
  unfold search_people_hunter. rewrite Hkey. cbn [negb].
  unfold try_except, requests_get, bind at 1, send.
  fold (hunter_request self domain job_title_). now rewrite Hnet.
Qed.

(** A missing key is reported before any call is made. *)
Lemma search_people_apollo_no_key (criteria : dict) (w : World) :
  configured (apollo_api_key self) = false ->
  search_people_apollo self env criteria w
  = (Raise (ValueError
       "Apollo API key not found. Set APOLLO_API_KEY environment variable."), w).
Proof. intros H. unfold search_people_apollo. now rewrite H. Qed.

Lemma search_people_hunter_no_key (domain : string) (job_title_ : pyval)
    (w : World) :
  configured (hunter_api_key self) = false ->
  search_people_hunter self env domain job_title_ w
  = (Raise (ValueError
       "Hunter API key not found. Set HUNTER_API_KEY environment variable."), w).
Proof. intros H. unfold search_people_hunter. now rewrite H. Qed.

Lemma normalize_loop_calls (f : pyval -> result Person) (items : list pyval)
    (people : list ref) (w : World) :
  calls (snd (normalize_loop f items people w)) = calls w.
Proof.
  pose proof (normalize_loop_spec f items people w) as H.
  destruct (traverse f items).
  - rewrite H. apply alloc_all_calls.
  - apply H.
Qed.

Lemma hunter_normalize_calls (data : pyval) (w : World) :
  calls (snd (hunter_normalize env data w)) = calls w.
Proof.
  rewrite hunter_normalize_unfold.
  destruct (hunter_items data); [apply normalize_loop_calls | reflexivity].
Qed.

Lemma apollo_normalize_calls (data : pyval) (w : World) :
  calls (snd (apollo_normalize data w)) = calls w.
Proof.
  rewrite apollo_normalize_unfold.
  destruct (apollo_items data); [apply normalize_loop_calls | reflexivity].
Qed.

(** With its key configured, a client makes exactly one call. *)
Lemma search_people_apollo_calls (criteria payload : dict) (w : World) :
  configured (apollo_api_key self) = true ->
  apollo_payload criteria = Ok payload ->
  calls (snd (search_people_apollo self env criteria w))
  = calls w ++ [apollo_request self payload].
Proof.
  intros Hkey Hpayload.
  destruct (net env (length (calls w)) (apollo_request self payload))
    as [msg|response] eqn:Hnet.
  - now rewrite (search_people_apollo_no_response _ _ _ _ Hkey Hpayload Hnet).
  - rewrite (search_people_apollo_responded _ _ _ _ Hkey Hpayload Hnet).
    cbn zeta. destruct (is_http_error (status_code response)); [reflexivity|].
    destruct (decoded response); [reflexivity|].
    now rewrite apollo_normalize_calls.
Qed.

Lemma search_people_hunter_calls (domain : string) (job_title_ : pyval)
    (w : World) :
  configured (hunter_api_key self) = true ->
  calls (snd (search_people_hunter self env domain job_title_ w))
  = calls w ++ [hunter_request self domain job_title_].
Proof.
  intros Hkey.
  destruct (net env (length (calls w)) (hunter_request self domain job_title_))
    as [msg|response] eqn:Hnet.
  - now rewrite (search_people_hunter_no_response _ _ _ _ Hkey Hnet).
  - rewrite (search_people_hunter_responded _ _ _ _ Hkey Hnet).
    cbn zeta. destruct (is_http_error (status_code response)); [reflexivity|].
    destruct (decoded response); [reflexivity|].
    now rewrite hunter_normalize_calls.
Qed.

End Clients.

(* ================================================================== *)
(** ** Properties of the normalizers *)

Lemma traverse_ok {A B : Type} (f : A -> result B) (items : list A) :
  (forall x, In x items -> exists y, f x = Ok y) ->
  exists records, traverse f items = Ok records.
Proof.
  induction items as [|x rest IH]; intros H; simpl.
  - now exists [].
  - destruct (H x (or_introl eq_refl)) as [y Hy].
    destruct IH as [ys Hys]; [intros x' Hx'; apply H; now right|].
    exists (y :: ys). unfold rbind. now rewrite Hy, Hys.
Qed.

Lemma apollo_record_ok (x : pyval) :
  well_shaped x = true -> exists p, apollo_record x = Ok p.
Proof.
  destruct x as [| | | | |items|d]; try discriminate.
  unfold well_shaped. intros Hshape.
  assert (Hc : exists c,
             Py.get (Dict.get "organization" (PyDict []) d) "name"
               (PyStr EmptyString) = Ok c).
  { unfold Dict.get. destruct (Dict.lookup "organization" d) as [o|].
    - destruct o; try discriminate. rewrite py_get_dict. eauto.
    - rewrite py_get_dict. eauto. }
  destruct Hc as [c Hc]. eexists.
  unfold apollo_record, rbind. cbn [Py.get]. rewrite Hc. reflexivity.
Qed.

(** When every item of [people] is an object whose [organization] is
    missing or an object, the Apollo normalizer yields one record per
    item, in the order of the list. *)
Lemma apollo_normalize_keeps_all (data : pyval) (items : list pyval) (w : World) :
  apollo_items data = Ok items ->
  forallb well_shaped items = true ->
  exists records,
    apollo_normalize data w
      = (Ok (seq (next w) (length items)), alloc_all records w) /\
    length records = length items /\
    forall i p, nth_error records i = Some p ->
      heap (alloc_all records w) (next w + i) = p /\
      exists x, nth_error items i = Some x /\ apollo_record x = Ok p.
Proof.
  intros Hitems Hshape.
  destruct (traverse_ok apollo_record items) as [records Hrec].
  { intros x Hx. apply apollo_record_ok.
    rewrite forallb_forall in Hshape. now apply Hshape. }
  exists records. rewrite apollo_normalize_unfold, Hitems.
  pose proof (normalize_loop_spec apollo_record items [] w) as Hs.
  rewrite Hrec in Hs. split; [exact Hs|].
  split; [now apply (traverse_length apollo_record)|].
  intros i p Hi. split; [now apply alloc_all_new|].
  now apply (traverse_nth apollo_record items records).
Qed.

(** C7, at the failing input.  A [people] list of two items whose second
    item has [organization] bound to [null] yields no record at all: the
    normalizer raises [AttributeError], and the aggregator, which
    catches it, returns the empty list. *)
Theorem apollo_null_organization_drops_all :
  fst (search_people_apollo all_keys (ok_with body_null_organization)
         (title_criteria ["CEO"; "Chief Executive Officer"]) empty_world)
    = Raise AttributeError /\
  fst (search_by_natural_language all_keys (ok_with body_null_organization)
         "ceo" empty_world)
    = Ok [].
Proof. split; reflexivity. Qed.

(** A field the provider omits is set to the empty string. *)
Lemma apollo_record_defaults (d : dict) (p : Person) :
  apollo_record (PyDict d) = Ok p ->
  (Dict.lookup "name" d = None -> name p = PyStr EmptyString) /\
  (Dict.lookup "email" d = None -> email p = PyStr EmptyString) /\
  (Dict.lookup "phone" d = None -> phone p = PyStr EmptyString) /\
  (Dict.lookup "linkedin_url" d = None -> linkedin_url p = PyStr EmptyString) /\
  (Dict.lookup "title" d = None -> job_title p = PyStr EmptyString) /\
  (Dict.lookup "organization" d = None -> company p = PyStr EmptyString) /\
  (Dict.lookup "city" d = None -> location p = PyStr EmptyString).
Proof.
  unfold apollo_record, rbind. rewrite !py_get_dict.
  destruct (Py.get (Dict.get "organization" (PyDict []) d) "name"
              (PyStr EmptyString)) as [c|] eqn:Hc; [|discriminate].
  intros H; inversion H; subst p; clear H; simpl.
  unfold Dict.get in *.
  repeat split; intros Hnone; rewrite Hnone in *; try reflexivity.
  simpl in Hc. now inversion Hc.
Qed.

(** C8, at the failing input.  An item whose [email] is bound to [null]
    becomes a record whose [email] is [None]. *)
Theorem apollo_null_email_propagates :
  let res := search_people_apollo all_keys (ok_with body_null_email)
               (title_criteria ["CEO"; "Chief Executive Officer"]) empty_world in
  fst res = Ok [0] /\ email (heap (snd res) 0) = PyNone.
Proof. split; reflexivity. Qed.

(** C10.  Every record that [search_people_hunter] returns has the empty
    string as [phone] and as [location], whatever the response holds. *)
Theorem hunter_records_have_no_phone (self : LeadGenerationSystem)
    (env : Environment) (domain : string) (job_title_ : pyval) (w : World)
    (refs : list ref) :
  fst (search_people_hunter self env domain job_title_ w) = Ok refs ->
  forall r, In r refs ->
    phone (heap (snd (search_people_hunter self env domain job_title_ w)) r)
      = PyStr EmptyString /\
    location (heap (snd (search_people_hunter self env domain job_title_ w)) r)
      = PyStr EmptyString.
Proof.
  destruct (configured (hunter_api_key self)) eqn:Hkey.
  2:{ rewrite search_people_hunter_no_key by exact Hkey. discriminate. }
  destruct (net env (length (calls w)) (hunter_request self domain job_title_))
    as [msg|response] eqn:Hnet.
  { rewrite (search_people_hunter_no_response _ _ _ _ _ _ Hkey Hnet).
    discriminate. }
  rewrite (search_people_hunter_responded _ _ _ _ _ _ Hkey Hnet). cbn zeta.
  destruct (is_http_error (status_code response)); [discriminate|].
  destruct (decoded response) as [msg|data]; [discriminate|].
  rewrite hunter_normalize_unfold.
  destruct (hunter_items data) as [items|e]; [|discriminate].
  set (w1 := after_call w (hunter_request self domain job_title_)).
  pose proof (normalize_loop_spec (hunter_record env data) items [] w1) as Hs.
  destruct (traverse (hunter_record env data) items) as [records|e] eqn:Ht.
  2:{ destruct Hs as [Hs _]. rewrite Hs. discriminate. }
  rewrite Hs. cbn [fst snd app]. intros Hrefs r Hr.
  assert (Hn : next w1 = next w) by reflexivity.
  inversion Hrefs; subst refs. apply in_seq in Hr.
  assert (Hlen : length records = length items)
    by now apply (traverse_length (hunter_record env data)).
  destruct (nth_error records (r - next w1)) as [p|] eqn:Hp.
  2:{ apply nth_error_None in Hp. lia. }
  destruct (traverse_nth _ _ _ _ _ Ht Hp) as (x & _ & Hx).
  replace r with (next w1 + (r - next w1)) by lia.
  rewrite (alloc_all_new _ _ _ _ Hp).
  exact (hunter_record_defaults env data x p Hx).
Qed.

Lemma hunter_records_have_no_phone_witness :
  let run := search_people_hunter all_keys (ok_with body_hunter) "acme.test"
               PyNone empty_world in
  fst run = Ok [0] /\
  phone (heap (snd run) 0) = PyStr EmptyString /\
  location (heap (snd run) 0) = PyStr EmptyString.
Proof.
  intros run. split; [reflexivity|].
  apply (hunter_records_have_no_phone all_keys (ok_with body_hunter) "acme.test"
           PyNone empty_world [0]).
  - reflexivity.
  - simpl. tauto.
Defined.

(* ================================================================== *)
(** ** The error contract of the provider clients *)




(* ================================================================== *)
(** ** The aggregator *)

Section Aggregator.

Variable self : LeadGenerationSystem.
Variable env : Environment.

(** The guarded Apollo call keeps the records of a call that returns and
    nothing of a call that raises; without a key it does what a call
    that raises at once would do. *)
Lemma apollo_attempt_eq (criteria : dict) (w : World) :
  apollo_attempt self env criteria w
  = (Ok (records_of (fst (search_people_apollo self env criteria w))),
     snd (search_people_apollo self env criteria w)).
Proof.
  unfold apollo_attempt.
  destruct (configured (apollo_api_key self)) eqn:Hkey.
  - unfold try_except.
    destruct (search_people_apollo self env criteria w) as [[l|e] w1];
      reflexivity.
  - now rewrite search_people_apollo_no_key.
Qed.

Lemma hunter_attempt_eq (people : list ref) (domain : string) (w : World) :
  hunter_attempt self env people domain w
  = (Ok (people
         ++ records_of (fst (search_people_hunter self env domain PyNone w))),
     snd (search_people_hunter self env domain PyNone w)).
Proof.
  unfold hunter_attempt, try_except.
  destruct (configured (hunter_api_key self)) eqn:Hkey.
  - unfold bind, ret.
    destruct (search_people_hunter self env domain PyNone w) as [[l|e] w1];
      simpl; [reflexivity | now rewrite app_nil_r].
  - rewrite search_people_hunter_no_key by exact Hkey.
    simpl. now rewrite app_nil_r.
Qed.

Lemma hunter_loop_eq (domains : list string) :
  forall (people : list ref) (w : World),
    for_each domains (hunter_attempt self env) people w
    = (Ok (people ++ concat (fst (hunter_sweep self env domains w))),
       snd (hunter_sweep self env domains w)).
Proof.
  induction domains as [|domain rest IH]; intros people w; simpl.
  - now rewrite app_nil_r.
  - unfold bind. rewrite hunter_attempt_eq, IH. now rewrite <- app_assoc.
Qed.

(** The aggregator gathers, then enriches when there is something to
    enrich and a key for it. *)
Lemma search_by_natural_language_eq (query : string) (w : World) :
  search_by_natural_language self env query w
  = let people := fst (gather self env query w) in
    let w1 := snd (gather self env query w) in
    if nonempty people && configured (clado_api_key self)
    then enrich_with_clado self env people w1
    else (Ok people, w1).
Proof.
  unfold search_by_natural_language, gather, bind.
  destruct (classify query) as [criteria domains|criteria|].
  - rewrite apollo_attempt_eq, hunter_loop_eq. cbn [fst snd].
    destruct (nonempty _ && _); reflexivity.
  - rewrite apollo_attempt_eq. cbn [fst snd].
    destruct (nonempty _ && _); reflexivity.
  - reflexivity.
Qed.





End Aggregator.



Section Contributions.

Variable self : LeadGenerationSystem.
Variable env : Environment.





End Contributions.



(** A search reaches the enrichment with an email that is [None]: Apollo
    answers a null email, the record holds [None], and the lookup fills
    it. *)
Lemma null_email_filled_through_search :
  let res := search_by_natural_language all_keys null_email_then_contact
               "ceo" empty_world in
  let gathered := gather all_keys null_email_then_contact "ceo" empty_world in
  fst res = Ok [0] /\
  email (heap (snd gathered) 0) = PyNone /\
  email (heap (snd res) 0) = PyStr "ann@example.test".
Proof. vm_compute. repeat split. Qed.

(* ================================================================== *)
(** ** Further properties of the classifier *)

Section ClassifierMore.

Lemma lower_app (s t : string) :
  PyString.lower (s ++ t) = (PyString.lower s ++ PyString.lower t)%string.
Proof.
  induction s as [|c s IH]; simpl; [reflexivity | now rewrite IH].
Qed.

(** A keyword is found wherever it stands in the query and whatever the
    case of its letters. *)
Lemma keyword_found (pre word post keyword : string) :
  PyString.lower word = keyword ->
  PyString.contains keyword (PyString.lower (pre ++ word ++ post)) = true.
Proof.
  intros H. apply contains_substring.
  exists (PyString.lower pre), (PyString.lower post).
  now rewrite !lower_app, H.
Qed.

End ClassifierMore.

(** X1.  A query that mentions "faang" anywhere, in any mix of upper and
    lower case, is a FAANG query, whatever job-title words it also
    holds. *)
Theorem faang_mention_wins (pre word post : string) :
  PyString.lower word = "faang" ->
  classify (pre ++ word ++ post) = FaangBranch faang_criteria faang_domains.
Proof.
  intros H. rewrite classify_eq. cbn zeta.
  now rewrite (keyword_found pre word post "faang" H).
Qed.

Lemma faang_mention_wins_witness :
  classify ("Senior engineers and CTOs at " ++ "FaAnG" ++ " companies")
  = FaangBranch faang_criteria faang_domains.
Proof. apply faang_mention_wins. reflexivity. Defined.

(** X2.  The job-title branch never sends an empty title list: the
    criteria it builds name at least one title, and the request body made
    from them carries that list as [person_titles] with 25 results per
    page. *)
Theorem job_titles_never_empty (query : string) (criteria : dict) :
  classify query = JobTitleBranch criteria ->
  exists title titles,
    criteria = title_criteria (title :: titles) /\
    apollo_payload criteria
    = Ok [("page", PyInt 1); ("per_page", PyInt 25);
          ("person_titles", str_list (title :: titles))].
Proof.
  rewrite classify_eq. cbn zeta.
  destruct (PyString.contains "faang" (PyString.lower query)); [discriminate|].
  repeat match goal with
         | |- context [if ?c then _ else _] => destruct c
         end;
    intros H; inversion H; subst criteria; eexists; eexists;
    split; reflexivity.
Qed.

Lemma job_titles_never_empty_witness :
  exists title titles,
    title_criteria ["CTO"; "Chief Technology Officer"]
      = title_criteria (title :: titles) /\
    apollo_payload (title_criteria ["CTO"; "Chief Technology Officer"])
    = Ok [("page", PyInt 1); ("per_page", PyInt 25);
          ("person_titles", str_list (title :: titles))].
Proof.
  apply (job_titles_never_empty "CTOs in San Francisco"). reflexivity.
Defined.

(* ================================================================== *)
(** ** Further properties of the provider clients *)

Section ClientsMore.

Variable self : LeadGenerationSystem.
Variable env : Environment.


Lemma ascending_weaken (l : list ref) :
  forall lo lo' hi hi',
    lo' <= lo -> hi <= hi' -> ascending lo hi l -> ascending lo' hi' l.
Proof.
  induction l as [|r rest IH]; intros lo lo' hi hi' Hlo Hhi H; simpl in *.
  - lia.
  - destruct H as [H1 H2]. split; [lia|].
    apply (IH (S r) (S r) hi hi'); auto.
Qed.

Lemma ascending_app (l1 l2 : list ref) :
  forall lo mid hi,
    ascending lo mid l1 -> ascending mid hi l2 -> ascending lo hi (l1 ++ l2).
Proof.
  induction l1 as [|r rest IH]; intros lo mid hi H1 H2; simpl in *.
  - apply (ascending_weaken l2 mid lo hi hi); auto.
  - destruct H1 as [Hr H1]. split; [exact Hr|]. now apply (IH (S r) mid hi).
Qed.

Lemma ascending_seq (n k : nat) : ascending n (n + k) (seq n k).
Proof.
  revert n; induction k as [|k IH]; intros n; simpl.
  - lia.
  - split; [lia|]. replace (n + S k) with (S n + k) by lia. apply IH.
Qed.



(** The normalizer loop only creates objects: what existed stays. *)
Lemma normalize_loop_frame (f : pyval -> result Person) (items : list pyval) :
  forall (people : list ref) (w : World),
    next w <= next (snd (normalize_loop f items people w)) /\
    forall r, r < next w ->
      heap (snd (normalize_loop f items people w)) r = heap w r.
Proof.
  induction items as [|x rest IH]; intros people w.
  - simpl. auto.
  - rewrite normalize_loop_cons. destruct (f x) as [p|e]; [|simpl; auto].
    destruct (IH (people ++ [next w]) (snd (new_person p w))) as [N F].
    assert (Hn : next (snd (new_person p w)) = S (next w)) by reflexivity.
    rewrite Hn in N, F. split; [lia|].
    intros r Hr. rewrite F by lia. simpl.
    unfold upd. destruct (Nat.eqb_spec r (next w)); [lia | reflexivity].
Qed.

Lemma normalize_loop_creates (f : pyval -> result Person) (items : list pyval)
    (w : World) :
  creates_only w (normalize_loop f items [] w).
Proof.
  destruct (normalize_loop_frame f items [] w) as [N F].
  split; [exact N|]. split; [exact F|].
  intros refs Hrefs.
  pose proof (normalize_loop_spec f items [] w) as Hs.
  destruct (traverse f items) as [records|e] eqn:Ht.
  - rewrite Hs in Hrefs. cbn [fst app] in Hrefs. inversion Hrefs; subst refs.
    rewrite Hs. cbn [snd]. rewrite length_seq, alloc_all_next.
    split; [reflexivity|]. now rewrite (traverse_length f items records Ht).
  - destruct Hs as [Hs _]. rewrite Hs in Hrefs. discriminate.
Qed.

Lemma creates_only_raise (w w' : World) (e : exn) :
  next w' = next w -> (forall r, heap w' r = heap w r) ->
  creates_only w (Raise e, w').
Proof.
  intros N F. split; [simpl; lia|]. split; [intros r _; apply F|].
  intros refs H; discriminate H.
Qed.

Lemma creates_only_after_call (w : World) (rq : Request)
    (run : result (list ref) * World) :
  creates_only (after_call w rq) run -> creates_only w run.
Proof. exact (fun H => H). Qed.

Lemma apollo_normalize_creates (data : pyval) (w : World) :
  creates_only w (apollo_normalize data w).
Proof.
  rewrite apollo_normalize_unfold.
  destruct (apollo_items data);
    [apply normalize_loop_creates | now apply creates_only_raise].
Qed.

Lemma hunter_normalize_creates (data : pyval) (w : World) :
  creates_only w (hunter_normalize env data w).
Proof.
  rewrite hunter_normalize_unfold.
  destruct (hunter_items data);
    [apply normalize_loop_creates | now apply creates_only_raise].
Qed.

Lemma search_people_apollo_creates (criteria : dict) (w : World) :
  creates_only w (search_people_apollo self env criteria w).
Proof.
  destruct (configured (apollo_api_key self)) eqn:Hkey.
  2:{ rewrite search_people_apollo_no_key by exact Hkey.
      now apply creates_only_raise. }
  destruct (apollo_payload criteria) as [payload|e] eqn:Hpayload.
  2:{ unfold search_people_apollo. rewrite Hkey, Hpayload. cbn [negb].
      unfold bind, lift. now apply creates_only_raise. }
  destruct (net env (length (calls w)) (apollo_request self payload))
    as [msg|response] eqn:Hnet.
  - rewrite (search_people_apollo_no_response _ _ _ _ _ _ Hkey Hpayload Hnet).
    now apply creates_only_raise.
  - rewrite (search_people_apollo_responded _ _ _ _ _ _ Hkey Hpayload Hnet).
    cbn zeta.
    destruct (is_http_error (status_code response));
      [now apply creates_only_raise|].
    destruct (decoded response) as [msg|data];
      [now apply creates_only_raise|].
    apply (creates_only_after_call w (apollo_request self payload)).
    apply apollo_normalize_creates.
Qed.

Lemma search_people_hunter_creates (domain : string) (job_title_ : pyval)
    (w : World) :
  creates_only w (search_people_hunter self env domain job_title_ w).
Proof.
  destruct (configured (hunter_api_key self)) eqn:Hkey.
  2:{ rewrite search_people_hunter_no_key by exact Hkey.
      now apply creates_only_raise. }
  destruct (net env (length (calls w)) (hunter_request self domain job_title_))
    as [msg|response] eqn:Hnet.
  - rewrite (search_people_hunter_no_response _ _ _ _ _ _ Hkey Hnet).
    now apply creates_only_raise.
  - rewrite (search_people_hunter_responded _ _ _ _ _ _ Hkey Hnet).
    cbn zeta.
    destruct (is_http_error (status_code response));
      [now apply creates_only_raise|].
    destruct (decoded response) as [msg|data];
      [now apply creates_only_raise|].
    apply (creates_only_after_call w (hunter_request self domain job_title_)).
    apply hunter_normalize_creates.
Qed.

End ClientsMore.

(** X3.  The two clients of [main.py] only create objects.  A [Person]
    that existed before the call is left as it was, and a call that
    returns yields the objects it created and nothing else, in the order
    of creation. *)
Theorem clients_only_create (self : LeadGenerationSystem) (env : Environment)
    (criteria : dict) (domain : string) (job_title_ : pyval) (w : World) :
  creates_only w (search_people_apollo self env criteria w) /\
  creates_only w (search_people_hunter self env domain job_title_ w).
Proof.
  split;
    [apply search_people_apollo_creates | apply search_people_hunter_creates].
Qed.

Lemma clients_only_create_witness :
  let run := search_people_hunter all_keys sample_env "acme.test" PyNone
               (world_of [ann]) in
  fst run = Ok [1] /\ heap (snd run) 0 = ann.
Proof.
  intros run.
  destruct (clients_only_create all_keys sample_env [] "acme.test" PyNone
              (world_of [ann])) as [_ (_ & F & _)].
  split; [reflexivity|]. apply (F 0). simpl. lia.
Defined.

(* ================================================================== *)
(** ** Further properties of enrichment and of the aggregator *)

Section AggregatorMore.

Variable self : LeadGenerationSystem.
Variable env : Environment.

Lemma apollo_calls_eq (criteria : dict) (w : World) :
  calls (snd (search_people_apollo self env criteria w))
  = calls w ++ apollo_calls self criteria.
Proof.
  unfold apollo_calls.
  destruct (configured (apollo_api_key self)) eqn:Hkey.
  - destruct (apollo_payload criteria) as [payload|e] eqn:Hpayload.
    + now apply search_people_apollo_calls.
    + unfold search_people_apollo. rewrite Hkey, Hpayload. cbn [negb].
      unfold bind, lift. simpl. now rewrite app_nil_r.
  - rewrite search_people_apollo_no_key by exact Hkey.
    simpl. now rewrite app_nil_r.
Qed.

Lemma hunter_calls_eq (domain : string) (job_title_ : pyval) (w : World) :
  calls (snd (search_people_hunter self env domain job_title_ w))
  = calls w ++ hunter_calls self domain job_title_.
Proof.
  unfold hunter_calls.
  destruct (configured (hunter_api_key self)) eqn:Hkey.
  - now apply search_people_hunter_calls.
  - rewrite search_people_hunter_no_key by exact Hkey.
    simpl. now rewrite app_nil_r.
Qed.

Lemma creates_only_ascending (w : World) (run : result (list ref) * World) :
  creates_only w run ->
  ascending (next w) (next (snd run)) (records_of (fst run)).
Proof.
  intros (N & _ & R). destruct run as [[refs|e] w']; simpl in *.
  - destruct (R refs eq_refl) as [Hseq Hnext].
    rewrite Hseq, Hnext. apply ascending_seq.
  - exact N.
Qed.

(** The sweep over the domains creates objects only; the references it
    yields are new and increasing. *)
Lemma hunter_sweep_creates (domains : list string) :
  forall w,
    let sweep := hunter_sweep self env domains w in
    ascending (next w) (next (snd sweep)) (concat (fst sweep)) /\
    (forall r, r < next w -> heap (snd sweep) r = heap w r) /\
    calls (snd sweep)
      = calls w ++ flat_map (fun d => hunter_calls self d PyNone) domains.
Proof.
  induction domains as [|domain rest IH]; intros w; simpl.
  - rewrite app_nil_r. auto.
  - pose proof (search_people_hunter_creates self env domain PyNone w) as Hc.
    pose proof (creates_only_ascending _ _ Hc) as Ha.
    destruct Hc as (N & F & _).
    destruct (IH (snd (search_people_hunter self env domain PyNone w)))
      as (A2 & F2 & C2).
    split; [exact (ascending_app _ _ _ _ _ Ha A2)|]. split.
    + intros r Hr. rewrite F2 by lia. now apply F.
    + rewrite C2, hunter_calls_eq. now rewrite <- app_assoc.
Qed.

(** What the aggregator gathers before enrichment. *)
Lemma gather_creates (query : string) (w : World) :
  let g := gather self env query w in
  ascending (next w) (next (snd g)) (fst g) /\
  (forall r, r < next w -> heap (snd g) r = heap w r) /\
  calls (snd g) = calls w ++ search_calls self query.
Proof.
  unfold gather, search_calls.
  destruct (classify query) as [criteria domains|criteria|]; cbn zeta.
  - pose proof (search_people_apollo_creates self env criteria w) as Hc.
    pose proof (creates_only_ascending _ _ Hc) as Ha.
    destruct Hc as (N & F & _).
    destruct (hunter_sweep_creates domains
                (snd (search_people_apollo self env criteria w)))
      as (A2 & F2 & C2).
    cbn [fst snd]. split; [exact (ascending_app _ _ _ _ _ Ha A2)|]. split.
    + intros r Hr. rewrite F2 by lia. now apply F.
    + rewrite C2, apollo_calls_eq. now rewrite <- app_assoc.
  - pose proof (search_people_apollo_creates self env criteria w) as Hc.
    pose proof (creates_only_ascending _ _ Hc) as Ha.
    destruct Hc as (N & F & _). cbn [fst snd].
    split; [exact Ha|]. split; [exact F | apply apollo_calls_eq].
  - simpl. rewrite app_nil_r. auto.
Qed.



Lemma enrich_with_clado_calls (people : list ref) (w : World) :
  calls (snd (enrich_with_clado self env people w))
  = calls w ++ clado_calls self w people.
Proof.
  unfold enrich_with_clado, clado_calls.
  destruct (configured (clado_api_key self)); simpl.
  - apply (enrich_loop_spec self env people [] w).
  - now rewrite app_nil_r.
Qed.

(** The whole trace of a search: the search calls, then the lookups of
    the records gathered. *)
Lemma search_trace (query : string) (w : World) :
  let g := gather self env query w in
  calls (snd (search_by_natural_language self env query w))
  = calls w ++ search_calls self query ++ clado_calls self (snd g) (fst g).
Proof.
  cbn zeta. rewrite search_by_natural_language_eq. cbn zeta.
  destruct (gather_creates query w) as (_ & _ & C).
  destruct (nonempty (fst (gather self env query w))) eqn:Hne; simpl.
  - destruct (configured (clado_api_key self)) eqn:Hkey.
    + rewrite enrich_with_clado_calls, C. now rewrite <- app_assoc.
    + simpl. unfold clado_calls. rewrite Hkey, app_nil_r. exact C.
  - destruct (fst (gather self env query w)); [|discriminate].
    unfold clado_calls. simpl.
    destruct (configured (clado_api_key self)); now rewrite app_nil_r.
Qed.

End AggregatorMore.

(** X4.  A client of [main.py] makes one call when its key is set (and,
    for Apollo, when the request body can be built), and no call
    otherwise; normalizing the response makes none. *)
Theorem clients_call_once (self : LeadGenerationSystem) (env : Environment)
    (criteria : dict) (domain : string) (job_title_ : pyval) (w : World) :
  calls (snd (search_people_apollo self env criteria w))
    = calls w ++ apollo_calls self criteria /\
  calls (snd (search_people_hunter self env domain job_title_ w))
    = calls w ++ hunter_calls self domain job_title_.
Proof. split; [apply apollo_calls_eq | apply hunter_calls_eq]. Qed.


Lemma clado_request_url (self : LeadGenerationSystem) (p : Person) (rq : Request) :
  In rq (clado_request self p) -> req_url rq = clado_url.
Proof.
  unfold clado_request. destruct (clado_params p); simpl; [|contradiction].
  intros [<-|[]]. reflexivity.
Qed.

Lemma clado_calls_url (self : LeadGenerationSystem) (w : World)
    (people : list ref) (rq : Request) :
  In rq (clado_calls self w people) -> req_url rq = clado_url.
Proof.
  unfold clado_calls. destruct (configured (clado_api_key self));
    [|contradiction].
  rewrite in_flat_map. intros (r & _ & H). exact (clado_request_url _ _ _ H).
Qed.

Lemma apollo_calls_url (self : LeadGenerationSystem) (criteria : dict)
    (rq : Request) :
  In rq (apollo_calls self criteria) -> req_url rq = apollo_url.
Proof.
  unfold apollo_calls. destruct (configured (apollo_api_key self));
    [|contradiction].
  destruct (apollo_payload criteria); [|contradiction].
  intros [<-|[]]. reflexivity.
Qed.

(** X6.  Hunter is called on the FAANG branch only: a search for a
    job-title query makes at most one Apollo call, followed by lookups
    at the enrichment endpoint, and no other call. *)
Theorem job_title_query_never_calls_hunter (self : LeadGenerationSystem)
    (env : Environment) (query : string) (criteria : dict) (w : World) :
  classify query = JobTitleBranch criteria ->
  exists lookups,
    calls (snd (search_by_natural_language self env query w))
      = calls w ++ apollo_calls self criteria ++ lookups /\
    length (apollo_calls self criteria) <= 1 /\
    Forall (fun rq => req_url rq = clado_url) lookups /\
    Forall (fun rq => req_url rq <> hunter_url)
      (apollo_calls self criteria ++ lookups).
Proof.
  intros Hq.
  exists (clado_calls self (snd (gather self env query w))
            (fst (gather self env query w))).
  pose proof (search_trace self env query w) as T. cbn zeta in T.
  unfold search_calls in T. rewrite Hq in T.
  split; [exact T|]. split.
  { unfold apollo_calls. destruct (configured (apollo_api_key self));
      [|simpl; lia].
    destruct (apollo_payload criteria); simpl; lia. }
  assert (L : Forall (fun rq => req_url rq = clado_url)
                (clado_calls self (snd (gather self env query w))
                   (fst (gather self env query w)))).
  { apply Forall_forall. intros rq. apply clado_calls_url. }
  split; [exact L|].
  apply Forall_app. split.
  - apply Forall_forall. intros rq Hin.
    rewrite (apollo_calls_url _ _ _ Hin). discriminate.
  - apply Forall_forall. intros rq Hin.
    rewrite Forall_forall in L. rewrite (L rq Hin). discriminate.
Qed.

Lemma job_title_query_never_calls_hunter_witness :
  exists lookups,
    calls (snd (search_by_natural_language all_keys sample_env
                  "CTOs in San Francisco" empty_world))
      = calls empty_world
        ++ apollo_calls all_keys
             (title_criteria ["CTO"; "Chief Technology Officer"])
        ++ lookups /\
    length (apollo_calls all_keys
              (title_criteria ["CTO"; "Chief Technology Officer"])) <= 1 /\
    Forall (fun rq => req_url rq = clado_url) lookups /\
    Forall (fun rq => req_url rq <> hunter_url)
      (apollo_calls all_keys (title_criteria ["CTO"; "Chief Technology Officer"])
       ++ lookups).
Proof.
  apply (job_title_query_never_calls_hunter all_keys sample_env
           "CTOs in San Francisco"). reflexivity.
Defined.

Lemma hunter_sweep_no_key (self : LeadGenerationSystem) (env : Environment)
    (domains : list string) (w : World) :
  configured (hunter_api_key self) = false ->
  concat (fst (hunter_sweep self env domains w)) = [] /\
  snd (hunter_sweep self env domains w) = w.
Proof.
  intros Hkey. induction domains as [|domain rest IH]; simpl.
  - auto.
  - rewrite search_people_hunter_no_key by exact Hkey. simpl. exact IH.
Qed.

(** Without a search key nothing is gathered and nothing is called. *)
Lemma search_without_search_key (self : LeadGenerationSystem)
    (env : Environment) (query : string) (w : World) :
  configured (apollo_api_key self) = false ->
  configured (hunter_api_key self) = false ->
  search_by_natural_language self env query w = (Ok [], w).
Proof.
  intros Ha Hh. rewrite search_by_natural_language_eq. cbn zeta.
  assert (G : gather self env query w = ([], w)).
  { unfold gather. destruct (classify query) as [criteria domains|criteria|].
    - rewrite search_people_apollo_no_key by exact Ha. cbn [fst snd].
      destruct (hunter_sweep_no_key self env domains w Hh) as [C S].
      now rewrite C, S.
    - now rewrite search_people_apollo_no_key by exact Ha.
    - reflexivity. }
  rewrite G. reflexivity.
Qed.

(** X7.  The enrichment key alone finds nobody: without an Apollo key
    and without a Hunter key, every search returns the empty list and
    makes no call, whatever the query and whether or not a Clado key is
    set. *)
Theorem no_search_key_no_result (self : LeadGenerationSystem)
    (env : Environment) (query : string) (w : World) :
  configured (apollo_api_key self) = false ->
  configured (hunter_api_key self) = false ->
  search_by_natural_language self env query w = (Ok [], w).
Proof. apply search_without_search_key. Qed.

Lemma no_search_key_no_result_witness :
  search_by_natural_language (mkSystem None None (Some "clado-key") None)
    sample_env "People working in FAANG" empty_world
  = (Ok [], empty_world).
Proof. apply no_search_key_no_result; reflexivity. Defined.

Lemma clado_request_shape (self : LeadGenerationSystem) (p : Person)
    (rq : Request) :
  In rq (clado_request self p) -> lookup_request_for self p rq.
Proof.
  unfold clado_request, clado_params, lookup_request_for.
  destruct (truthy (linkedin_url p)) eqn:Hl.
  - intros [<-|[]]. simpl. repeat split; auto.
  - destruct (truthy (email p)) eqn:He; [|contradiction].
    intros [<-|[]]. simpl. repeat split; auto.
Qed.

(** X8.  The calls of [enrich_with_clado] are at most one per record of
    the batch; each is a GET to the enrichment endpoint with the bearer
    header and a single parameter, the [linkedin_url] of a record of the
    batch when that record has one and its [email] otherwise; and a
    batch whose records have neither makes no call. *)
Theorem enrich_request_shape (self : LeadGenerationSystem) (env : Environment)
    (people : list ref) (w : World) :
  exists lookups,
    calls (snd (enrich_with_clado self env people w)) = calls w ++ lookups /\
    length lookups <= length people /\
    (forall rq, In rq lookups ->
       exists r, In r people /\ lookup_request_for self (heap w r) rq) /\
    ((forall r, In r people ->
        truthy (linkedin_url (heap w r)) = false /\
        truthy (email (heap w r)) = false) ->
     lookups = []).
Proof.
  exists (clado_calls self w people).
  split; [apply enrich_with_clado_calls|].
  unfold clado_calls. destruct (configured (clado_api_key self)).
  2:{ simpl. split; [lia|]. split; [contradiction | reflexivity]. }
  split; [|split].
  - induction people as [|r rest IH]; simpl; [lia|].
    rewrite length_app. unfold clado_request at 1.
    destruct (clado_params (heap w r)); simpl; lia.
  - intros rq Hin. apply in_flat_map in Hin. destruct Hin as (r & Hr & Hrq).
    exists r. split; [exact Hr | now apply clado_request_shape].
  - intros Hnone. induction people as [|r rest IH]; simpl; [reflexivity|].
    destruct (Hnone r (or_introl eq_refl)) as [Hl He].
    unfold clado_request at 1, clado_params. rewrite Hl, He. simpl.
    apply IH. intros r' Hr'. apply Hnone. now right.
Qed.

Lemma enrich_request_shape_witness :
  exists lookups,
    calls (snd (enrich_with_clado all_keys sample_env [0; 1]
                  (world_of [blank; blank])))
      = calls (world_of [blank; blank]) ++ lookups /\
    lookups = [].
Proof.
  destruct (enrich_request_shape all_keys sample_env [0; 1]
              (world_of [blank; blank])) as (lookups & C & _ & _ & E).
  exists lookups. split; [exact C|].
  apply E. intros r [<-|[<-|[]]]; split; reflexivity.
Defined.

(* ================================================================== *)
(** ** Further properties of the normalizers and the request builders *)

(** X9.  When Apollo answers with a status outside 400..599 and a body
    whose [people] items are all objects with [organization] missing or
    an object, [search_people_apollo] returns one new record per item,
    in the order of the list, the record of an item holding the fields
    read from that item. *)
Theorem apollo_search_keeps_every_item (self : LeadGenerationSystem)
    (env : Environment) (criteria payload : dict) (w : World)
    (response : Response) (data : pyval) (items : list pyval) :
  configured (apollo_api_key self) = true ->
  apollo_payload criteria = Ok payload ->
  net env (length (calls w)) (apollo_request self payload) = Responded response ->
  is_http_error (status_code response) = false ->
  decoded response = inr data ->
  apollo_items data = Ok items ->
  forallb well_shaped items = true ->
  let run := search_people_apollo self env criteria w in
  fst run = Ok (seq (next w) (length items)) /\
  forall i x, nth_error items i = Some x ->
    apollo_record x = Ok (heap (snd run) (next w + i)).
Proof.
  intros Hkey Hpayload Hnet Hstatus Hdata Hitems Hshape run. subst run.
  rewrite (search_people_apollo_responded _ _ _ _ _ _ Hkey Hpayload Hnet).
  cbn zeta. rewrite Hstatus, Hdata.
  destruct (apollo_normalize_keeps_all data items
              (after_call w (apollo_request self payload)) Hitems Hshape)
    as (records & Hrun & Hlen & Hrec).
  rewrite Hrun. split; [reflexivity|].
  intros i x Hx. cbn [snd].
  destruct (nth_error records i) as [p|] eqn:Hp.
  - destruct (Hrec i p Hp) as [Hheap (x' & Hx' & Hrx)].
    simpl in Hheap. rewrite Hheap. congruence.
  - apply nth_error_None in Hp.
    assert (i < length items) by (apply nth_error_Some; congruence). lia.
Qed.

Lemma apollo_search_keeps_every_item_witness :
  let run := search_people_apollo all_keys (ok_with body_two_people)
               faang_criteria empty_world in
  fst run = Ok [0; 1] /\
  name (heap (snd run) 1) = PyStr "Bob".
Proof.
  intros run.
  destruct (apollo_search_keeps_every_item all_keys (ok_with body_two_people)
              faang_criteria faang_payload empty_world
              (response_with 200 "OK" EmptyString (inr body_two_people))
              body_two_people
              [PyDict [("name", PyStr "Ann");
                       ("organization", PyDict [("name", PyStr "Acme")])];
               PyDict [("name", PyStr "Bob"); ("email", PyStr "bob@acme.test")]]
              eq_refl eq_refl eq_refl eq_refl eq_refl eq_refl eq_refl)
    as [R F].
  split; [exact R|].
  specialize (F 1 _ eq_refl). simpl in F. inversion F. reflexivity.
Defined.

Lemma hunter_record_ok (env : Environment) (data : pyval) (d e : dict) :
  Py.get data "data" (PyDict []) = Ok (PyDict e) ->
  exists p, hunter_record env data (PyDict d) = Ok p /\
            company p = hunter_organization data /\
            name p = PyStr (PyString.strip
                      (format_value env (Dict.get "first_name" (PyStr EmptyString) d)
                       ++ " "
                       ++ format_value env (Dict.get "last_name" (PyStr EmptyString) d))) /\
            email p = Dict.get "value" (PyStr EmptyString) d.
Proof.
  intros Hd. eexists. unfold hunter_record, hunter_organization, rbind.
  rewrite Hd. cbn [Py.get]. split; [reflexivity|]. simpl. auto.
Qed.

(** X10.  When Hunter answers with a status outside 400..599 and a body
    whose [data.emails] items are all objects, [search_people_hunter]
    returns one new record per item, in order; every record carries the
    organization of the response as its company, and the first and last
    name joined by a space and stripped as its name. *)
Theorem hunter_search_keeps_every_item (self : LeadGenerationSystem)
    (env : Environment) (domain : string) (job_title_ : pyval) (w : World)
    (response : Response) (data : pyval) (items : list pyval) :
  configured (hunter_api_key self) = true ->
  net env (length (calls w)) (hunter_request self domain job_title_)
    = Responded response ->
  is_http_error (status_code response) = false ->
  decoded response = inr data ->
  hunter_items data = Ok items ->
  forallb is_dict items = true ->
  let run := search_people_hunter self env domain job_title_ w in
  fst run = Ok (seq (next w) (length items)) /\
  forall i d, nth_error items i = Some (PyDict d) ->
    let p := heap (snd run) (next w + i) in
    company p = hunter_organization data /\
    name p = PyStr (PyString.strip
               (format_value env (Dict.get "first_name" (PyStr EmptyString) d)
                ++ " "
                ++ format_value env (Dict.get "last_name" (PyStr EmptyString) d))) /\
    email p = Dict.get "value" (PyStr EmptyString) d.
Proof.
  intros Hkey Hnet Hstatus Hdata Hitems Hshape run. subst run.
  rewrite (search_people_hunter_responded _ _ _ _ _ _ Hkey Hnet).
  cbn zeta. rewrite Hstatus, Hdata.
  rewrite hunter_normalize_unfold, Hitems.
  set (w1 := after_call w (hunter_request self domain job_title_)).
  assert (Hdf : exists e, Py.get data "data" (PyDict []) = Ok (PyDict e)).
  { unfold hunter_items, rbind in Hitems.
    destruct (Py.get data "data" (PyDict [])) as [df|]; [|discriminate].
    destruct df; try discriminate. eauto. }
  destruct Hdf as [e Hdf].
  destruct (traverse_ok (hunter_record env data) items) as [records Hrec].
  { intros x Hx. rewrite forallb_forall in Hshape. specialize (Hshape x Hx).
    destruct x; try discriminate.
    destruct (hunter_record_ok env data entries e Hdf) as (p & Hp & _).
    eauto. }
  pose proof (normalize_loop_spec (hunter_record env data) items [] w1) as Hs.
  rewrite Hrec in Hs. rewrite Hs. split; [reflexivity|].
  intros i d Hi. cbn [snd].
  assert (Hlen : length records = length items)
    by now apply (traverse_length (hunter_record env data)).
  destruct (nth_error records i) as [p|] eqn:Hp.
  2:{ apply nth_error_None in Hp.
      assert (i < length items) by (apply nth_error_Some; congruence). lia. }
  destruct (traverse_nth _ _ _ _ _ Hrec Hp) as (x & Hx & Hrx).
  rewrite Hi in Hx. inversion Hx; subst x.
  change (next w) with (next w1). rewrite (alloc_all_new _ _ _ _ Hp).
  destruct (hunter_record_ok env data d e Hdf) as (p' & Hp' & Hc).
  rewrite Hrx in Hp'. inversion Hp'; subst p'. exact Hc.
Qed.

(** The names of the item carry a no-break space and an em space: both
    are stripped. *)
Lemma hunter_search_keeps_every_item_witness :
  let run := search_people_hunter all_keys (ok_with body_hunter_spaced)
               "acme.test" PyNone empty_world in
  fst run = Ok [0] /\
  company (heap (snd run) 0) = PyStr "Acme" /\
  name (heap (snd run) 0) = PyStr "Cy Lee".
Proof.
  intros run.
  destruct (hunter_search_keeps_every_item all_keys
              (ok_with body_hunter_spaced)
              "acme.test" PyNone empty_world
              (response_with 200 "OK" EmptyString (inr body_hunter_spaced))
              body_hunter_spaced
              [PyDict [("first_name", PyStr (of_bytes [194; 160] ++ "Cy"));
                       ("last_name", PyStr ("Lee" ++ of_bytes [226; 128; 131]));
                       ("value", PyStr "cy@acme.test")]]
              eq_refl eq_refl eq_refl eq_refl eq_refl eq_refl)
    as [R F].
  split; [exact R|].
  destruct (F 0 _ eq_refl) as (C & N & _). split; [exact C | exact N].
Defined.

Lemma mem_keys (k : string) (d : dict) :
  Dict.mem k d = true -> In k (Dict.keys d).
Proof.
  unfold Dict.mem. induction d as [|[k0 v] rest IH]; simpl; [discriminate|].
  destruct (String.eqb k0 k) eqn:E.
  - apply String.eqb_eq in E. auto.
  - intros H. right. exact (IH H).
Qed.

(** X11.  The request body of [search_people_apollo] always has page 1
    and, as [per_page], the [limit] of the criteria or 25; it has no key
    beyond the four criteria keys.  Building it fails only when
    [keywords] is present and cannot be joined (it is not a sequence of
    strings), with the error of the join. *)
Theorem apollo_payload_shape (criteria : dict) :
  match apollo_payload criteria with
  | Ok payload =>
      Dict.lookup "page" payload = Some (PyInt 1) /\
      Dict.lookup "per_page" payload = Some (Dict.get "limit" (PyInt 25) criteria) /\
      forall k, Dict.mem k payload = true -> In k apollo_body_keys
  | Raise e =>
      exists v, Dict.lookup "keywords" criteria = Some v /\
                Py.join " " v = Raise e
  end.
Proof.
  unfold apollo_payload, Dict.mem, Py.item, rbind.
  destruct (Dict.lookup "job_titles" criteria) as [jt|];
    destruct (Dict.lookup "company_names" criteria) as [cn|];
    destruct (Dict.lookup "locations" criteria) as [lo|];
    destruct (Dict.lookup "keywords" criteria) as [kw|];
    try (destruct (Py.join " " kw) as [joined|e] eqn:Hj;
         [|exists kw; split; [reflexivity | exact Hj]]);
    (split; [reflexivity|]; split; [reflexivity|];
     intros k Hk; apply mem_keys in Hk; simpl in Hk; unfold apollo_body_keys;
     simpl; tauto).
Qed.

Lemma lookup_fold_add_if_other (k : string) (fs : list (string * pyval)) :
  forall init,
    ~ In k (map fst fs) ->
    Dict.lookup k
      (fold_left (fun acc kv => ApolloPeopleSearch.add_if (fst kv) (snd kv) acc)
         fs init)
    = Dict.lookup k init.
Proof.
  induction fs as [|[k0 v] rest IH]; intros init Hk; simpl.
  - reflexivity.
  - rewrite IH by (intros H; apply Hk; now right).
    rewrite lookup_add_if. simpl.
    destruct (String.eqb k0 k) eqn:E; [|now rewrite andb_false_r].
    apply String.eqb_eq in E. exfalso. apply Hk. now left.
Qed.

(** X12.  The request body of [people_search] always carries [page],
    [per_page] and [include_similar_titles] with the values given, also
    when a value is false or zero; only the nine filters are left out
    when empty. *)
Theorem people_search_pagination_always_sent (a : ApolloPeopleSearch.Args) :
  Dict.lookup "page" (ApolloPeopleSearch.payload a)
    = Some (ApolloPeopleSearch.page a) /\
  Dict.lookup "per_page" (ApolloPeopleSearch.payload a)
    = Some (ApolloPeopleSearch.per_page a) /\
  Dict.lookup "include_similar_titles" (ApolloPeopleSearch.payload a)
    = Some (ApolloPeopleSearch.include_similar_titles a).
Proof.
  unfold ApolloPeopleSearch.payload.
  repeat split; rewrite lookup_fold_add_if_other; try reflexivity;
    simpl; intuition discriminate.
Qed.

(* ================================================================== *)
(** ** The printers of the standalone scripts *)

Section Printers.

Variable env : Environment.

(** A listing whose body prints [k] lines for an object and raises
    [AttributeError] before printing anything for any other item: the
    blocks of the objects are printed in full, up to the first item that
    is not an object. *)
Lemma print_each_blocks (body : Z -> pyval -> P unit) (k : nat) :
  (forall i d, exists lines, body i (PyDict d) = (lines, Ok tt) /\ length lines = k) ->
  forall items i,
    forallb is_dict items = true ->
    exists lines,
      print_each body i items = (lines, Ok tt) /\
      length lines = k * length items.
Proof.
  intros Hbody. induction items as [|x rest IH]; intros i Hall; simpl.
  - exists []. split; [reflexivity | simpl; lia].
  - simpl in Hall. apply andb_prop in Hall. destruct Hall as [Hx Hrest].
    destruct x; try discriminate.
    destruct (Hbody i entries) as (l1 & H1 & L1).
    destruct (IH (i + 1)%Z Hrest) as (l2 & H2 & L2).
    exists (l1 ++ l2). unfold pbind. rewrite H1, H2.
    split; [reflexivity|]. rewrite length_app. lia.
Qed.

Lemma print_each_stops (body : Z -> pyval -> P unit) (k : nat) :
  (forall i d, exists lines, body i (PyDict d) = (lines, Ok tt) /\ length lines = k) ->
  (forall i x, is_dict x = false -> body i x = ([], Raise AttributeError)) ->
  forall good x rest i,
    forallb is_dict good = true ->
    is_dict x = false ->
    exists lines,
      print_each body i (good ++ x :: rest) = (lines, Raise AttributeError) /\
      length lines = k * length good.
Proof.
  intros Hbody Hbad. induction good as [|y good IH]; intros x rest i Hall Hx; simpl.
  - exists []. unfold pbind. rewrite (Hbad i x Hx).
    split; [reflexivity | simpl; lia].
  - simpl in Hall. apply andb_prop in Hall. destruct Hall as [Hy Hgood].
    destruct y; try discriminate.
    destruct (Hbody i entries) as (l1 & H1 & L1).
    destruct (IH x rest (i + 1)%Z Hgood Hx) as (l2 & H2 & L2).
    exists (l1 ++ l2). unfold pbind. rewrite H1, H2.
    split; [reflexivity|]. rewrite length_app. lia.
Qed.

Lemma print_contact_object (i : Z) (d : dict) :
  exists lines,
    ApolloCli.print_contact env i (PyDict d) = (lines, Ok tt) /\
    length lines = 6.
Proof. eexists. split; reflexivity. Qed.

Lemma print_contact_other (i : Z) (x : pyval) :
  is_dict x = false ->
  ApolloCli.print_contact env i x = ([], Raise AttributeError).
Proof. destruct x; try discriminate; reflexivity. Qed.

Lemma print_person_object (i : Z) (d : dict) :
  exists lines,
    HunterCli.print_person env i (PyDict d) = (lines, Ok tt) /\
    length lines = 4.
Proof. eexists. split; reflexivity. Qed.

Lemma print_person_other (i : Z) (x : pyval) :
  is_dict x = false ->
  HunterCli.print_person env i x = ([], Raise AttributeError).
Proof. destruct x; try discriminate; reflexivity. Qed.

End Printers.

(** X14.  [print_contacts] on an object whose [contacts] is a non-empty
    list of objects prints the count and then six lines per contact, and
    returns.  When an item of the list is not an object it raises
    [AttributeError] at that item, after the full blocks of the contacts
    before it and nothing of the item itself. *)
Theorem print_contacts_blocks (env : Environment) (d : dict) :
  (forall x items,
      Dict.get "contacts" (PyList []) d = PyList (x :: items) ->
      forallb is_dict (x :: items) = true ->
      exists lines,
        ApolloCli.print_contacts env (PyDict d)
        = (("Found " ++ PyString.of_Z (Z.of_nat (length (x :: items)))
              ++ " contacts:")%string :: lines, Ok tt) /\
        length lines = 6 * length (x :: items)) /\
  (forall good x rest,
      Dict.get "contacts" (PyList []) d = PyList (good ++ x :: rest) ->
      forallb is_dict good = true ->
      is_dict x = false ->
      exists lines,
        ApolloCli.print_contacts env (PyDict d)
        = (("Found "
              ++ PyString.of_Z (Z.of_nat (length (good ++ x :: rest)))
              ++ " contacts:")%string :: lines, Raise AttributeError) /\
        length lines = 6 * length good).
Proof.
  split.
  - intros x items Hc Hall.
    destruct (print_each_blocks (ApolloCli.print_contact env) 6
                (print_contact_object env) (x :: items) 1%Z Hall)
      as (lines & Hl & Hn).
    exists lines. unfold ApolloCli.print_contacts, pbind, plift.
    cbn [Py.get]. rewrite Hc. cbn [truthy negb py_len Py.iter print].
    rewrite Hl. split; [reflexivity | exact Hn].
  - intros good x rest Hc Hall Hx.
    destruct (print_each_stops (ApolloCli.print_contact env) 6
                (print_contact_object env) (print_contact_other env)
                good x rest 1%Z Hall Hx) as (lines & Hl & Hn).
    exists lines. unfold ApolloCli.print_contacts, pbind, plift.
    cbn [Py.get]. rewrite Hc.
    assert (T : truthy (PyList (good ++ x :: rest)) = true)
      by (destruct good; reflexivity).
    rewrite T. cbn [negb py_len Py.iter print].
    rewrite Hl. split; [reflexivity | exact Hn].
Qed.

Lemma print_contacts_blocks_witness :
  exists lines,
    ApolloCli.print_contacts (answering (ConnectionFailure "unused"))
      (PyDict [("contacts", PyList [PyDict [("name", PyStr "Ann")]; PyStr "Bob"])])
    = ("Found 2 contacts:" :: lines, Raise AttributeError) /\
    length lines = 6.
Proof.
  apply (proj2 (print_contacts_blocks (answering (ConnectionFailure "unused"))
                  [("contacts", PyList [PyDict [("name", PyStr "Ann")]; PyStr "Bob"])])
           [PyDict [("name", PyStr "Ann")]] (PyStr "Bob") []);
    reflexivity.
Defined.

(** X15.  [print_people] on a response whose [data.emails] is a
    non-empty list of objects prints the count and then four lines per
    address, and returns; an item that is not an object raises
    [AttributeError] after the full blocks of the addresses before it. *)
Theorem print_people_blocks (env : Environment) (d e : dict) :
  Dict.get "data" (PyDict []) d = PyDict e ->
  (forall x items,
      Dict.get "emails" (PyList []) e = PyList (x :: items) ->
      forallb is_dict (x :: items) = true ->
      exists lines,
        HunterCli.print_people env (PyDict d)
        = (("Found " ++ PyString.of_Z (Z.of_nat (length (x :: items)))
              ++ " people:")%string :: lines, Ok tt) /\
        length lines = 4 * length (x :: items)) /\
  (forall good x rest,
      Dict.get "emails" (PyList []) e = PyList (good ++ x :: rest) ->
      forallb is_dict good = true ->
      is_dict x = false ->
      exists lines,
        HunterCli.print_people env (PyDict d)
        = (("Found "
              ++ PyString.of_Z (Z.of_nat (length (good ++ x :: rest)))
              ++ " people:")%string :: lines, Raise AttributeError) /\
        length lines = 4 * length good).
Proof.
  intros Hd. split.
  - intros x items Hc Hall.
    destruct (print_each_blocks (HunterCli.print_person env) 4
                (print_person_object env) (x :: items) 1%Z Hall)
      as (lines & Hl & Hn).
    exists lines. unfold HunterCli.print_people, pbind, plift.
    cbn [Py.get]. rewrite Hd. cbn [Py.get]. rewrite Hc.
    cbn [truthy negb py_len Py.iter print].
    rewrite Hl. split; [reflexivity | exact Hn].
  - intros good x rest Hc Hall Hx.
    destruct (print_each_stops (HunterCli.print_person env) 4
                (print_person_object env) (print_person_other env)
                good x rest 1%Z Hall Hx) as (lines & Hl & Hn).
    exists lines. unfold HunterCli.print_people, pbind, plift.
    cbn [Py.get]. rewrite Hd. cbn [Py.get]. rewrite Hc.
    assert (T : truthy (PyList (good ++ x :: rest)) = true)
      by (destruct good; reflexivity).
    rewrite T. cbn [negb py_len Py.iter print].
    rewrite Hl. split; [reflexivity | exact Hn].
Qed.

Lemma print_people_blocks_witness :
  exists lines,
    HunterCli.print_people (answering (ConnectionFailure "unused")) body_hunter
    = ("Found 1 people:" :: lines, Ok tt) /\
    length lines = 4.
Proof.
  apply (proj1 (print_people_blocks (answering (ConnectionFailure "unused"))
                  [("data", PyDict
                      [("organization", PyStr "Acme");
                       ("emails", PyList
                          [PyDict [("first_name", PyStr "Cy");
                                   ("last_name", PyStr "Lee");
                                   ("value", PyStr "cy@acme.test");
                                   ("phone_number", PyStr "+1 555 0100")]])])]
                  [("organization", PyStr "Acme");
                   ("emails", PyList
                      [PyDict [("first_name", PyStr "Cy");
                               ("last_name", PyStr "Lee");
                               ("value", PyStr "cy@acme.test");
                               ("phone_number", PyStr "+1 555 0100")]])]
                  eq_refl)
           (PyDict [("first_name", PyStr "Cy"); ("last_name", PyStr "Lee");
                    ("value", PyStr "cy@acme.test");
                    ("phone_number", PyStr "+1 555 0100")]) []);
    reflexivity.
Defined.

(* ================================================================== *)
(** ** The printer of [main.py] *)

Lemma field_line_length (env : Environment) (label : string) (v : pyval) :
  length (LeadCli.field_line env label v) = if truthy v then 1 else 0.
Proof. unfold LeadCli.field_line. destruct (truthy v); reflexivity. Qed.

Lemma person_lines_length (env : Environment) (i : Z) (p : Person) :
  length (LeadCli.person_lines env i p) = 2 + filled p.
Proof.
  unfold LeadCli.person_lines, filled.
  rewrite !length_app, !field_line_length. simpl.
  destruct (truthy (email p)), (truthy (phone p)), (truthy (job_title p)),
    (truthy (company p)), (truthy (location p)), (truthy (linkedin_url p));
    reflexivity.
Qed.

Lemma people_lines_length (env : Environment) (people : list Person) :
  forall i,
    length (LeadCli.people_lines env i people)
    = list_sum (map (fun p => 2 + filled p) people).
Proof.
  induction people as [|p rest IH]; intros i.
  - reflexivity.
  - cbn [LeadCli.people_lines map].
    rewrite length_app, person_lines_length, IH. reflexivity.
Qed.

Lemma person_lines_block (env : Environment) (i : Z) (p : Person) :
  LeadCli.person_lines env i p = person_block env i p.
Proof.
  unfold LeadCli.person_lines, person_block, labelled_fields,
    LeadCli.field_line.
  cbn [filter map fst snd app].
  destruct (truthy (email p)), (truthy (phone p)), (truthy (job_title p)),
    (truthy (company p)), (truthy (location p)), (truthy (linkedin_url p));
    reflexivity.
Qed.

Lemma people_lines_blocks (env : Environment) (people : list Person) :
  forall n,
    LeadCli.people_lines env (Z.of_nat n) people
    = flat_map (fun ip => person_block env (fst ip) (snd ip))
        (numbered n people).
Proof.
  induction people as [|p rest IH]; intros n.
  - reflexivity.
  - unfold numbered.
    cbn [LeadCli.people_lines length seq map combine flat_map fst snd].
    rewrite person_lines_block. f_equal.
    replace (Z.of_nat n + 1)%Z with (Z.of_nat (S n)) by lia.
    apply IH.
Qed.

(** X16.  [print_people_results] prints one line for an empty list, and
    otherwise the header with the number of persons and then, for each
    person in order, the numbered name, one labelled line for each of the
    six other fields that is not empty (email, phone, title, company,
    location, LinkedIn, in that order), and a blank line.  So every
    labelled line printed shows a field that is not empty, every field
    that is not empty is printed, an empty field is never printed, and
    the number of lines follows. *)
Theorem print_people_results_lines (env : Environment) (people : list Person) :
  let out := LeadCli.print_people_results env people in
  (people = [] -> out = ["No people found."]) /\
  (people <> [] ->
   out = found_header (length people)
         :: flat_map (fun ip => person_block env (fst ip) (snd ip))
              (numbered 1 people)) /\
  (forall line,
      people <> [] ->
      In line out ->
      line = found_header (length people) \/
      exists i p,
        In (i, p) (numbered 1 people) /\
        (line = (PyString.of_Z i ++ ". " ++ format_value env (name p))%string \/
         line = EmptyString \/
         exists label value,
           In (label, value) (labelled_fields p) /\
           truthy value = true /\
           line = (label ++ format_value env value)%string)) /\
  (forall i p label value,
      In (i, p) (numbered 1 people) ->
      In (label, value) (labelled_fields p) ->
      truthy value = true ->
      In (label ++ format_value env value)%string out) /\
  (forall p,
      truthy (email p) = false -> truthy (phone p) = false ->
      truthy (job_title p) = false -> truthy (company p) = false ->
      truthy (location p) = false -> truthy (linkedin_url p) = false ->
      LeadCli.print_people_results env [p]
      = [found_header 1; ("1. " ++ format_value env (name p))%string;
         EmptyString]) /\
  length out
  = match people with
    | [] => 1
    | _ :: _ => 1 + list_sum (map (fun p => 2 + filled p) people)
    end.
Proof.
  intros out.
  assert (E : people <> [] ->
              out = found_header (length people)
                    :: flat_map (fun ip => person_block env (fst ip) (snd ip))
                         (numbered 1 people)).
  { intros Hne. subst out. unfold LeadCli.print_people_results.
    destruct people as [|p rest]; [contradiction|].
    cbn [nonempty negb]. unfold found_header. f_equal.
    apply (people_lines_blocks env (p :: rest) 1). }
  split; [|split; [|split; [|split; [|split]]]].
  - intros ->. reflexivity.
  - exact E.
  - intros line Hne Hin. rewrite (E Hne) in Hin.
    destruct Hin as [<- | Hin]; [now left|]. right.
    apply in_flat_map in Hin. destruct Hin as [[i p] [Hip Hin]].
    exists i, p. split; [exact Hip|].
    unfold person_block in Hin. cbn [fst snd] in Hin.
    apply in_app_or in Hin. destruct Hin as [[<- | Hin] | [<- | []]].
    + now left.
    + right; right. apply in_map_iff in Hin.
      destruct Hin as [[label value] [<- Hf]].
      apply filter_In in Hf. destruct Hf as [Hl Ht].
      exists label, value. auto.
    + right; now left.
  - intros i p label value Hip Hl Ht.
    assert (Hne : people <> []).
    { intros ->. exact Hip. }
    rewrite (E Hne). right. apply in_flat_map. exists (i, p).
    split; [exact Hip|]. unfold person_block. cbn [fst snd].
    apply in_or_app. left. right.
    apply in_map_iff. exists (label, value). split; [reflexivity|].
    apply filter_In. auto.
  - intros p H1 H2 H3 H4 H5 H6.
    unfold LeadCli.print_people_results, LeadCli.people_lines,
      LeadCli.person_lines, LeadCli.field_line.
    rewrite H1, H2, H3, H4, H5, H6. reflexivity.
  - subst out. unfold LeadCli.print_people_results.
    destruct people as [|p rest]; [reflexivity|].
    cbn [nonempty negb length]. now rewrite people_lines_length.
Qed.

(** A person with a name and an email only: two lines and the blank
    one. *)
Lemma print_people_results_lines_witness :
  let ann_ :=
    mkPerson (PyStr "Ann") (PyStr "ann@acme.test") (PyStr EmptyString)
      (PyStr EmptyString) (PyStr EmptyString) (PyStr EmptyString)
      (PyStr EmptyString) in
  [ann_] <> [] /\
  LeadCli.print_people_results sample_env [ann_]
  = [found_header 1; "1. Ann";
     (LeadCli.email_label ++ "ann@acme.test")%string; EmptyString].
Proof.
  intros ann_. split; [discriminate|].
  refine (eq_trans
            (proj1 (proj2 (print_people_results_lines sample_env [ann_])) _) _);
    [discriminate | reflexivity].
Defined.

(* ================================================================== *)
(** ** The reply parser of [hunter_domain_search.py] *)

Section ReplyParser.

Lemma from_open_some (s u : string) :
  HunterCli.from_open s = Some u ->
  exists pre t,
    s = (pre ++ u)%string /\ u = String "{"%char t /\
    has_char "{"%char pre = false.
Proof.
  induction s as [|c s IH]; simpl; [discriminate|].
  destruct (Ascii.eqb c "{"%char) eqn:E.
  - intros H; inversion H; subst u. apply Ascii.eqb_eq in E; subst c.
    exists EmptyString, s. auto.
  - intros H. destruct (IH H) as (pre & t & Hs & Hu & Hpre).
    exists (String c pre), t. simpl. rewrite Hs, E. auto.
Qed.

Lemma from_open_none (s : string) :
  HunterCli.from_open s = None -> has_char "{"%char s = false.
Proof.
  induction s as [|c s IH]; simpl; [reflexivity|].
  destruct (Ascii.eqb c "{"%char); [discriminate | exact IH].
Qed.

Lemma upto_close_some (s p : string) :
  HunterCli.upto_close s = Some p ->
  exists q post,
    s = (p ++ post)%string /\ p = (q ++ "}")%string /\
    has_char "}"%char post = false.
Proof.
  revert p; induction s as [|c s IH]; intros p; simpl; [discriminate|].
  destruct (HunterCli.upto_close s) as [p'|] eqn:Hs.
  - intros H; inversion H; subst p.
    destruct (IH p' eq_refl) as (q & post & Hs' & Hp & Hpost).
    exists (String c q), post. simpl. rewrite <- Hp, <- Hs'. auto.
  - destruct (Ascii.eqb c "}"%char) eqn:E; [|discriminate].
    intros H; inversion H; subst p. apply Ascii.eqb_eq in E; subst c.
    exists EmptyString, s. simpl. split; [reflexivity|]. split; [reflexivity|].
    clear IH H. induction s as [|d s IHs]; simpl in *; [reflexivity|].
    destruct (HunterCli.upto_close s); [discriminate|].
    destruct (Ascii.eqb d "}"%char); [discriminate|]. now apply IHs.
Qed.

Lemma upto_close_none (s : string) :
  HunterCli.upto_close s = None -> has_char "}"%char s = false.
Proof.
  induction s as [|c s IH]; simpl; [reflexivity|].
  destruct (HunterCli.upto_close s); [discriminate|].
  destruct (Ascii.eqb c "}"%char); [discriminate|]. intros _. now apply IH.
Qed.

Lemma has_char_app (c : ascii) (s t : string) :
  has_char c (s ++ t) = has_char c s || has_char c t.
Proof.
  induction s as [|d s IH]; simpl; [reflexivity|].
  rewrite IH. now rewrite orb_assoc.
Qed.

(** The first opening brace is at or before any opening brace. *)
Lemma from_open_app (a rest : string) :
  exists x,
    HunterCli.from_open (a ++ String "{"%char rest)
    = Some (x ++ String "{"%char rest)%string.
Proof.
  induction a as [|d a IH]; simpl.
  - exists EmptyString. reflexivity.
  - destruct (Ascii.eqb d "{"%char).
    + exists (String d a). reflexivity.
    + exact IH.
Qed.

End ReplyParser.

(** X17.  The span handed to the JSON parser runs from the first opening
    brace of the reply to the last closing brace after it: it starts
    with an opening brace and ends with a closing one, no opening brace
    stands before it and no closing brace after it.  There is no span
    exactly when no closing brace follows an opening brace. *)
Theorem brace_span_first_to_last (text : string) :
  match HunterCli.brace_span text with
  | Some m =>
      exists pre body post,
        text = (pre ++ m ++ post)%string /\
        m = ("{" ++ body ++ "}")%string /\
        has_char "{"%char pre = false /\
        has_char "}"%char post = false
  | None =>
      forall a b c, text <> (a ++ "{" ++ b ++ "}" ++ c)%string
  end.
Proof.
  unfold HunterCli.brace_span.
  destruct (HunterCli.from_open text) as [u|] eqn:Hu.
  - destruct (HunterCli.upto_close u) as [m|] eqn:Hm.
    + destruct (from_open_some _ _ Hu) as (pre & t & Ht & Hu' & Hpre).
      destruct (upto_close_some _ _ Hm) as (q & post & Hs & Hq & Hpost).
      assert (Hb : exists body, m = ("{" ++ body ++ "}")%string).
      { rewrite Hu', Hq in Hs. destruct q as [|c q]; simpl in Hs.
        - inversion Hs.
        - inversion Hs. subst c. exists q. exact Hq. }
      destruct Hb as [body Hb].
      exists pre, body, post. rewrite Ht, Hs. auto.
    + apply upto_close_none in Hm. intros a b c Heq.
      destruct (from_open_app a (b ++ "}" ++ c)) as [x Hx].
      change (String "{"%char (b ++ "}" ++ c))
        with ("{" ++ b ++ "}" ++ c)%string in Hx.
      rewrite <- Heq, Hu in Hx. inversion Hx; subst u.
      rewrite has_char_app in Hm. simpl in Hm.
      rewrite has_char_app in Hm. simpl in Hm.
      destruct (has_char "}"%char x), (has_char "}"%char b); discriminate.
  - intros a b c Heq.
    destruct (from_open_app a (b ++ "}" ++ c)) as [x Hx].
    change (String "{"%char (b ++ "}" ++ c))
      with ("{" ++ b ++ "}" ++ c)%string in Hx.
    rewrite <- Heq, Hu in Hx. discriminate.
Qed.

(** X18.  Once the model has replied, [parse_input_with_gpt] never
    raises.  It returns what [json.loads] makes of the brace span of the
    reply (of the whole reply when there is no span), printing nothing;
    when that fails, or the reply has no content, it prints one line and
    returns the dictionary whose [domain] and [job_title] are [None]. *)
Theorem parse_reply_never_raises (loads : string -> result pyval)
    (gpt : string -> string + option string) (user_input : string)
    (text : option string) :
  gpt user_input = inr text ->
  exists lines v,
    HunterCli.parse_input_with_gpt loads gpt user_input = (lines, Ok v) /\
    ((lines = [] /\ exists t, text = Some t /\ loads (parsed_text t) = Ok v) \/
     (length lines = 1 /\ v = HunterCli.nothing_parsed /\
      forall t, text = Some t -> exists e, loads (parsed_text t) = Raise e)).
Proof.
  intros Hgpt. unfold HunterCli.parse_input_with_gpt. rewrite Hgpt.
  unfold HunterCli.parse_reply.
  destruct text as [t|].
  - assert (Harg : match HunterCli.brace_span t with
                   | Some m => loads m
                   | None => loads t
                   end = loads (parsed_text t)).
    { unfold parsed_text. destruct (HunterCli.brace_span t); reflexivity. }
    rewrite Harg.
    destruct (loads (parsed_text t)) as [v|e] eqn:Hl.
    + exists [], v. split; [reflexivity|]. left.
      split; [reflexivity|]. exists t. auto.
    + eexists; eexists. split; [reflexivity|]. right.
      split; [reflexivity|]. split; [reflexivity|].
      intros t' Ht'. inversion Ht'; subst t'. exists e. exact Hl.
  - eexists; eexists. split; [reflexivity|]. right.
    split; [reflexivity|]. split; [reflexivity|]. discriminate.
Qed.

Lemma parse_reply_never_raises_witness :
  exists lines v,
    HunterCli.parse_input_with_gpt (fun _ => Raise (ValueError "no JSON"))
      (fun _ => inr (Some "I cannot tell.")) "people at acme"
    = (lines, Ok v) /\
    ((lines = [] /\
      exists t, Some "I cannot tell." = Some t /\
                (fun _ : string => @Raise pyval (ValueError "no JSON"))
                  (parsed_text t) = Ok v) \/
     (length lines = 1 /\ v = HunterCli.nothing_parsed /\
      forall t, Some "I cannot tell." = Some t ->
        exists e, (fun _ : string => @Raise pyval (ValueError "no JSON"))
                    (parsed_text t) = Raise e)).
Proof.
  apply (parse_reply_never_raises (fun _ => Raise (ValueError "no JSON"))
           (fun _ => inr (Some "I cannot tell.")) "people at acme"
           (Some "I cannot tell.")).
  reflexivity.
Defined.

(** X19.  What [main] of the Hunter script does with the parsed reply.
    Without a domain (missing, [None] or empty) it prints that no domain
    could be extracted and makes no request.  A parsed value that is not
    an object makes it raise [AttributeError].  With a domain it makes
    one request, for that domain with limit 10 and the job title as
    [position] when there is one: the outcome depends on the network
    through the answer to that request only. *)
Theorem hunter_main_request (key : option string)
    (loads : string -> result pyval) (gpt : string -> string + option string)
    (answer : Request -> Outcome) (env : Environment) (user_input : string)
    (lines : list string) (parsed : pyval) :
  HunterCli.parse_input_with_gpt loads gpt (PyString.strip user_input)
    = (lines, Ok parsed) ->
  (forall d,
      parsed = PyDict d ->
      truthy (Dict.get "domain" PyNone d) = false ->
      HunterCli.main key loads gpt answer env user_input
      = ("Hunter.io Domain Search (with GPT input parsing)"
           :: lines ++ ["Could not extract a domain from your input."],
         Ok tt)) /\
  (is_dict parsed = false ->
   HunterCli.main key loads gpt answer env user_input
   = ("Hunter.io Domain Search (with GPT input parsing)" :: lines,
      Raise AttributeError)) /\
  (forall d answer',
      parsed = PyDict d ->
      truthy (Dict.get "domain" PyNone d) = true ->
      let rq := domain_search_request key (Dict.get "domain" PyNone d)
                  (Dict.get "job_title" PyNone d) in
      answer' rq = answer rq ->
      HunterCli.main key loads gpt answer' env user_input
      = HunterCli.main key loads gpt answer env user_input).
Proof.
  intros Hp. unfold HunterCli.main. rewrite Hp.
  split; [|split].
  - intros d -> Hd. unfold pbind, print, plift. cbn [Py.get].
    rewrite Hd. cbn [negb]. simpl. reflexivity.
  - intros Hd. destruct parsed; try discriminate; simpl;
      now rewrite app_nil_r.
  - intros d answer' -> Hd Hrq.
    set (rq := domain_search_request key (Dict.get "domain" PyNone d)
                 (Dict.get "job_title" PyNone d)) in *.
    assert (Hparams :
              HunterDomainSearch.params key (Dict.get "domain" PyNone d)
                (Dict.get "job_title" PyNone d) (PyInt 10)
              = req_params rq).
    { unfold HunterDomainSearch.params, rq, domain_search_request. simpl.
      destruct (truthy (Dict.get "job_title" PyNone d)); reflexivity. }
    unfold pbind, plift. cbn [Py.get]. rewrite Hd. cbn [negb].
    unfold HunterDomainSearch.domain_search. rewrite Hparams.
    change (mkRequest GET HunterDomainSearch.API_URL [] (req_params rq) None)
      with rq.
    now rewrite Hrq.
Qed.

Lemma hunter_main_request_witness :
  HunterCli.main None (fun _ => Raise (ValueError "no JSON"))
    (fun _ => inr (Some "I cannot tell."))
    (fun _ => ConnectionFailure "unused")
    (answering (ConnectionFailure "unused")) "  people at acme "
  = (["Hunter.io Domain Search (with GPT input parsing)";
      "Could not parse GPT output: I cannot tell.";
      "Could not extract a domain from your input."], Ok tt).
Proof.
  apply (proj1 (hunter_main_request None (fun _ => Raise (ValueError "no JSON"))
                  (fun _ => inr (Some "I cannot tell."))
                  (fun _ => ConnectionFailure "unused")
                  (answering (ConnectionFailure "unused")) "  people at acme "
                  ["Could not parse GPT output: I cannot tell."]
                  HunterCli.nothing_parsed eq_refl)
           [("domain", PyNone); ("job_title", PyNone)]);
    reflexivity.
Defined.

(* ================================================================== *)
(** ** The entry point of [apollo_people_search.py] *)

Section ApolloScript.

Lemma split_comma_nonempty (s : string) : ApolloCli.split_comma s <> [].
Proof.
  destruct s as [|c s]; simpl; [discriminate|].
  destruct (Ascii.eqb c ","%char); [discriminate|].
  destruct (ApolloCli.split_comma s); discriminate.
Qed.

(** A filter of the request body is there exactly when its argument is
    true in the Python sense. *)
Lemma payload_filter_lookup (a : ApolloPeopleSearch.Args) (key : string)
    (v : pyval) :
  In (key, v) (ApolloPeopleSearch.filters a) ->
  Dict.lookup key (ApolloPeopleSearch.payload a)
  = if truthy v then Some v else None.
Proof.
  intros Hin.
  unfold ApolloPeopleSearch.payload, ApolloPeopleSearch.filters in *.
  cbn [fold_left fst snd]. cbn [In] in Hin.
  repeat (destruct Hin as [Hin | Hin];
          [ inversion Hin; subst key v; clear Hin;
            rewrite !lookup_add_if; cbn [String.eqb Ascii.eqb Bool.eqb];
            rewrite ?andb_false_r, ?andb_true_r;
            cbn [Dict.lookup String.eqb Ascii.eqb Bool.eqb];
            match goal with |- context [truthy ?x] => destruct (truthy x) end;
            reflexivity
          | ]).
  contradiction.
Qed.

Lemma csv_filter_lookup (s : string) :
  (if truthy (ApolloCli.csv_filter (PyString.strip s))
   then Some (ApolloCli.csv_filter (PyString.strip s))
   else None)
  = asked s.
Proof.
  unfold ApolloCli.csv_filter, asked. simpl.
  destruct (String.eqb (PyString.strip s) EmptyString); simpl; [reflexivity|].
  pose proof (split_comma_nonempty (PyString.strip s)) as H.
  destruct (ApolloCli.split_comma (PyString.strip s)); [contradiction|].
  reflexivity.
Qed.

Lemma all_digits_is_ascii (s : string) :
  ApolloCli.all_digits s = true -> ApolloCli.is_ascii s = true.
Proof.
  induction s as [|c t IH]; simpl; [reflexivity|].
  intros H. apply andb_true_iff in H. destruct H as [Hc Ht].
  rewrite (IH Ht), andb_true_r.
  unfold ApolloCli.is_digit in Hc. apply andb_true_iff in Hc.
  destruct Hc as [_ Hc]. apply Nat.leb_le in Hc. apply Nat.ltb_lt. lia.
Qed.

(** The filters of the body built from the arguments of the script. *)
Lemma script_payload_filters (a : ApolloCli.Answers) (n : Z) :
  let body := ApolloPeopleSearch.payload
    (ApolloPeopleSearch.mkArgs
       (ApolloCli.csv_filter (PyString.strip (ApolloCli.titles a)))
       (PyBool true)
       (ApolloCli.csv_filter (PyString.strip (ApolloCli.locations a)))
       (ApolloCli.csv_filter (PyString.strip (ApolloCli.seniorities a)))
       PyNone
       (ApolloCli.csv_filter (PyString.strip (ApolloCli.org_domains a)))
       PyNone PyNone PyNone
       (if truthy (PyStr (PyString.strip (ApolloCli.keywords a)))
        then PyStr (PyString.strip (ApolloCli.keywords a)) else PyNone)
       (PyInt 1) (PyInt n)) in
  Dict.lookup "person_titles" body = asked (ApolloCli.titles a) /\
  Dict.lookup "person_locations" body = asked (ApolloCli.locations a) /\
  Dict.lookup "person_seniorities" body = asked (ApolloCli.seniorities a) /\
  Dict.lookup "q_organization_domains_list" body
    = asked (ApolloCli.org_domains a) /\
  Dict.lookup "q_keywords" body
    = (if String.eqb (PyString.strip (ApolloCli.keywords a)) EmptyString
       then None
       else Some (PyStr (PyString.strip (ApolloCli.keywords a)))) /\
  Dict.lookup "organization_locations" body = None /\
  Dict.lookup "contact_email_status" body = None /\
  Dict.lookup "organization_ids" body = None /\
  Dict.lookup "organization_num_employees_ranges" body = None /\
  Dict.lookup "page" body = Some (PyInt 1) /\
  Dict.lookup "per_page" body = Some (PyInt n).
Proof.
  intros body. subst body.
  repeat split;
    try (erewrite payload_filter_lookup by (simpl; tauto);
         cbn [ApolloPeopleSearch.person_titles
              ApolloPeopleSearch.person_locations
              ApolloPeopleSearch.person_seniorities
              ApolloPeopleSearch.q_organization_domains_list
              ApolloPeopleSearch.q_keywords
              ApolloPeopleSearch.organization_locations
              ApolloPeopleSearch.contact_email_status
              ApolloPeopleSearch.organization_ids
              ApolloPeopleSearch.organization_num_employees_ranges]).
  - apply csv_filter_lookup.
  - apply csv_filter_lookup.
  - apply csv_filter_lookup.
  - apply csv_filter_lookup.
  - simpl.
    destruct (String.eqb (PyString.strip (ApolloCli.keywords a)) EmptyString)
      eqn:E; simpl; [reflexivity|]. now rewrite E.
  - reflexivity.
  - reflexivity.
  - reflexivity.
  - reflexivity.
  - unfold ApolloPeopleSearch.payload.
    rewrite lookup_fold_add_if_other; [reflexivity|].
    simpl; intuition discriminate.
  - unfold ApolloPeopleSearch.payload.
    rewrite lookup_fold_add_if_other; [reflexivity|].
    simpl; intuition discriminate.
Qed.

(** The arguments are built exactly when the page size can be read. *)
Lemma main_args_eq (interp : ApolloCli.Interpreter) (a : ApolloCli.Answers) :
  let typed := PyString.strip (ApolloCli.per_page_answer a) in
  let args n :=
    ApolloPeopleSearch.mkArgs
      (ApolloCli.csv_filter (PyString.strip (ApolloCli.titles a)))
      (PyBool true)
      (ApolloCli.csv_filter (PyString.strip (ApolloCli.locations a)))
      (ApolloCli.csv_filter (PyString.strip (ApolloCli.seniorities a)))
      PyNone
      (ApolloCli.csv_filter (PyString.strip (ApolloCli.org_domains a)))
      PyNone PyNone PyNone
      (if truthy (PyStr (PyString.strip (ApolloCli.keywords a)))
       then PyStr (PyString.strip (ApolloCli.keywords a)) else PyNone)
      (PyInt 1) (PyInt n) in
  ApolloCli.main_args interp a
  = if ApolloCli.isdigit interp typed
    then match ApolloCli.int interp typed with
         | Ok n => Ok (args n)
         | Raise e => Raise e
         end
    else Ok (args 10%Z).
Proof.
  intros typed args. unfold ApolloCli.main_args. fold typed.
  destruct (ApolloCli.isdigit interp typed); [|reflexivity].
  destruct (ApolloCli.int interp typed); reflexivity.
Qed.

End ApolloScript.

(** X20.  What the answers at the prompts of the Apollo script put into
    the request body.  The arguments of the search are built unless the
    page size typed passes [isdigit] and is refused by [int], in which
    case [main] raises that [ValueError].  When they are built: a blank
    answer (white space of any kind only) leaves its filter out; any
    other answer to a comma-separated prompt is sent as the list of its
    parts, each stripped (empty parts included); the keywords are sent as
    typed, stripped; the four filters the script never asks for are never
    sent; the page is 1; and the page size is the number typed when the
    answer passes [isdigit], 10 otherwise.  In particular a numeral of
    ASCII digits within the digit limit is sent as its value, and any
    other ASCII answer gives 10. *)
Theorem apollo_script_filters (interp : ApolloCli.Interpreter)
    (a : ApolloCli.Answers) :
  let typed := PyString.strip (ApolloCli.per_page_answer a) in
  (forall e,
      ApolloCli.main_args interp a = Raise e <->
      ApolloCli.isdigit interp typed = true /\
      ApolloCli.int interp typed = Raise e) /\
  (forall args,
      ApolloCli.main_args interp a = Ok args ->
      let body := ApolloPeopleSearch.payload args in
      Dict.lookup "person_titles" body = asked (ApolloCli.titles a) /\
      Dict.lookup "person_locations" body = asked (ApolloCli.locations a) /\
      Dict.lookup "person_seniorities" body
        = asked (ApolloCli.seniorities a) /\
      Dict.lookup "q_organization_domains_list" body
        = asked (ApolloCli.org_domains a) /\
      Dict.lookup "q_keywords" body
        = (if String.eqb (PyString.strip (ApolloCli.keywords a)) EmptyString
           then None
           else Some (PyStr (PyString.strip (ApolloCli.keywords a)))) /\
      Dict.lookup "organization_locations" body = None /\
      Dict.lookup "contact_email_status" body = None /\
      Dict.lookup "organization_ids" body = None /\
      Dict.lookup "organization_num_employees_ranges" body = None /\
      Dict.lookup "page" body = Some (PyInt 1) /\
      exists n,
        Dict.lookup "per_page" body = Some (PyInt n) /\
        (if ApolloCli.isdigit interp typed
         then ApolloCli.int interp typed = Ok n
         else n = 10%Z)) /\
  (ApolloCli.all_digits typed = true ->
   typed <> EmptyString ->
   ApolloCli.within_limit interp typed = true ->
   exists args,
     ApolloCli.main_args interp a = Ok args /\
     Dict.lookup "per_page" (ApolloPeopleSearch.payload args)
     = Some (PyInt (ApolloCli.int_digits 0 typed))) /\
  (ApolloCli.is_ascii typed = true ->
   typed = EmptyString \/ ApolloCli.all_digits typed = false ->
   exists args,
     ApolloCli.main_args interp a = Ok args /\
     Dict.lookup "per_page" (ApolloPeopleSearch.payload args)
     = Some (PyInt 10)).
Proof.
  intros typed. pose proof (main_args_eq interp a) as E. cbv zeta in E.
  fold typed in E.
  split; [|split; [|split]].
  - intros e. rewrite E. split.
    + destruct (ApolloCli.isdigit interp typed); [|discriminate].
      destruct (ApolloCli.int interp typed); [discriminate|].
      intros H. inversion H. now split.
    + intros [H1 H2]. now rewrite H1, H2.
  - intros args Hargs. rewrite E in Hargs.
    assert (Hn : exists n,
      args = ApolloPeopleSearch.mkArgs
        (ApolloCli.csv_filter (PyString.strip (ApolloCli.titles a)))
        (PyBool true)
        (ApolloCli.csv_filter (PyString.strip (ApolloCli.locations a)))
        (ApolloCli.csv_filter (PyString.strip (ApolloCli.seniorities a)))
        PyNone
        (ApolloCli.csv_filter (PyString.strip (ApolloCli.org_domains a)))
        PyNone PyNone PyNone
        (if truthy (PyStr (PyString.strip (ApolloCli.keywords a)))
         then PyStr (PyString.strip (ApolloCli.keywords a)) else PyNone)
        (PyInt 1) (PyInt n) /\
      (if ApolloCli.isdigit interp typed
       then ApolloCli.int interp typed = Ok n else n = 10%Z)).
    { destruct (ApolloCli.isdigit interp typed).
      - destruct (ApolloCli.int interp typed) as [n|e]; [|discriminate].
        exists n. inversion Hargs. now split.
      - exists 10%Z. inversion Hargs. now split. }
    destruct Hn as [n [-> Hn]].
    destruct (script_payload_filters a n)
      as (F1 & F2 & F3 & F4 & F5 & F6 & F7 & F8 & F9 & F10 & F11).
    cbv zeta. repeat (split; [assumption|]).
    exists n. split; assumption.
  - intros Hd Hne Hl. rewrite E.
    unfold ApolloCli.isdigit, ApolloCli.int.
    rewrite (all_digits_is_ascii _ Hd), Hd, Hl.
    destruct (String.eqb typed EmptyString) eqn:Ee;
      [apply String.eqb_eq in Ee; contradiction|].
    cbn [negb andb]. eexists. split; [reflexivity|].
    apply (script_payload_filters a).
  - intros Ha Hn. rewrite E. unfold ApolloCli.isdigit. rewrite Ha.
    assert (Hf : negb (String.eqb typed EmptyString)
                 && ApolloCli.all_digits typed = false).
    { destruct Hn as [-> | Hn]; [reflexivity|]. rewrite Hn. apply andb_false_r. }
    rewrite Hf. eexists. split; [reflexivity|].
    apply (script_payload_filters a).
Qed.

(** A superscript two passes [isdigit] and is refused by [int]: the
    script stops there.  A page size typed between two no-break spaces is
    read as the number. *)
Lemma apollo_script_filters_witness :
  let interp := ApolloCli.mkInterpreter
    (fun _ => true)
    (fun _ => Raise (ValueError "invalid literal for int() with base 10"))
    4300 in
  let nbsp := String (ascii_of_nat 194) (String (ascii_of_nat 160) EmptyString) in
  let a := ApolloCli.mkAnswers "ceo, cto" nbsp EmptyString EmptyString
             " sales " (nbsp ++ "25" ++ nbsp) in
  exists args,
    ApolloCli.main_args interp a = Ok args /\
    Dict.lookup "per_page" (ApolloPeopleSearch.payload args) = Some (PyInt 25).
Proof.
  intros interp nbsp a.
  apply (proj1 (proj2 (proj2 (apollo_script_filters interp a))));
    [reflexivity | discriminate | reflexivity].
Defined.
(** Once its arguments are built, the script is its call of
    [people_search] followed by the printer. *)
Lemma apollo_main_with_args (interp : ApolloCli.Interpreter)
    (key : option string) (answer : Request -> Outcome) (env : Environment)
    (a : ApolloCli.Answers) (args : ApolloPeopleSearch.Args) :
  ApolloCli.main_args interp a = Ok args ->
  ApolloCli.main interp key answer env a
  = (print "Apollo People Search" ;;~
     print "Enter search filters (leave blank to skip):" ;;~
     data <~ ApolloPeopleSearch.people_search key answer args ;;
     if truthy data then ApolloCli.print_contacts env data else pret tt).
Proof.
  intros H. unfold ApolloCli.main. rewrite H. unfold plift, pbind.
  cbn [print fst snd app].
  destruct (ApolloPeopleSearch.people_search key answer args) as [out [v|e]];
    [|reflexivity].
  destruct (if truthy v then ApolloCli.print_contacts env v else pret tt);
    reflexivity.
Qed.

(** X21.  The outcomes of the Apollo script.  When the page size typed
    passes [isdigit] and is refused by [int], the script raises that
    [ValueError] after its two opening lines, before any call and
    whether a key is set or not.  Otherwise: without a key it raises
    [ValueError] after its two opening lines.  When the response has a
    status other than 200 it prints the error line and nothing else.
    When the status is 200 and the body is empty ([null], [{}], [[]],
    0, ...) it prints nothing more; and when the body is an object
    without [contacts] (or with an empty one) it prints "No contacts
    found.", whatever else the body holds. *)
Theorem apollo_script_outcomes (interp : ApolloCli.Interpreter)
    (key : option string) (answer : Request -> Outcome) (env : Environment)
    (a : ApolloCli.Answers) :
  (forall e,
      ApolloCli.main_args interp a = Raise e ->
      ApolloCli.main interp key answer env a = (apollo_banner, Raise e)) /\
  (forall args,
      ApolloCli.main_args interp a = Ok args ->
      let rq := people_search_request key args in
      (configured key = false ->
       ApolloCli.main interp key answer env a
       = (apollo_banner,
          Raise (ValueError "APOLLO_API_KEY environment variable not set."))) /\
      (forall response,
          configured key = true ->
          answer rq = Responded response ->
          ((status_code response =? 200)%Z = false ->
           ApolloCli.main interp key answer env a
           = (apollo_banner ++ [error_line response], Ok tt)) /\
          (forall data,
              (status_code response =? 200)%Z = true ->
              decoded response = inr data ->
              truthy data = false ->
              ApolloCli.main interp key answer env a = (apollo_banner, Ok tt)) /\
          (forall d,
              (status_code response =? 200)%Z = true ->
              decoded response = inr (PyDict d) ->
              d <> [] ->
              truthy (Dict.get "contacts" (PyList []) d) = false ->
              ApolloCli.main interp key answer env a
              = (apollo_banner ++ ["No contacts found."], Ok tt)))).
Proof.
  split.
  - intros e He. unfold ApolloCli.main. rewrite He. reflexivity.
  - intros args Hargs rq.
    rewrite (apollo_main_with_args interp key answer env a args Hargs).
    unfold ApolloPeopleSearch.people_search.
    fold (people_search_request key args). fold rq.
    split.
    + intros Hkey. rewrite Hkey. reflexivity.
    + intros response Hkey Hnet. rewrite Hkey, Hnet. cbn [negb].
      split; [|split].
      * intros Hs. rewrite Hs. reflexivity.
      * intros data Hs Hd Ht. rewrite Hs. unfold json. rewrite Hd.
        unfold pbind, plift, print. cbn [negb]. rewrite Ht. reflexivity.
      * intros d Hs Hd Hne Ht. rewrite Hs. unfold json. rewrite Hd.
        unfold pbind, plift, print. cbn [negb].
        assert (T : truthy (PyDict d) = true)
          by (destruct d; [contradiction|reflexivity]).
        rewrite T. unfold ApolloCli.print_contacts, pbind, plift, print.
        cbn [Py.get]. rewrite Ht. reflexivity.
Qed.

(** A page size of one superscript two: nothing is sent, the script ends
    with the [ValueError] of [int]. *)
Lemma apollo_script_outcomes_witness :
  let interp := ApolloCli.mkInterpreter
    (fun _ => true)
    (fun _ => Raise (ValueError "invalid literal for int() with base 10"))
    4300 in
  let squared := String (ascii_of_nat 194) (String (ascii_of_nat 178) EmptyString) in
  ApolloCli.main interp (Some "apollo-key")
    (fun _ => Responded (response_with 200 "OK" EmptyString (inr body_two_people)))
    (answering (ConnectionFailure "unused"))
    (ApolloCli.mkAnswers "ceo" EmptyString EmptyString EmptyString EmptyString
       squared)
  = (apollo_banner,
     Raise (ValueError "invalid literal for int() with base 10")).
Proof.
  intros interp squared.
  apply (proj1 (apollo_script_outcomes interp (Some "apollo-key")
                  (fun _ => Responded
                     (response_with 200 "OK" EmptyString (inr body_two_people)))
                  (answering (ConnectionFailure "unused"))
                  (ApolloCli.mkAnswers "ceo" EmptyString EmptyString EmptyString
                     EmptyString squared))).
  reflexivity.
Defined.

(* ================================================================== *)
(** ** The interactive session of [main.py] *)

Section SessionFacts.

Variable system : LeadGenerationSystem.
Variable env : Environment.
Variable host : LeadCli.Host.

(** Without a search key no line typed leads to a call or to a file. *)
Lemma main_loop_without_search_key (stdin : list string) :
  configured (apollo_api_key system) = false ->
  configured (hunter_api_key system) = false ->
  forall s,
    LeadCli.world (snd (LeadCli.main_loop system env host stdin s))
      = LeadCli.world s /\
    LeadCli.exports (snd (LeadCli.main_loop system env host stdin s))
      = LeadCli.exports s.
Proof.
  intros Ha Hh. induction stdin as [|line rest IH]; intros s; simpl.
  - auto.
  - destruct (LeadCli.is_quit (PyString.strip line)); [simpl; auto|].
    destruct (negb _).
    + destruct (IH (LeadCli.mkSession (LeadCli.world s) (LeadCli.exports s)
                      (S (LeadCli.turns s)))) as [W E].
      simpl in W, E. auto.
    + rewrite search_without_search_key by assumption. simpl.
      destruct (IH (LeadCli.mkSession (LeadCli.world s) (LeadCli.exports s)
                      (S (LeadCli.turns s)))) as [W E].
      simpl in W, E. auto.
Qed.

Lemma export_results_well_formed (people : list ref) (s : LeadCli.Session) :
  people <> [] ->
  Forall (well_formed_export host) (LeadCli.exports s) ->
  Forall (well_formed_export host)
    (LeadCli.exports (LeadCli.export_results host people s)).
Proof.
  intros Hne H. unfold LeadCli.export_results.
  destruct (LeadCli.can_open host _); [|exact H].
  simpl. apply Forall_app. split; [exact H|].
  constructor; [|constructor].
  unfold well_formed_export. simpl.
  split; [reflexivity|]. split.
  - destruct people; [contradiction | discriminate].
  - split.
    + apply Forall_forall. intros row Hrow. apply in_map_iff in Hrow.
      destruct Hrow as (r & <- & _). reflexivity.
    + exists (LeadCli.turns s). reflexivity.
Qed.

(** Every file the loop adds is well formed. *)
Lemma main_loop_exports (n : nat) :
  forall stdin s,
    length stdin <= n ->
    Forall (well_formed_export host) (LeadCli.exports s) ->
    Forall (well_formed_export host)
      (LeadCli.exports (snd (LeadCli.main_loop system env host stdin s))).
Proof.
  induction n as [|n IH]; intros stdin s Hlen Hs.
  - destruct stdin; [exact Hs | simpl in Hlen; lia].
  - destruct stdin as [|line rest]; [exact Hs|].
    simpl in Hlen. simpl.
    destruct (LeadCli.is_quit (PyString.strip line)); [exact Hs|].
    destruct (negb _); [apply IH; [lia | exact Hs]|].
    destruct (search_by_natural_language system env (PyString.strip line)
                (LeadCli.world s)) as [[people|e] w1].
    2:{ apply IH; [lia | exact Hs]. }
    destruct (nonempty people) eqn:Hne; [|apply IH; [lia | exact Hs]].
    destruct rest as [|reply rest']; [exact Hs|].
    simpl in Hlen.
    destruct (String.eqb _ "y").
    + apply IH; [lia|]. apply export_results_well_formed; [|exact Hs].
      destruct people; [discriminate Hne | discriminate].
    + apply IH; [lia | exact Hs].
Qed.

End SessionFacts.

(** X22.  A session without an Apollo key and without a Hunter key (a
    Clado key alone passes the start-up check) makes no call and writes
    no file, whatever is typed. *)
Theorem session_without_search_key (system : LeadGenerationSystem)
    (env : Environment) (host : LeadCli.Host) (stdin : list string) (w : World) :
  configured (apollo_api_key system) = false ->
  configured (hunter_api_key system) = false ->
  let run := LeadCli.main system env host stdin w in
  LeadCli.world (snd run) = w /\ LeadCli.exports (snd run) = [].
Proof.
  intros Ha Hh run. subst run. unfold LeadCli.main.
  destruct (negb _); [simpl; auto|].
  apply (main_loop_without_search_key system env host stdin Ha Hh
           (LeadCli.mkSession w [] 0)).
Qed.

Lemma session_without_search_key_witness :
  let run := LeadCli.main (mkSystem None None (Some "clado-key") None)
               sample_env (LeadCli.mkHost (fun _ => 0%Z) (fun _ => true))
               ["People working in FAANG"; "y"; "quit"] empty_world in
  LeadCli.world (snd run) = empty_world /\ LeadCli.exports (snd run) = [].
Proof.
  apply (session_without_search_key (mkSystem None None (Some "clado-key") None));
    reflexivity.
Defined.

(** X23.  Every file a session exports has the header name, email,
    phone, job_title, company, location, linkedin_url, at least one row,
    rows with exactly these columns in this order, and a name of the
    form leads_<time>.csv: an empty result is never exported. *)
Theorem session_exports_well_formed (system : LeadGenerationSystem)
    (env : Environment) (host : LeadCli.Host) (stdin : list string) (w : World) :
  Forall (well_formed_export host)
    (LeadCli.exports (snd (LeadCli.main system env host stdin w))).
Proof.
  unfold LeadCli.main. destruct (negb _); [constructor|].
  apply (main_loop_exports system env host (length stdin)); [lia | constructor].
Qed.

(* ================================================================== *)
(** ** What enrichment fills in *)

Section Filling.

Variable self : LeadGenerationSystem.
Variable env : Environment.

Lemma contacts_loop_touches (person : ref) (items : list pyval) (w : World) :
  touches person w
    (snd (for_each items (fun _ contact => apply_contact person contact) tt w)).
Proof.
  apply for_each_invariant.
  - apply touches_refl.
  - apply touches_trans.
  - intros _ contact w' _. apply apply_contact_touches.
Qed.

Lemma apply_contact_step (person : ref) (d : dict) (t v : pyval) (w : World) :
  Dict.lookup "type" d = Some t ->
  Dict.lookup "value" d = Some v ->
  apply_contact person (PyDict d) w = (Ok tt, contact_step person t v w).
Proof.
  intros Et Ev. unfold apply_contact, contact_step, bind, lift, deref, ret.
  cbn [Py.item]. rewrite Et, Ev.
  destruct (eq_str t "email" && negb (truthy (email (heap w person))));
    [reflexivity|].
  destruct (eq_str t "phone" && negb (truthy (phone (heap w person))));
    reflexivity.
Qed.

Lemma eq_str_email_phone (t : pyval) :
  eq_str t "email" = true -> eq_str t "phone" = false.
Proof.
  destruct t; try discriminate. simpl. intros H.
  apply String.eqb_eq in H. subst s. reflexivity.
Qed.

(** The [email] and the [phone] once a contact has been applied. *)
Lemma contact_step_fields (person : ref) (t v : pyval) (w : World) :
  email (heap (contact_step person t v w) person)
    = (if eq_str t "email" && negb (truthy (email (heap w person)))
       then v else email (heap w person)) /\
  phone (heap (contact_step person t v w) person)
    = (if eq_str t "phone" && negb (truthy (phone (heap w person)))
       then v else phone (heap w person)).
Proof.
  unfold contact_step.
  destruct (eq_str t "email") eqn:Hte.
  - rewrite (eq_str_email_phone t Hte). cbn [andb].
    destruct (truthy (email (heap w person))); cbn [negb].
    + auto.
    + unfold set_email. simpl. rewrite upd_same. auto.
  - cbn [andb].
    destruct (eq_str t "phone" && negb (truthy (phone (heap w person)))).
    + unfold set_phone. simpl. rewrite upd_same. auto.
    + auto.
Qed.

(** Walking through well-formed contacts, an empty [email] takes the
    value of the first contact of type "email" whose value is not empty,
    and an empty [phone] that of the first such contact of type
    "phone". *)
Lemma contacts_loop_fills (person : ref) (items : list pyval) :
  forall w,
    forallb is_contact items = true ->
    let w' :=
      snd (for_each items (fun _ contact => apply_contact person contact) tt w) in
    (truthy (email (heap w person)) = false ->
     forall v, first_filled "email" items = Some v ->
               email (heap w' person) = v) /\
    (truthy (phone (heap w person)) = false ->
     forall v, first_filled "phone" items = Some v ->
               phone (heap w' person) = v).
Proof.
  induction items as [|x rest IH]; intros w Hall.
  - split; intros _ v H; discriminate H.
  - simpl in Hall. apply andb_prop in Hall. destruct Hall as [Hx Hrest].
    destruct x as [| | | | | |d]; try discriminate.
    simpl in Hx. apply andb_prop in Hx. destruct Hx as [Ht Hv].
    unfold Dict.mem in Ht, Hv.
    destruct (Dict.lookup "type" d) as [t|] eqn:Et; [|discriminate].
    destruct (Dict.lookup "value" d) as [v0|] eqn:Ev; [|discriminate].
    cbn zeta. cbn [for_each]. unfold bind.
    rewrite !(apply_contact_step person d t v0 w Et Ev).
    set (w1 := contact_step person t v0 w).
    destruct (contact_step_fields person t v0 w) as [F1 F2]. fold w1 in F1, F2.
    destruct (contacts_loop_touches person rest w1)
      as (_ & _ & _ & (_ & _ & _ & _ & _ & KE & KP)).
    specialize (IH w1 Hrest). cbn zeta in IH. destruct IH as [IHe IHp].
    cbn [first_filled]. unfold fills. cbn [Py.item]. rewrite Et, Ev.
    split.
    + intros He v. rewrite He in F1. cbn [negb] in F1. rewrite andb_true_r in F1.
      destruct (eq_str t "email") eqn:Hte; cbn [andb].
      * destruct (truthy v0) eqn:Hv0.
        -- intros H; inversion H; subst v.
           rewrite KE; [exact F1 | now rewrite F1].
        -- apply IHe. now rewrite F1.
      * apply IHe. now rewrite F1.
    + intros Hp v. rewrite Hp in F2. cbn [negb] in F2. rewrite andb_true_r in F2.
      destruct (eq_str t "phone") eqn:Htp; cbn [andb].
      * destruct (truthy v0) eqn:Hv0.
        -- intros H; inversion H; subst v.
           rewrite KP; [exact F2 | now rewrite F2].
        -- apply IHp. now rewrite F2.
      * apply IHp. now rewrite F2.
Qed.

End Filling.

(** X13.  What a successful lookup fills in.  When the lookup of a
    record is answered with status 200 and contacts that are all objects
    with a [type] and a [value], an empty [email] of the record becomes
    the value of the first contact of type "email" whose value is not
    empty, and an empty [phone] the value of the first such contact of
    type "phone". *)
Theorem enrich_fills_from_first_contact (self : LeadGenerationSystem)
    (env : Environment) (person : ref) (w : World) (rq : Request)
    (response : Response) (items : list pyval) :
  configured (clado_api_key self) = true ->
  clado_request self (heap w person) = [rq] ->
  net env (length (calls w)) rq = Responded response ->
  status_code response = 200%Z ->
  response_contacts response = Ok items ->
  forallb is_contact items = true ->
  let w' := snd (enrich_with_clado self env [person] w) in
  (truthy (email (heap w person)) = false ->
   forall v, first_filled "email" items = Some v -> email (heap w' person) = v) /\
  (truthy (phone (heap w person)) = false ->
   forall v, first_filled "phone" items = Some v -> phone (heap w' person) = v).
Proof.
  intros Hkey Hrq Hnet Hstatus Hitems Hall.
  pose proof (contacts_loop_fills person items (after_call w rq) Hall) as H.
  cbn zeta in H.
  assert (Hw : snd (enrich_with_clado self env [person] w)
               = snd (for_each items
                        (fun _ contact => apply_contact person contact) tt
                        (after_call w rq))).
  { unfold enrich_with_clado. rewrite Hkey. cbn [negb for_each].
    unfold bind at 1, enrich_iteration, try_except, enrich_try.
    unfold bind at 1, deref. unfold clado_request in Hrq.
    destruct (clado_params (heap w person)) as [params|]; [|discriminate].
    inversion Hrq as [Hrq']. unfold requests_get, send, bind at 1.
    rewrite Hrq', Hnet. fold (after_call w rq).
    unfold bind at 1, apply_response. rewrite Hstatus. cbn [Z.eqb Pos.eqb].
    unfold bind at 1, lift. rewrite Hitems.
    destruct (for_each items (fun _ contact => apply_contact person contact) tt
                (after_call w rq)) as [[[]|e] w2]; reflexivity. }
  cbn zeta. rewrite Hw. exact H.
Qed.

Lemma enrich_fills_from_first_contact_witness :
  let contacts :=
    [PyDict [("type", PyStr "email"); ("value", PyStr EmptyString)];
     PyDict [("type", PyStr "phone"); ("value", PyStr "+33 1 00 00 00 00")];
     PyDict [("type", PyStr "email"); ("value", PyStr "ann@example.test")];
     PyDict [("type", PyStr "email"); ("value", PyStr "other@example.test")]] in
  let env := ok_with (PyDict [("data", PyList [PyDict [("contacts", PyList contacts)]])]) in
  let w' := snd (enrich_with_clado all_keys env [0] (world_of [ann])) in
  email (heap w' 0) = PyStr "ann@example.test" /\
  phone (heap w' 0) = PyStr "+33 1 00 00 00 00".
Proof.
  intros contacts env w'.
  destruct (enrich_fills_from_first_contact all_keys env 0 (world_of [ann])
              (mkRequest GET clado_url (clado_headers all_keys)
                 [("linkedin_url", PyStr "https://linkedin.example/in/ann")] None)
              (response_with 200 "OK" EmptyString
                 (inr (PyDict [("data", PyList [PyDict [("contacts", PyList contacts)]])])))
              contacts eq_refl eq_refl eq_refl eq_refl eq_refl eq_refl)
    as [E P].
  split; [apply E | apply P]; reflexivity.
Defined.


Lemma apollo_payload_shape_witness :
  In "organization_names" apollo_body_keys.
Proof.
  apply (proj2 (proj2 (apollo_payload_shape faang_criteria))
           "organization_names").
  reflexivity.
Defined.

Lemma brace_span_first_to_last_witness :
  exists pre body post,
    "Here you go: {a} and {b}. Bye"
      = (pre ++ "{a} and {b}" ++ post)%string /\
    "{a} and {b}" = ("{" ++ body ++ "}")%string /\
    has_char "{"%char pre = false /\
    has_char "}"%char post = false.
Proof. exact (brace_span_first_to_last "Here you go: {a} and {b}. Bye"). Defined.
